(** * DISCOM-CONNECT backend: auth middleware, error middleware,
      meter-reading controllers and user model

    A shallow embedding of the TypeScript sources.  Asynchronous handlers
    are modelled as pure functions from the request, the authenticated
    identity, the environment and the database state to an outcome and a
    new state; a handler that awaits the database twice is also given as
    its two steps.  The collaborators the code calls but does not define
    (jsonwebtoken, the SHA-256 digest, the random source, the spherical
    geometry of the database) are section variables.  Whole numbers are
    integers rounded as doubles round; the one quotient that is no whole
    number is a binary64 value of the Standard Library. *)

From Stdlib Require Import ZArith QArith Ascii String List Lia.
From Stdlib Require SpecFloat.
From stdpp Require Import base option list strings pretty sorting gmap.

Open Scope string_scope.
Open Scope Z_scope.

(** ** JavaScript primitives used by the sources *)
Module Js.

(** [s.startsWith(p)] *)
Definition startsWith (s p : string) : bool := String.prefix p s.

(** [s.split(sep)] for a one-character separator. *)
Fixpoint split (sep : ascii) (s : string) : list string :=
  match s with
  | EmptyString => [EmptyString]
  | String c s' =>
      if Ascii.eqb c sep then EmptyString :: split sep s'
      else match split sep s' with
           | [] => [String c EmptyString]
           | w :: ws => String c w :: ws
           end
  end.

(** [s.includes(c)] for one character. *)
Fixpoint has_char (c : ascii) (s : string) : bool :=
  match s with
  | EmptyString => false
  | String c' s' => Ascii.eqb c' c || has_char c s'
  end.

(** Truthiness of a string that may be [undefined]. *)
Definition truthy_str (o : option string) : bool :=
  match o with
  | Some s => negb (String.eqb s "")
  | None => false
  end.

(** [a || b] on strings. *)
Definition or_str (o : option string) (d : string) : string :=
  if truthy_str o then default d o else d.

(** [a || b] on numbers (NaN is [None]): NaN and zero give [b]. *)
Definition or_num (o : option Z) (d : Z) : Z :=
  match o with
  | Some n => if Z.eqb n 0 then d else n
  | None => d
  end.

(** A template literal renders [undefined] as the word. *)
Definition render (o : option string) : string := default "undefined" o.

(** [xs.join(sep)] *)
Fixpoint join (sep : string) (xs : list string) : string :=
  match xs with
  | [] => ""
  | [x] => x
  | x :: rest => x +:+ sep +:+ join sep rest
  end.

(** A string is the sequence of its code units, each below 256.  The
    white space of ECMAScript in that range: TAB, LF, VT, FF, CR, SP and
    the no-break space. *)
Definition is_space (c : ascii) : bool :=
  let n := nat_of_ascii c in
  (Nat.eqb n 32 || Nat.eqb n 9 || Nat.eqb n 10 || Nat.eqb n 11
   || Nat.eqb n 12 || Nat.eqb n 13 || Nat.eqb n 160)%bool.

(** [s.trimStart()] *)
Fixpoint skip_spaces (s : string) : string :=
  match s with
  | String c s' => if is_space c then skip_spaces s' else s
  | EmptyString => s
  end.

(** [s.trimEnd()] *)
Fixpoint trimEnd (s : string) : string :=
  match s with
  | EmptyString => EmptyString
  | String c s' =>
      match trimEnd s' with
      | EmptyString => if is_space c then EmptyString else String c EmptyString
      | t => String c t
      end
  end.

(** [s.trim()] *)
Definition trim (s : string) : string := trimEnd (skip_spaces s).

(** Value of a digit in the given radix (10 or 16). *)
Definition digit_val (radix : Z) (c : ascii) : option Z :=
  let n := Z.of_nat (nat_of_ascii c) in
  let v :=
    if (48 <=? n) && (n <=? 57) then Some (n - 48)
    else if (97 <=? n) && (n <=? 102) then Some (n - 87)
    else if (65 <=? n) && (n <=? 70) then Some (n - 55)
    else None in
  match v with
  | Some d => if d <? radix then Some d else None
  | None => None
  end.

(** Longest prefix of digits, accumulated left to right; [None] when the
    string does not start with a digit. *)
Fixpoint digits (radix : Z) (s : string) (acc : option Z) : option Z :=
  match s with
  | String c s' =>
      match digit_val radix c with
      | Some d => digits radix s' (Some (radix * default 0 acc + d))
      | None => acc
      end
  | EmptyString => acc
  end.

Definition strip_hex (s : string) : option string :=
  match s with
  | String "0" (String "x" r) => Some r
  | String "0" (String "X" r) => Some r
  | _ => None
  end.

Definition parse_unsigned (s : string) : option Z :=
  match strip_hex s with
  | Some r => digits 16 r None
  | None => digits 10 s None
  end.

(** *** Numbers

    A number of JavaScript is an IEEE 754 double.  The handlers compute
    with whole numbers, so a number is the integer it denotes: [None] is
    NaN, an integer [z] with [|z| < 2 ^ 1024] is the double of that value
    and [2 ^ 1024] and its opposite stand for [Infinity] and
    [-Infinity].  The sign of a zero is not kept here; [parseInt_double]
    below keeps it. *)
Definition infinity : Z := 2 ^ 1024.

Definition is_finite (z : Z) : bool := Z.abs z <? infinity.

(** The double nearest to an integer: the integer itself below [2 ^ 53],
    else its 53 leading bits, rounded to nearest with ties to the even
    mantissa; [Infinity] from [2 ^ 1024 - 2 ^ 970] on. *)
Definition to_double (z : Z) : Z :=
  let a := Z.abs z in
  if a <? 2 ^ 53 then z
  else
    let e := Z.log2 a - 52 in
    let q := a / 2 ^ e in
    let r := a mod 2 ^ e in
    let q' :=
      if (2 ^ (e - 1) <? r) || ((r =? 2 ^ (e - 1)) && Z.odd q) then q + 1
      else q in
    Z.sgn z * Z.min (q' * 2 ^ e) infinity.

(** [a - b] and [a * b] on such numbers. *)
Definition sub (a b : Z) : option Z :=
  if is_finite a && is_finite b then Some (to_double (a - b))
  else if is_finite b then Some a
  else if is_finite a then Some (- b)
  else if a =? b then None else Some a.

Definition mul (a b : Z) : option Z :=
  if is_finite a && is_finite b then Some (to_double (a * b))
  else if (a =? 0) || (b =? 0) then None
  else Some (Z.sgn a * Z.sgn b * infinity).

(** [parseInt(s)] without a radix argument: the digits are read as an
    integer, which becomes the nearest double. *)
Definition parseInt (s : string) : option Z :=
  match skip_spaces s with
  | String "-" r => (fun n => to_double (- n)) <$> parse_unsigned r
  | String "+" r => to_double <$> parse_unsigned r
  | r => to_double <$> parse_unsigned r
  end.

(** The double of a number above, in the representation of the
    Standard Library ([prec = 53], [emax = 1024]). *)
Definition double (z : Z) : SpecFloat.spec_float :=
  if is_finite z then SpecFloat.binary_normalize 53 1024 z 0 false
  else SpecFloat.S754_infinity (z <? 0).

(** The sign that [parseInt] reads. *)
Definition minus_sign (s : string) : bool :=
  match skip_spaces s with
  | String "-" _ => true
  | _ => false
  end.

(** [parseInt(s)] as a double, with the sign of a zero: [parseInt("-0")]
    is [-0]. *)
Definition parseInt_double (s : string) : SpecFloat.spec_float :=
  match parseInt s with
  | None => SpecFloat.S754_nan
  | Some 0 => SpecFloat.S754_zero (minus_sign s)
  | Some z => double z
  end.

(** [x / y] on doubles. *)
Definition div (x y : SpecFloat.spec_float) : SpecFloat.spec_float :=
  SpecFloat.SFdiv 53 1024 x y.

(** [parseInt(x)] when [x] may be [undefined]. *)
Definition parseInt_opt (o : option string) : option Z :=
  match o with
  | Some s => parseInt s
  | None => None
  end.

End Js.

(** ** Process environment *)
Record Env := {
  NODE_ENV : option string;
  JWT_SECRET : option string;
  (** [JWT_EXPIRE], already read as a number of seconds *)
  JWT_EXPIRE : option Z;
}.

(** ** utils/errorResponse *)
Record ErrorResponse := {
  er_message : string;
  er_statusCode : Z;
}.

(** ** Error-normalization middleware *)
Module ErrorMiddleware.

(** The [statusCode] property of a thrown value: a number, or a value
    of another type. *)
Inductive StatusVal := SNum (n : Z) | SOther.

(** The [code] property ([number | string]). *)
Inductive CodeVal := CNum (n : Z) | CStr (s : string).

(** What [instanceof] sees. *)
Inductive ErrClass :=
| PlainError
| CastError
| MongooseValidationError
| JoiValidationError.

(** A thrown value, property by property; [None] is an absent property.
    A thrown primitive ([null], a string) reads as the record with every
    property absent. *)
Record JsError := {
  e_class : ErrClass;
  e_name : option string;
  e_message : option string;
  e_stack : option string;
  e_statusCode : option StatusVal;
  e_status : option string;
  e_isOperational : option bool;
  e_code : option CodeVal;
  e_keyValue : option (list (string * string));
  e_path : option string;
  e_value : option string;
  e_errors : list (string * string);
  e_details : list string;
}.

Record IAppError := {
  name : string;
  message : string;
  statusCode : Z;
  status : string;
  isOperational : bool;
  stack : option string;
}.

Record AppError := {
  ae_message : string;
  ae_statusCode : Z;
  ae_status : string;
  ae_isOperational : bool;
}.

(** [new AppError(message, statusCode)] *)
Definition new_AppError (msg : string) (code : Z) : AppError :=
  {| ae_message := msg;
     ae_statusCode := code;
     ae_status := if Js.startsWith (pretty code) "4" then "fail" else "error";
     ae_isOperational := true |}.

Definition handleJoiValidationError (err : JsError) : AppError :=
  let errors := Js.join "; " (e_details err) in
  new_AppError ("Invalid input data: " +:+ errors) 400.

Definition handleCastErrorDB (path value : option string) : AppError :=
  new_AppError ("Invalid " +:+ Js.render path +:+ ": " +:+ Js.render value +:+ ".") 400.

Definition handleDuplicateFieldsDB (keyValue : option (list (string * string)))
  : AppError :=
  let value :=
    match keyValue with
    | Some kv => Js.render (snd <$> head kv)
    | None => "unknown"
    end in
  new_AppError ("Duplicate field value: " +:+ value +:+ ". Please use another value!") 400.

Definition handleValidationErrorDB (err : JsError) : AppError :=
  let errors := snd <$> e_errors err in
  new_AppError ("Invalid input data. " +:+ Js.join ". " errors) 400.

Definition handleJWTError : AppError :=
  new_AppError "Invalid token. Please log in again!" 401.

Definition handleJWTExpiredError : AppError :=
  new_AppError "Your token has expired! Please log in again." 401.

(** The type guard [isAppError]. *)
Definition isAppError (err : JsError) : bool :=
  match e_message err, e_statusCode err with
  | Some _, (None | Some (SNum _)) => true
  | _, _ => false
  end.

Definition truthy_status (v : option StatusVal) : option Z :=
  match v with
  | Some (SNum n) => if Z.eqb n 0 then None else Some n
  | _ => None
  end.

(** The first statement of [errorHandler]: the thrown value brought to
    one shape. *)
Definition normalize (err : JsError) : IAppError :=
  {| name := Js.or_str (e_name err) "Error";
     message := Js.or_str (e_message err) "An unknown error occurred";
     statusCode :=
       match (if isAppError err then truthy_status (e_statusCode err) else None) with
       | Some n => n
       | None => 500
       end;
     status :=
       if isAppError err then Js.or_str (e_status err) "error" else "error";
     isOperational :=
       if isAppError err then default false (e_isOperational err) else false;
     stack := if Js.truthy_str (e_stack err) then e_stack err else None |}.

Definition code_is_11000 (err : JsError) : bool :=
  match e_code err with
  | Some (CNum n) => Z.eqb n 11000
  | _ => false
  end.

Definition name_is (err : JsError) (n : string) : bool :=
  match e_name err with
  | Some s => String.eqb s n
  | None => false
  end.

(** The chain of [if ... else if] of the production branch. *)
Definition productionError (err : JsError) (error : IAppError) : AppError :=
  let statusCode := Js.or_num (Some (statusCode error)) 500 in
  match e_class err with
  | CastError => handleCastErrorDB (e_path err) (e_value err)
  | cls =>
      if code_is_11000 err then handleDuplicateFieldsDB (e_keyValue err)
      else match cls with
      | MongooseValidationError => handleValidationErrorDB err
      | _ =>
          if name_is err "JsonWebTokenError" then handleJWTError
          else if name_is err "TokenExpiredError" then handleJWTExpiredError
          else match cls with
          | JoiValidationError => handleJoiValidationError err
          | _ => new_AppError (message error) statusCode
          end
      end
  end.

Inductive JsonVal := JBool (b : bool) | JStr (s : string).

Record Response := {
  res_status : Z;
  res_body : list (string * JsonVal);
}.

(** What [logger.error] receives about the error. *)
Record LogEntry := {
  log_message : string;
  log_stack : option string;
  log_name : string;
  log_statusCode : Z;
  log_isOperational : bool;
}.

Definition env_is (env : Env) (mode : string) : bool :=
  match NODE_ENV env with
  | Some s => String.eqb s mode
  | None => false
  end.

(** [errorHandler(err, req, res, next)]: the response sent and the
    entries logged. *)
Definition errorHandler (env : Env) (err : JsError) : Response * list LogEntry :=
  let error := normalize err in
  let logs :=
    if env_is env "development" then
      [ {| log_message := message error; log_stack := stack error;
           log_name := name error; log_statusCode := statusCode error;
           log_isOperational := isOperational error |} ]
    else [] in
  let error :=
    if env_is env "development" then error
    else if env_is env "production" then
      let p := productionError err error in
      {| name := name error; message := ae_message p;
         statusCode := ae_statusCode p; status := ae_status p;
         isOperational := isOperational error; stack := stack error |}
    else error in
  let responseStatusCode := Js.or_num (Some (statusCode error)) 500 in
  ({| res_status := responseStatusCode;
      res_body := [("success", JBool false);
                   ("error", JStr (Js.or_str (Some (message error)) "Server Error"))] |},
   logs).

(** The recognized categories: cast, duplicate key, validation (Mongoose
    and Joi) and JWT errors. *)
Definition recognized (err : JsError) : bool :=
  match e_class err with
  | PlainError =>
      code_is_11000 err || name_is err "JsonWebTokenError"
      || name_is err "TokenExpiredError"
  | _ => true
  end.

(** [new Error(msg)] *)
Definition new_Error (msg : string) : JsError :=
  {| e_class := PlainError; e_name := Some "Error"; e_message := Some msg;
     e_stack := Some ("Error: " +:+ msg +:+ "\n    at <anonymous>");
     e_statusCode := None; e_status := None; e_isOperational := None;
     e_code := None; e_keyValue := None; e_path := None; e_value := None;
     e_errors := []; e_details := [] |}.

(** An [ErrorResponse] as the error handler sees it. *)
Definition of_ErrorResponse (e : ErrorResponse) : JsError :=
  {| e_class := PlainError; e_name := Some "ErrorResponse";
     e_message := Some (er_message e);
     e_stack := Some ("ErrorResponse: " +:+ er_message e);
     e_statusCode := Some (SNum (er_statusCode e)); e_status := None;
     e_isOperational := None;
     e_code := None; e_keyValue := None; e_path := None; e_value := None;
     e_errors := []; e_details := [] |}.

(** The driver's error for a write that violates a unique index. *)
Definition duplicate_key_error (field value : string) : JsError :=
  {| e_class := PlainError; e_name := Some "MongoServerError";
     e_message := Some ("E11000 duplicate key error dup key: { " +:+ field
                        +:+ ": " +:+ value +:+ " }");
     e_stack := Some "MongoServerError: E11000 duplicate key error";
     e_statusCode := None; e_status := None; e_isOperational := None;
     e_code := Some (CNum 11000); e_keyValue := Some [(field, value)];
     e_path := None; e_value := None;
     e_errors := []; e_details := [] |}.

Definition response_error (r : Response) : option string :=
  match List.find (fun kv => String.eqb (fst kv) "error") (res_body r) with
  | Some (_, JStr s) => Some s
  | _ => None
  end.

End ErrorMiddleware.

(** ** models/User *)
Inductive Role := RoleUser | RoleAdmin.

Definition role_string (r : Role) : string :=
  match r with RoleUser => "user" | RoleAdmin => "admin" end.

Definition Role_eqb (a b : Role) : bool :=
  match a, b with
  | RoleUser, RoleUser | RoleAdmin, RoleAdmin => true
  | _, _ => false
  end.

(** A user document.  [u_password] is [None] on a document that was
    read with the password field excluded. *)
Record User := {
  u_id : string;
  u_name : string;
  u_email : string;
  u_password : option string;
  u_role : Role;
  u_resetPasswordToken : option string;
  u_resetPasswordExpire : option Z;
}.

(** [User.findById(id)] *)
Definition User_findById (users : list User) (id : string) : option User :=
  List.find (fun u => String.eqb (u_id u) id) users.

(** [.select('-password')] *)
Definition select_minus_password (u : User) : User :=
  {| u_id := u_id u; u_name := u_name u; u_email := u_email u;
     u_password := None; u_role := u_role u;
     u_resetPasswordToken := u_resetPasswordToken u;
     u_resetPasswordExpire := u_resetPasswordExpire u |}.

(** Modelled from the spec: the controller that registers a user is not
    among the sources.  This is the write it ends in, a validated
    document inserted under the unique index that the schema declares
    with [email: { unique: true }]: a second document with a stored email
    is refused with the driver's duplicate-key error and nothing is
    written. *)
Definition User_insert (users : list User) (u : User)
  : ErrorMiddleware.JsError + list User :=
  if existsb (fun v => String.eqb (u_email v) (u_email u)) users
  then inl (ErrorMiddleware.duplicate_key_error "email" (u_email u))
  else inr (users ++ [u])%list.

(** Hexadecimal rendering of a buffer, [buf.toString('hex')]. *)
Definition hex_digit (n : nat) : ascii :=
  nth n (list_ascii_of_string "0123456789abcdef") "0"%char.

Definition hex_of_byte (b : Byte.byte) : string :=
  let n := Byte.to_nat b in
  String (hex_digit (n / 16)) (String (hex_digit (n mod 16)) EmptyString).

Fixpoint toString_hex (buf : list Byte.byte) : string :=
  match buf with
  | [] => ""
  | b :: rest => hex_of_byte b +:+ toString_hex rest
  end.

(** The payload [jwt.verify] returns. *)
Record JwtPayload := {
  p_id : string;
  p_iat : Z;
  p_exp : Z;
}.

Definition thirty_days : Z := 30 * 24 * 60 * 60.

Section UserMethods.
(** [jwt.sign(payload, secret, { expiresIn })] at a given clock (seconds):
    the id of the payload, the secret, the lifetime in seconds. *)
Variable jwt_sign : string -> string -> Z -> Z -> string.
(** [crypto.createHash('sha256').update(s).digest('hex')] *)
Variable sha256_hex : string -> string.

(** [UserSchema.methods.getSignedJwtToken] *)
Definition getSignedJwtToken (env : Env) (now : Z) (this : User) : string :=
  jwt_sign (u_id this)
           (Js.or_str (JWT_SECRET env) "your_jwt_secret")
           (default thirty_days (JWT_EXPIRE env))
           now.

(** [UserSchema.methods.getResetPasswordToken]: [entropy] is what
    [crypto.randomBytes(20)] returned, [now_ms] is [Date.now()].  The
    result is the returned token and the mutated document. *)
Definition getResetPasswordToken (now_ms : Z) (entropy : list Byte.byte)
    (this : User) : string * User :=
  let resetToken := toString_hex entropy in
  (resetToken,
   {| u_id := u_id this; u_name := u_name this; u_email := u_email this;
      u_password := u_password this; u_role := u_role this;
      u_resetPasswordToken := Some (sha256_hex resetToken);
      u_resetPasswordExpire := Some (now_ms + 10 * 60 * 1000) |}).
End UserMethods.

(** ** Auth middleware *)
Record Identity := {
  i_id : string;
  i_role : Role;
  i_name : string;
  i_email : string;
}.

(** An argument of [next]. *)
Inductive NextArg :=
| NextOk
| NextErr (e : ErrorResponse).

(** How a [try] block ends: with a [return], or by running to its end. *)
Inductive Flow (A : Type) :=
| Returned (r : A)
| Completed (r : A).
Arguments Returned {A} r.
Arguments Completed {A} r.

Definition token_failed : ErrorResponse :=
  {| er_message := "Not authorized, token failed"; er_statusCode := 401 |}.
Definition no_token : ErrorResponse :=
  {| er_message := "Not authorized, no token"; er_statusCode := 401 |}.
Definition user_not_found : ErrorResponse :=
  {| er_message := "User not found"; er_statusCode := 404 |}.

Section Auth.
(** [jwt.verify(token, secret)] at a given clock (seconds) on a
    non-empty token; [None] when it throws. *)
Variable jwt_verify : string -> string -> Z -> option JwtPayload.

(** [jwt.verify] on what [split(' ')[1]] produced: jsonwebtoken throws
    on a missing or empty token. *)
Definition verify (token : option string) (secret : string) (now : Z)
  : option JwtPayload :=
  if Js.truthy_str token then jwt_verify (default "" token) secret now
  else None.

(** The body of the [try] in [protect], after [token] is read. *)
Definition protect_try (env : Env) (now : Z) (users : list User)
    (token : option string) : Flow (list NextArg * option Identity) :=
  if negb (Js.truthy_str (JWT_SECRET env)) then
    Returned ([NextErr token_failed], None)
  else
    match verify token (default "" (JWT_SECRET env)) now with
    | None => Returned ([NextErr token_failed], None)
    | Some decoded =>
        match select_minus_password <$> User_findById users (p_id decoded) with
        | None => Returned ([NextErr user_not_found], None)
        | Some user =>
            Completed ([NextOk],
                       Some {| i_id := u_id user; i_role := u_role user;
                               i_name := u_name user; i_email := u_email user |})
        end
    end.

(** [protect]: the calls of [next], in order, and [req.user]. *)
Definition protect (env : Env) (now : Z) (users : list User)
    (authorization : option string) : list NextArg * option Identity :=
  match authorization with
  | Some h =>
      if Js.startsWith h "Bearer" then
        let token := Js.split " " h !! 1%nat in
        match protect_try env now users token with
        | Returned r => r
        | Completed (calls, user) =>
            if Js.truthy_str token then (calls, user)
            else ((calls ++ [NextErr no_token])%list, user)
        end
      else ([NextErr no_token], None)
  | None => ([NextErr no_token], None)
  end.

(** [authorize(...roles)] *)
Definition authorize (roles : list string) (user : option Identity) : NextArg :=
  match user with
  | Some u =>
      if existsb (String.eqb (role_string (i_role u))) roles then NextOk
      else NextErr {| er_message := "User role " +:+ role_string (i_role u)
                                    +:+ " is not authorized to access this route";
                      er_statusCode := 403 |}
  | None =>
      NextErr {| er_message := "User role unknown is not authorized to access this route";
                 er_statusCode := 403 |}
  end.
End Auth.

(** ** models/MeterReading *)
Inductive Status := Pending | Approved | Rejected.
Inductive MeterUnit := KWh | Units.

Definition status_string (s : Status) : string :=
  match s with
  | Pending => "pending" | Approved => "approved" | Rejected => "rejected"
  end.

Definition status_of_string (s : string) : option Status :=
  if String.eqb s "pending" then Some Pending
  else if String.eqb s "approved" then Some Approved
  else if String.eqb s "rejected" then Some Rejected
  else None.

Definition unit_of_string (s : string) : option MeterUnit :=
  if String.eqb s "kWh" then Some KWh
  else if String.eqb s "units" then Some Units
  else None.

(** The [location] of a stored reading.  A path is [None] when the
    document does not have it. *)
Record Location := {
  loc_type : option string;
  coordinates : option (list Q);
  address : option string;
}.

(** A stored reading.  Identifiers are strings; the enums of the schema
    are the two inductive types above. *)
Record MeterReading := {
  mr_id : string;
  mr_user : string;
  mr_meterNumber : string;
  mr_reading : Q;
  mr_unit : MeterUnit;
  mr_photo : string;
  mr_location : Location;
  mr_status : Status;
  mr_notes : option string;
  mr_readerNotes : option string;
  mr_approvedBy : option string;
  mr_approvedAt : option Z;
  mr_createdAt : Z;
  mr_updatedAt : Z;
}.

(** [req.body] of the reading routes, field by field, each value of the
    type its path casts to: identifiers for [user] and [approvedBy], a
    number for [reading], a date for [approvedAt]. *)
Record LocationBody := {
  lb_type : option string;
  lb_coordinates : option (list Q);
  lb_address : option string;
}.

Record Body := {
  b_user : option string;
  b_meterNumber : option string;
  b_reading : option Q;
  b_unit : option string;
  b_photo : option string;
  b_location : option LocationBody;
  b_status : option string;
  b_notes : option string;
  b_readerNotes : option string;
  b_approvedBy : option string;
  b_approvedAt : option Z;
}.

(** *** The validators of [MeterReadingSchema]

    An entry of [errors] is a path and its message; a path has at most
    one entry, that of its first validator that fails, [required]
    before the others. *)

(** A required path that the body does not have. *)
Definition missing {A} (path msg : string) (v : option A)
  : list (string * string) :=
  match v with
  | None => [(path, msg)]
  | Some _ => []
  end.

(** [required] on a string that is set. *)
Definition check_required (path msg : string) (v : option string)
  : list (string * string) :=
  match v with
  | Some s => if String.eqb s "" then [(path, msg)] else []
  | None => []
  end.

Definition check_maxlength (n : nat) (path msg : string) (v : option string)
  : list (string * string) :=
  match v with
  | Some s => if (n <? String.length s)%nat then [(path, msg)] else []
  | None => []
  end.

Definition check_enum {A} (parse : string -> option A) (path : string)
    (v : option string) : list (string * string) :=
  match v with
  | Some s =>
      match parse s with
      | Some _ => []
      | None => [(path, "`" +:+ s +:+ "` is not a valid enum value for path `"
                        +:+ path +:+ "`.")]
      end
  | None => []
  end.

Definition point_of_string (s : string) : option unit :=
  if String.eqb s "Point" then Some tt else None.

(** [meterNumber] has [trim: true]: the setter trims the value before
    the validators see it, on a new document, in an update and in the
    filter of a query. *)
Definition meterNumber_errors (v : option string) : list (string * string) :=
  match Js.trim <$> v with
  | Some m =>
      if String.eqb m "" then [("meterNumber", "Please add a meter number")]
      else if (50 <? String.length m)%nat then
        [("meterNumber", "Meter number cannot be more than 50 characters")]
      else []
  | None => []
  end.

Definition reading_errors (v : option Q) : list (string * string) :=
  match v with
  | Some r => if Qle_bool 0 r then []
              else [("reading", "Reading must be a positive number")]
  | None => []
  end.

(** [required] on the array of coordinates fails on an empty array. *)
Definition coordinates_errors (v : option (list Q)) : list (string * string) :=
  match v with
  | Some [] => [("location.coordinates", "Please add coordinates")]
  | _ => []
  end.

(** The validators of the paths that a body sets, which are those an
    update with [runValidators] runs.  The keys of a body are taken in
    the order of the schema. *)
Definition update_errors (b : Body) : list (string * string) :=
  (meterNumber_errors (b_meterNumber b)
   ++ reading_errors (b_reading b)
   ++ check_enum unit_of_string "unit" (b_unit b)
   ++ check_required "photo" "Please add a photo of the meter" (b_photo b)
   ++ match b_location b with
      | Some lb =>
          check_enum point_of_string "location.type" (lb_type lb)
          ++ coordinates_errors (lb_coordinates lb)
          ++ check_required "location.address" "Please add an address"
               (lb_address lb)
      | None => []
      end
   ++ check_enum status_of_string "status" (b_status b)
   ++ check_maxlength 500 "notes" "Notes cannot be more than 500 characters"
        (b_notes b)
   ++ check_maxlength 500 "readerNotes"
        "Reader notes cannot be more than 500 characters" (b_readerNotes b))%list.

(** The validators of a new document: the required paths that the body
    lacks, then the paths it sets, then the coordinates when they are
    left to their default, the empty array. *)
Definition create_errors (b : Body) : list (string * string) :=
  (missing "user" "Please add a user" (b_user b)
   ++ missing "meterNumber" "Please add a meter number" (b_meterNumber b)
   ++ missing "reading" "Please add a meter reading" (b_reading b)
   ++ missing "photo" "Please add a photo of the meter" (b_photo b)
   ++ missing "location.address" "Please add an address"
        (b_location b ≫= lb_address)
   ++ update_errors b
   ++ missing "location.coordinates" "Please add coordinates"
        (b_location b ≫= lb_coordinates))%list.

(** The location of a new document, with the defaults of the schema. *)
Definition location_of_body (lb : option LocationBody) : Location :=
  {| loc_type := Some (default "Point" (lb ≫= lb_type));
     coordinates := Some (default [] (lb ≫= lb_coordinates));
     address := lb ≫= lb_address |}.

(** The location that an update sets: the object of the body, as it is;
    an update applies no default. *)
Definition location_of_update (lb : LocationBody) : Location :=
  {| loc_type := lb_type lb;
     coordinates := lb_coordinates lb;
     address := lb_address lb |}.

(** What the [2dsphere] indexes accept: a GeoJSON point, that is a
    longitude and a latitude within their ranges. *)
Definition geo_indexable (l : Location) : bool :=
  match loc_type l, coordinates l with
  | Some t, Some [lng; lat] =>
      String.eqb t "Point"
      && Qle_bool (-180 # 1) lng && Qle_bool lng (180 # 1)
      && Qle_bool (-90 # 1) lat && Qle_bool lat (90 # 1)
  | _, _ => false
  end.

Definition validation_message (errors : list (string * string)) : string :=
  Js.join ", " ((fun e => fst e +:+ ": " +:+ snd e) <$> errors).

(** The [ValidationError] of the update validators. *)
Definition validation_error (errors : list (string * string))
  : ErrorMiddleware.JsError :=
  {| ErrorMiddleware.e_class := ErrorMiddleware.MongooseValidationError;
     ErrorMiddleware.e_name := Some "ValidationError";
     ErrorMiddleware.e_message :=
       Some ("Validation failed: " +:+ validation_message errors);
     ErrorMiddleware.e_stack := Some "ValidationError: Validation failed";
     ErrorMiddleware.e_statusCode := None;
     ErrorMiddleware.e_status := None;
     ErrorMiddleware.e_isOperational := None;
     ErrorMiddleware.e_code := None;
     ErrorMiddleware.e_keyValue := None;
     ErrorMiddleware.e_path := None;
     ErrorMiddleware.e_value := None;
     ErrorMiddleware.e_errors := errors;
     ErrorMiddleware.e_details := [] |}.

(** The [ValidationError] of a document of the model [MeterReading]. *)
Definition document_validation_error (errors : list (string * string))
  : ErrorMiddleware.JsError :=
  {| ErrorMiddleware.e_class := ErrorMiddleware.MongooseValidationError;
     ErrorMiddleware.e_name := Some "ValidationError";
     ErrorMiddleware.e_message :=
       Some ("MeterReading validation failed: " +:+ validation_message errors);
     ErrorMiddleware.e_stack :=
       Some "ValidationError: MeterReading validation failed";
     ErrorMiddleware.e_statusCode := None;
     ErrorMiddleware.e_status := None;
     ErrorMiddleware.e_isOperational := None;
     ErrorMiddleware.e_code := None;
     ErrorMiddleware.e_keyValue := None;
     ErrorMiddleware.e_path := None;
     ErrorMiddleware.e_value := None;
     ErrorMiddleware.e_errors := errors;
     ErrorMiddleware.e_details := [] |}.

(** The [CastError] of a number in the filter of a query. *)
Definition query_cast_error (value : string) : ErrorMiddleware.JsError :=
  {| ErrorMiddleware.e_class := ErrorMiddleware.CastError;
     ErrorMiddleware.e_name := Some "CastError";
     ErrorMiddleware.e_message :=
       Some ("Cast to Number failed for value " +:+ value);
     ErrorMiddleware.e_stack := Some "CastError: Cast to Number failed";
     ErrorMiddleware.e_statusCode := None;
     ErrorMiddleware.e_status := None;
     ErrorMiddleware.e_isOperational := None;
     ErrorMiddleware.e_code := None;
     ErrorMiddleware.e_keyValue := None;
     ErrorMiddleware.e_path := Some "__QueryCasting__";
     ErrorMiddleware.e_value := Some value;
     ErrorMiddleware.e_errors := [];
     ErrorMiddleware.e_details := [] |}.

(** An error of the database server, with its numeric code. *)
Definition server_error (code : Z) (msg : string) : ErrorMiddleware.JsError :=
  {| ErrorMiddleware.e_class := ErrorMiddleware.PlainError;
     ErrorMiddleware.e_name := Some "MongoServerError";
     ErrorMiddleware.e_message := Some msg;
     ErrorMiddleware.e_stack := Some ("MongoServerError: " +:+ msg);
     ErrorMiddleware.e_statusCode := None;
     ErrorMiddleware.e_status := None;
     ErrorMiddleware.e_isOperational := None;
     ErrorMiddleware.e_code := Some (ErrorMiddleware.CNum code);
     ErrorMiddleware.e_keyValue := None;
     ErrorMiddleware.e_path := None;
     ErrorMiddleware.e_value := None;
     ErrorMiddleware.e_errors := [];
     ErrorMiddleware.e_details := [] |}.

(** A [TypeError] of the runtime. *)
Definition type_error (msg : string) : ErrorMiddleware.JsError :=
  {| ErrorMiddleware.e_class := ErrorMiddleware.PlainError;
     ErrorMiddleware.e_name := Some "TypeError";
     ErrorMiddleware.e_message := Some msg;
     ErrorMiddleware.e_stack := Some ("TypeError: " +:+ msg);
     ErrorMiddleware.e_statusCode := None;
     ErrorMiddleware.e_status := None;
     ErrorMiddleware.e_isOperational := None;
     ErrorMiddleware.e_code := None;
     ErrorMiddleware.e_keyValue := None;
     ErrorMiddleware.e_path := None;
     ErrorMiddleware.e_value := None;
     ErrorMiddleware.e_errors := [];
     ErrorMiddleware.e_details := [] |}.

(** [MeterReading.findById(id)] for an identifier that casts to an
    [ObjectId]; identifiers are compared as the strings they print to. *)
Definition findById (readings : list MeterReading) (id : string)
  : option MeterReading :=
  List.find (fun r => String.eqb (mr_id r) id) readings.

(** The document that [MeterReading.create(body)] builds from a body
    that passes the validators: the setters and the defaults of the
    schema, and the two timestamps.  [new_id] is the identifier the
    driver generates and [now] the clock. *)
Definition new_document (new_id : string) (now : Z) (b : Body) : MeterReading :=
  {| mr_id := new_id;
     mr_user := default "" (b_user b);
     mr_meterNumber := Js.trim (default "" (b_meterNumber b));
     mr_reading := default 0%Q (b_reading b);
     mr_unit := default Units (b_unit b ≫= unit_of_string);
     mr_photo := default "" (b_photo b);
     mr_location := location_of_body (b_location b);
     mr_status := default Pending (b_status b ≫= status_of_string);
     mr_notes := b_notes b;
     mr_readerNotes := b_readerNotes b;
     mr_approvedBy := b_approvedBy b;
     mr_approvedAt := b_approvedAt b;
     mr_createdAt := now;
     mr_updatedAt := now |}.

(** [MeterReading.create(body)]: validation, then the insert under the
    [2dsphere] indexes. *)
Definition MeterReading_create (new_id : string) (now : Z) (b : Body)
    (readings : list MeterReading)
  : ErrorMiddleware.JsError + (MeterReading * list MeterReading) :=
  match create_errors b with
  | (_ :: _) as errs => inl (document_validation_error errs)
  | [] =>
      let doc := new_document new_id now b in
      if negb (geo_indexable (mr_location doc)) then
        inl (server_error 16755 "Can't extract geo keys")
      else inr (doc, (readings ++ [doc])%list)
  end.

(** The paths of an update laid over a stored document, [$set] with
    the timestamp of the update.  The setter of [meterNumber] runs; a
    [location] replaces the stored one as a whole. *)
Definition apply_update (now : Z) (b : Body) (r : MeterReading) : MeterReading :=
  {| mr_id := mr_id r;
     mr_user := default (mr_user r) (b_user b);
     mr_meterNumber := default (mr_meterNumber r) (Js.trim <$> b_meterNumber b);
     mr_reading := default (mr_reading r) (b_reading b);
     mr_unit := default (mr_unit r) (b_unit b ≫= unit_of_string);
     mr_photo := default (mr_photo r) (b_photo b);
     mr_location := default (mr_location r) (location_of_update <$> b_location b);
     mr_status := default (mr_status r) (b_status b ≫= status_of_string);
     mr_notes := if b_notes b is Some _ then b_notes b else mr_notes r;
     mr_readerNotes :=
       if b_readerNotes b is Some _ then b_readerNotes b else mr_readerNotes r;
     mr_approvedBy :=
       if b_approvedBy b is Some _ then b_approvedBy b else mr_approvedBy r;
     mr_approvedAt :=
       if b_approvedAt b is Some _ then b_approvedAt b else mr_approvedAt r;
     mr_createdAt := mr_createdAt r;
     mr_updatedAt := now |}.

(** The first document with the given identifier replaced. *)
Fixpoint replace_by_id (id : string) (r' : MeterReading)
    (readings : list MeterReading) : list MeterReading :=
  match readings with
  | [] => []
  | r :: rest =>
      if String.eqb (mr_id r) id then r' :: rest
      else r :: replace_by_id id r' rest
  end.

(** The first document with the given identifier removed,
    [deleteOne({ _id })]. *)
Fixpoint deleteOne (id : string) (readings : list MeterReading)
  : list MeterReading :=
  match readings with
  | [] => []
  | r :: rest =>
      if String.eqb (mr_id r) id then rest else r :: deleteOne id rest
  end.

(** [MeterReading.findByIdAndUpdate(id, body, { new: true, runValidators: true })]:
    the update validators run before the command is sent. *)
Definition findByIdAndUpdate (id : string) (now : Z) (b : Body)
    (readings : list MeterReading)
  : ErrorMiddleware.JsError + (option MeterReading * list MeterReading) :=
  match update_errors b with
  | (_ :: _) as errs => inl (validation_error errs)
  | [] =>
      match findById readings id with
      | None => inr (None, readings)
      | Some r =>
          let r' := apply_update now b r in
          if negb (geo_indexable (mr_location r')) then
            inl (server_error 16755 "Can't extract geo keys")
          else inr (Some r', replace_by_id id r' readings)
      end
  end.

(** ** controllers/meter.controller

    The identifier of a request is taken to cast to an [ObjectId]: the
    cast of a string that does not is not followed here.  The sample
    documents further down carry short identifiers in place of the 24
    hexadecimal digits. *)

(** The state the handlers read and write: the two collections and the
    names of the files under [public/uploads]. *)
Record Db := {
  users : list User;
  readings : list MeterReading;
  files : list string;
}.

(** What [populate('user', 'name email')] puts in place of the reference. *)
Record UserView := {
  uv_id : string;
  uv_name : string;
  uv_email : string;
}.

Record Populated := {
  pop_doc : MeterReading;
  pop_user : option UserView;
}.

Definition populate (us : list User) (r : MeterReading) : Populated :=
  {| pop_doc := r;
     pop_user :=
       (fun u => {| uv_id := u_id u; uv_name := u_name u; uv_email := u_email u |})
         <$> User_findById us (mr_user r) |}.

Record Pagination := {
  currentPage : Z;
  totalPages : Z;
  totalItems : Z;
}.

(** The [data] of a JSON response, with [count] and [pagination] where
    the handler sends them. *)
Inductive Data :=
| DPage (count : Z) (pagination : Pagination) (items : list Populated)
| DPopulated (r : Populated)
| DReading (r : option MeterReading)
| DList (count : Z) (items : list MeterReading)
| DEmpty.

(** How a handler ends: with a JSON response, with an error of its own
    passed to [next], or with a thrown error that its [catch] passes to
    [next].  [Beyond] marks a request that leaves what this development
    follows: numbers outside the range the database reads as 64-bit
    integers, a count that is no exact double, an infinite radius, a
    photo that is a path rather than a file name. *)
Inductive Outcome :=
| Json (code : Z) (data : Data)
| Next (e : ErrorResponse)
| NextThrown (e : ErrorMiddleware.JsError)
| Beyond.

Definition not_found (id : string) : ErrorResponse :=
  {| er_message := "Meter reading not found with id of " +:+ id;
     er_statusCode := 404 |}.

Definition not_authorized (user_id action : string) : ErrorResponse :=
  {| er_message := "User " +:+ user_id +:+ " is not authorized to " +:+ action
                   +:+ " this meter reading";
     er_statusCode := 401 |}.

(** The filter object built by [getMeterReadings]. *)
Record Filter := {
  f_status : option string;
  f_user : option string;
}.

Definition matches (f : Filter) (r : MeterReading) : bool :=
  match f_status f with
  | Some s => String.eqb (status_string (mr_status r)) s
  | None => true
  end
  && match f_user f with
     | Some u => String.eqb (mr_user r) u
     | None => true
     end.

Record ListQuery := {
  q_page : option string;
  q_limit : option string;
  q_status : option string;
}.

(** [.sort({ createdAt: -1 })] *)
Definition newer_first (a b : MeterReading) : Prop :=
  mr_createdAt b <= mr_createdAt a.

#[global] Instance newer_first_dec a b : Decision (newer_first a b) :=
  decide (mr_createdAt b <= mr_createdAt a).

(** [Math.ceil(total / limit)] for a non-zero [limit]; the quotient of
    the doubles has this ceiling when [total] is below [2 ^ 53]. *)
Definition ceil_div (total limit : Z) : Z := - ((- total) / limit).

(** A whole number that the database reads as a 64-bit integer. *)
Definition int64 (z : Z) : bool := Z.abs z <? 2 ^ 63.

Definition build_filter (user : Identity) (q : ListQuery) : Filter :=
  {| f_status := if Js.truthy_str (q_status q) then q_status q else None;
     f_user := if Role_eqb (i_role user) RoleUser then Some (i_id user) else None |}.

(** [.skip(skip).limit(limit)] on the documents of a query, for a
    [skip] that is not negative: [|limit|] documents after the first
    [skip].  The two counts are cut to the length of the list, so that a
    large number is not counted out. *)
Definition window {A} (skip limit : Z) (l : list A) : list A :=
  let n := Z.of_nat (length l) in
  take (Z.to_nat (Z.min (Z.abs limit) n))
       (if n <=? skip then [] else drop (Z.to_nat skip) l).

(** [(page - 1) * limit], in the arithmetic of doubles. *)
Definition skip_of (page limit : Z) : option Z :=
  Js.sub page 1 ≫= fun p => Js.mul p limit.

(** [getMeterReadings].  [page], [limit] and [skip] are doubles; the
    database takes [skip] and [limit] as 64-bit integers and refuses a
    negative [skip]. *)
Definition getMeterReadings (db : Db) (user : Identity) (q : ListQuery) : Outcome :=
  let page := Js.or_num (Js.parseInt_opt (q_page q)) 1 in
  let limit := Js.or_num (Js.parseInt_opt (q_limit q)) 10 in
  let query := build_filter user q in
  let found := List.filter (matches query) (readings db) in
  let total := Z.of_nat (length found) in
  match skip_of page limit with
  | None => Beyond
  | Some skip =>
      if negb (int64 skip && int64 limit && (total <? 2 ^ 53)) then Beyond
      else if skip <? 0 then
        NextThrown (server_error 2 "Skip value must be non-negative")
      else
        let meterReadings :=
          populate (users db)
            <$> window skip limit (merge_sort newer_first found) in
        Json 200
          (DPage (Z.of_nat (length meterReadings))
                 {| currentPage := page;
                    totalPages := ceil_div total limit;
                    totalItems := total |}
                 meterReadings)
  end.

(** [getMeterReading] *)
Definition getMeterReading (db : Db) (user : Identity) (id : string) : Outcome * Db :=
  match populate (users db) <$> findById (readings db) id with
  | None => (Next (not_found id), db)
  | Some meterReading =>
      match pop_user meterReading with
      | None =>
          (NextThrown (type_error "Cannot read properties of null (reading '_id')"), db)
      | Some owner =>
          if negb (String.eqb (uv_id owner) (i_id user))
             && negb (Role_eqb (i_role user) RoleAdmin)
          then (Next (not_authorized (i_id user) "access"), db)
          else (Json 200 (DPopulated meterReading), db)
      end
  end.

(** [req.body.user = req.user.id] *)
Definition with_user (b : Body) (id : string) : Body :=
  {| b_user := Some id; b_meterNumber := b_meterNumber b;
     b_reading := b_reading b; b_unit := b_unit b; b_photo := b_photo b;
     b_location := b_location b; b_status := b_status b; b_notes := b_notes b;
     b_readerNotes := b_readerNotes b; b_approvedBy := b_approvedBy b;
     b_approvedAt := b_approvedAt b |}.

(** The test of the filter [{ meterNumber, status: 'pending' }] on one
    stored reading. *)
Definition pending_for (m : string) (r : MeterReading) : bool :=
  String.eqb (mr_meterNumber r) m
  && String.eqb (status_string (mr_status r)) "pending".

(** [MeterReading.findOne({ meterNumber, status: 'pending' })]: the
    setter of the path trims the value of the filter. *)
Definition findOne_pending (rs : list MeterReading) (meterNumber : option string)
  : option MeterReading :=
  match meterNumber with
  | Some m => List.find (pending_for (Js.trim m)) rs
  | None => None
  end.

(** [createMeterReading] up to its first database call and through it:
    the verdict of [validationResult(req)], whose rules are attached by
    the router, then the awaited [findOne].  [Some e] is the error it
    passes to [next]. *)
Definition createMeterReading_check (db : Db) (errors_isEmpty : bool)
    (body : Body) : option ErrorResponse :=
  if negb errors_isEmpty then
    Some {| er_message := "Validation failed"; er_statusCode := 400 |}
  else
    match findOne_pending (readings db) (b_meterNumber body) with
    | Some _ =>
        Some {| er_message := "There is already a pending reading for meter "
                              +:+ Js.render (b_meterNumber body);
                er_statusCode := 400 |}
    | None => None
    end.

(** [createMeterReading] from its second database call on: the awaited
    [MeterReading.create], on the collection as it is by then. *)
Definition createMeterReading_insert (db : Db) (user : Identity)
    (new_id : string) (now : Z) (body : Body) : Outcome * Db :=
  match MeterReading_create new_id now (with_user body (i_id user)) (readings db) with
  | inl err => (NextThrown err, db)
  | inr (meterReading, rs) =>
      (Json 201 (DReading (Some meterReading)),
       {| users := users db; readings := rs; files := files db |})
  end.

(** [createMeterReading] when no other request writes between its two
    database calls. *)
Definition createMeterReading (db : Db) (user : Identity) (errors_isEmpty : bool)
    (new_id : string) (now : Z) (body : Body) : Outcome * Db :=
  match createMeterReading_check db errors_isEmpty (with_user body (i_id user)) with
  | Some e => (Next e, db)
  | None => createMeterReading_insert db user new_id now body
  end.

(** [req.body.approvedBy = req.user.id; req.body.approvedAt = new Date()] *)
Definition with_approval (b : Body) (id : string) (now : Z) : Body :=
  {| b_user := b_user b; b_meterNumber := b_meterNumber b;
     b_reading := b_reading b; b_unit := b_unit b; b_photo := b_photo b;
     b_location := b_location b; b_status := b_status b; b_notes := b_notes b;
     b_readerNotes := b_readerNotes b; b_approvedBy := Some id;
     b_approvedAt := Some now |}.

(** The test [meterReading.user.toString() !== req.user.id &&
    req.user.role !== 'admin'] of the update, delete and upload handlers. *)
Definition refused (r : MeterReading) (user : Identity) : bool :=
  negb (String.eqb (mr_user r) (i_id user))
  && negb (Role_eqb (i_role user) RoleAdmin).

(** [updateMeterReading] *)
Definition updateMeterReading (db : Db) (user : Identity) (now : Z) (id : string)
    (body : Body) : Outcome * Db :=
  match findById (readings db) id with
  | None => (Next (not_found id), db)
  | Some meterReading =>
      if refused meterReading user then
        (Next (not_authorized (i_id user) "update"), db)
      else
        let body :=
          if Js.truthy_str (b_status body) && Role_eqb (i_role user) RoleAdmin
          then with_approval body (i_id user) now
          else body in
        match findByIdAndUpdate id now body (readings db) with
        | inl err => (NextThrown err, db)
        | inr (updated, rs) =>
            (Json 200 (DReading updated),
             {| users := users db; readings := rs; files := files db |})
        end
  end.

(** A photo that names a file of the upload directory: no slash or
    backslash, and not one of the two directory names.  [path.join]
    leaves such a name as it is; any other photo is a path, which it
    resolves against the directories of the server. *)
Definition file_name (photo : string) : bool :=
  negb (Js.has_char "/" photo) && negb (Js.has_char (ascii_of_nat 92) photo)
  && negb (String.eqb photo ".") && negb (String.eqb photo "..").

(** [deleteMeterReading] *)
Definition deleteMeterReading (db : Db) (user : Identity) (id : string)
  : Outcome * Db :=
  match findById (readings db) id with
  | None => (Next (not_found id), db)
  | Some meterReading =>
      if refused meterReading user then
        (Next (not_authorized (i_id user) "delete"), db)
      else if String.eqb (mr_photo meterReading) "" then
        (Json 200 DEmpty,
         {| users := users db;
            readings := deleteOne (mr_id meterReading) (readings db);
            files := files db |})
      else if file_name (mr_photo meterReading) then
        (Json 200 DEmpty,
         {| users := users db;
            readings := deleteOne (mr_id meterReading) (readings db);
            files := List.filter (fun f => negb (String.eqb f (mr_photo meterReading)))
                                 (files db) |})
      else (Beyond, db)
  end.

(** The geocoder of the controller: one fixed answer. *)
Definition geocode (zipcode : string) : list (Q * Q * string) :=
  [(0%Q, 0%Q, zipcode +:+ ", Unknown Location")].

Definition earth_radius_miles : Z := 3963.

(** [parseInt(distance) / 3963], a quotient of doubles. *)
Definition search_radius (distance : string) : SpecFloat.spec_float :=
  Js.div (Js.parseInt_double distance) (Js.double earth_radius_miles).

Section Radius.
(** [$geoWithin: { $centerSphere: [[lng, lat], radius] }] as the database
    decides it for one stored location. *)
Variable centerSphere : Q * Q -> SpecFloat.spec_float -> Location -> bool.

(** [getReadingsInRadius].  The filter is cast before the query is
    sent, and the cast refuses NaN; the server refuses a negative
    radius. *)
Definition getReadingsInRadius (db : Db) (zipcode distance : string) : Outcome :=
  match geocode zipcode with
  | [] => NextThrown (type_error "Cannot read properties of undefined (reading 'latitude')")
  | (lat, lng, _) :: _ =>
      let radius := search_radius distance in
      let found :=
        List.filter (fun r => centerSphere (lng, lat) radius (mr_location r))
                    (readings db) in
      match radius with
      | SpecFloat.S754_nan => NextThrown (query_cast_error "NaN")
      | SpecFloat.S754_infinity _ => Beyond
      | SpecFloat.S754_finite true _ _ =>
          NextThrown (server_error 2 "radius must be a non-negative number")
      | _ => Json 200 (DList (Z.of_nat (length found)) found)
      end
  end.
End Radius.

(** ** A stand-in for jsonwebtoken

    Used to run the middleware on concrete tokens: a token is
    [id.iat.exp.signature] with the secret as its signature, and is
    accepted under the same secret strictly before [exp], as
    [jwt.verify] accepts an HS256 token. *)
Module JwtStandIn.

Definition sign (id secret : string) (lifetime now : Z) : string :=
  id +:+ "." +:+ pretty now +:+ "." +:+ pretty (now + lifetime) +:+ "." +:+ secret.

Definition verify (token secret : string) (now : Z) : option JwtPayload :=
  match Js.split "." token with
  | [id; iat; exp; signature] =>
      match Js.parseInt iat, Js.parseInt exp with
      | Some i, Some e =>
          if String.eqb signature secret && (now <? e)
          then Some {| p_id := id; p_iat := i; p_exp := e |}
          else None
      | _, _ => None
      end
  | _ => None
  end.

End JwtStandIn.

(** ** Concrete environments and documents used by the examples *)
Definition production : Env :=
  {| NODE_ENV := Some "production"; JWT_SECRET := Some "s3cr3t";
     JWT_EXPIRE := None |}.

Definition development : Env :=
  {| NODE_ENV := Some "development"; JWT_SECRET := Some "s3cr3t";
     JWT_EXPIRE := None |}.

Definition econnrefused : ErrorMiddleware.JsError :=
  ErrorMiddleware.new_Error "connect ECONNREFUSED 10.0.0.5:27017".

Definition ann : User :=
  {| u_id := "u1"; u_name := "Ann"; u_email := "ann@x.org";
     u_password := Some "$2a$10$hash-of-ann"; u_role := RoleUser;
     u_resetPasswordToken := None; u_resetPasswordExpire := None |}.

Definition bob : User :=
  {| u_id := "u2"; u_name := "Bob"; u_email := "bob@x.org";
     u_password := Some "$2a$10$hash-of-bob"; u_role := RoleUser;
     u_resetPasswordToken := None; u_resetPasswordExpire := None |}.

Definition root : User :=
  {| u_id := "a1"; u_name := "Root"; u_email := "root@x.org";
     u_password := Some "$2a$10$hash-of-root"; u_role := RoleAdmin;
     u_resetPasswordToken := None; u_resetPasswordExpire := None |}.

(** A second registration under Ann's email. *)
Definition ann_again : User :=
  {| u_id := "u9"; u_name := "Ann B"; u_email := "ann@x.org";
     u_password := Some "$2a$10$other"; u_role := RoleUser;
     u_resetPasswordToken := None; u_resetPasswordExpire := None |}.

(** The field names of an error's [keyValue] that occur in a message. *)
Definition names_field (err : ErrorMiddleware.JsError) (msg : string) : bool :=
  existsb (fun kv => bool_decide (is_Some (String.index 0 (fst kv) msg)))
          (default [] (ErrorMiddleware.e_keyValue err)).

Definition identity_of (u : User) : Identity :=
  {| i_id := u_id u; i_role := u_role u; i_name := u_name u; i_email := u_email u |}.

Definition depot : Location :=
  {| loc_type := Some "Point";
     coordinates := Some [(7258 # 100)%Q; (2303 # 100)%Q];
     address := Some "Depot Road 4" |}.

(** Ann's pending reading of meter M-100, with a photo on disk. *)
Definition r1 : MeterReading :=
  {| mr_id := "r1"; mr_user := "u1"; mr_meterNumber := "M-100";
     mr_reading := (1042 # 1)%Q; mr_unit := Units; mr_photo := "photo_r1.jpg";
     mr_location := depot; mr_status := Pending; mr_notes := None;
     mr_readerNotes := None; mr_approvedBy := None; mr_approvedAt := None;
     mr_createdAt := 10; mr_updatedAt := 10 |}.

(** Bob's approved reading of meter M-200. *)
Definition r2 : MeterReading :=
  {| mr_id := "r2"; mr_user := "u2"; mr_meterNumber := "M-200";
     mr_reading := (77 # 1)%Q; mr_unit := KWh; mr_photo := "photo_r2.jpg";
     mr_location := depot; mr_status := Approved; mr_notes := None;
     mr_readerNotes := None; mr_approvedBy := Some "a1"; mr_approvedAt := Some 25;
     mr_createdAt := 20; mr_updatedAt := 25 |}.

Definition db0 : Db :=
  {| users := [ann; bob; root]; readings := [r1; r2];
     files := ["photo_r1.jpg"; "photo_r2.jpg"] |}.

Definition empty_body : Body :=
  {| b_user := None; b_meterNumber := None; b_reading := None; b_unit := None;
     b_photo := None; b_location := None; b_status := None; b_notes := None;
     b_readerNotes := None; b_approvedBy := None; b_approvedAt := None |}.

(** An update that sets nothing but the status. *)
Definition status_body (s : string) : Body :=
  {| b_user := None; b_meterNumber := None; b_reading := None; b_unit := None;
     b_photo := None; b_location := None; b_status := Some s; b_notes := None;
     b_readerNotes := None; b_approvedBy := None; b_approvedAt := None |}.

(** An update that hands the reading to another user id. *)
Definition reassign_body (u : string) : Body :=
  {| b_user := Some u; b_meterNumber := None; b_reading := None; b_unit := None;
     b_photo := None; b_location := None; b_status := None; b_notes := None;
     b_readerNotes := None; b_approvedBy := None; b_approvedAt := None |}.

(** A complete submission for a meter, with an optional status. *)
Definition submission (meter : string) (st : option string) : Body :=
  {| b_user := None; b_meterNumber := Some meter; b_reading := Some (1100 # 1)%Q;
     b_unit := Some "units"; b_photo := Some "meter.jpg";
     b_location := Some {| lb_type := Some "Point";
                           lb_coordinates := Some [(7258 # 100)%Q; (2303 # 100)%Q];
                           lb_address := Some "Depot Road 4" |};
     b_status := st; b_notes := None; b_readerNotes := None;
     b_approvedBy := None; b_approvedAt := None |}.

Definition no_query : ListQuery :=
  {| q_page := None; q_limit := None; q_status := None |}.

(** A submission that lacks the photo the schema requires. *)
Definition submission_without_photo (meter : string) : Body :=
  {| b_user := None; b_meterNumber := Some meter; b_reading := Some (1100 # 1)%Q;
     b_unit := Some "units"; b_photo := None;
     b_location := Some {| lb_type := Some "Point";
                           lb_coordinates := Some [(7258 # 100)%Q; (2303 # 100)%Q];
                           lb_address := Some "Depot Road 4" |};
     b_status := None; b_notes := None; b_readerNotes := None;
     b_approvedBy := None; b_approvedAt := None |}.


(** The number a distance parameter denotes when it is written as a
    plain decimal numeral, [digits] or [digits.digits]: the reading of
    the parameter "d (miles)" in the specification. *)
Fixpoint all_digits (s : string) : bool :=
  match s with
  | EmptyString => true
  | String c s' => bool_decide (is_Some (Js.digit_val 10 c)) && all_digits s'
  end.

Definition numeral (s : string) : option Z :=
  if all_digits s then Js.digits 10 s None else None.

Definition decimal_value (s : string) : option Q :=
  match Js.split "." s with
  | [i] => inject_Z <$> numeral i
  | [i; f] =>
      match numeral i, numeral f with
      | Some a, Some b =>
          Some (inject_Z a + inject_Z b / inject_Z (10 ^ Z.of_nat (String.length f)))%Q
      | _, _ => None
      end
  | _ => None
  end.

(** Integers on which [Js.to_double] is compared with the rounding of
    the Standard Library: around [2 ^ 53], powers of three and of ten,
    halfway cases far up, and the last doubles before [Infinity]. *)
Definition rounding_samples : list Z :=
  (((fun k => 2 ^ 53 + Z.of_nat k) <$> seq 0 40)
   ++ ((fun k => - (2 ^ 60 + 37 * Z.of_nat k)) <$> seq 0 40)
   ++ ((fun k => 3 ^ Z.of_nat k) <$> seq 0 120)
   ++ ((fun k => 10 ^ Z.of_nat (3 * k) + 7) <$> seq 0 110)
   ++ ((fun k => (2 ^ 53 + 2 * Z.of_nat k + 1) * 2 ^ 200) <$> seq 0 20)
   ++ ((fun k => (2 ^ 53 + 2 * Z.of_nat k + 1) * 2 ^ 200 + 1) <$> seq 0 20)
   ++ ((fun k => 2 ^ 1024 - 2 ^ 970 - 5 + Z.of_nat k) <$> seq 0 10))%list.

Definition same_double (x y : SpecFloat.spec_float) : bool :=
  match x, y with
  | SpecFloat.S754_zero a, SpecFloat.S754_zero b => Bool.eqb a b
  | SpecFloat.S754_infinity a, SpecFloat.S754_infinity b => Bool.eqb a b
  | SpecFloat.S754_finite a m e, SpecFloat.S754_finite b m' e' =>
      Bool.eqb a b && Pos.eqb m m' && Z.eqb e e'
  | _, _ => false
  end.

(** The rational that a finite double stands for. *)
Definition double_value (x : SpecFloat.spec_float) : option Q :=
  match x with
  | SpecFloat.S754_zero _ => Some (0 # 1)%Q
  | SpecFloat.S754_finite s m e =>
      Some (inject_Z (if s then Z.neg m else Z.pos m) * Qpower (2 # 1) e)%Q
  | _ => None
  end.

(** The radius in the words of the specification: the distance
    parameter divided by the radius of the Earth, for a parameter whose
    value [d] is a double. *)
Definition radius_as_specified (distance : string) : Prop :=
  forall q d v,
    decimal_value distance = Some q ->
    double_value d = Some v ->
    (v == q)%Q ->
    search_radius distance = Js.div d (Js.double earth_radius_miles).

(** A stand-in for the geometry of the database on a flat map: a point
    is within the cap when its distance from the centre, in degrees, is
    at most the radius, taken as 57.3 degrees a radian. *)
Definition flat_cap (center : Q * Q) (radius : SpecFloat.spec_float)
    (l : Location) : bool :=
  match coordinates l, double_value radius with
  | Some [lng; lat], Some r =>
      Qle_bool ((lng - fst center) * (lng - fst center)
                + (lat - snd center) * (lat - snd center))%Q
               ((r * (573 # 10)) * (r * (573 # 10)))%Q
  | _, _ => false
  end.

(** A reading taken a few miles from the point the geocoder answers. *)
Definition r_near : MeterReading :=
  {| mr_id := "r5"; mr_user := "u2"; mr_meterNumber := "M-500";
     mr_reading := (12 # 1)%Q; mr_unit := Units; mr_photo := "photo_r5.jpg";
     mr_location := {| loc_type := Some "Point";
                       coordinates := Some [(1 # 10)%Q; (1 # 10)%Q];
                       address := Some "Null Island 1" |};
     mr_status := Approved; mr_notes := None;
     mr_readerNotes := None; mr_approvedBy := Some "a1"; mr_approvedAt := Some 45;
     mr_createdAt := 40; mr_updatedAt := 45 |}.

Definition db_near : Db :=
  {| users := [ann; bob; root]; readings := [r1; r_near; r2];
     files := ["photo_r1.jpg"; "photo_r2.jpg"; "photo_r5.jpg"] |}.

(** Fifteen readings of Ann, one a second, for the pagination example. *)
Definition reading_at (n : nat) : MeterReading :=
  {| mr_id := "m" +:+ pretty n; mr_user := "u1";
     mr_meterNumber := "M-" +:+ pretty n;
     mr_reading := (1042 # 1)%Q; mr_unit := Units; mr_photo := "";
     mr_location := depot; mr_status := Approved; mr_notes := None;
     mr_readerNotes := None; mr_approvedBy := None; mr_approvedAt := None;
     mr_createdAt := Z.of_nat n; mr_updatedAt := Z.of_nat n |}.

Definition fifteen : Db :=
  {| users := [ann; bob; root]; readings := reading_at <$> seq 1 15; files := [] |}.

(** [count] and [pagination] of a list response. *)
Definition page_summary (o : Outcome) : option (Z * Pagination) :=
  match o with
  | Json _ (DPage count pg _) => Some (count, pg)
  | _ => None
  end.

(** ** utils/errorResponse: the static constructors *)

(** What [fromMongoError] reads of its argument; a property is [None]
    when the error does not have it. *)
Record MongoError := {
  me_code : option ErrorMiddleware.CodeVal;
  me_keyValue : option (list (string * string));
  me_name : option string;
  (** [errors]: path and [message] of each entry *)
  me_errors : option (list (string * string));
}.

Definition me_code_is_11000 (error : MongoError) : bool :=
  match me_code error with
  | Some (ErrorMiddleware.CNum n) => n =? 11000
  | _ => false
  end.

Definition me_name_is (error : MongoError) (n : string) : bool :=
  match me_name error with
  | Some s => String.eqb s n
  | None => false
  end.

(** [ErrorResponse.fromMongoError(error)].  The three tests run in
    sequence, each overwriting what the one before it set.  [None] is a
    [TypeError]: the one that [Object.keys(error.keyValue)] throws on an
    error with code 11000 and no [keyValue], or the one that
    [Object.values(error.errors)] throws on an error named
    [ValidationError] that has no [errors]. *)
Definition fromMongoError (error : MongoError) : option ErrorResponse :=
  let start := Some {| er_message := "Database error"; er_statusCode := 500 |} in
  let after_duplicate :=
    if me_code_is_11000 error then
      match me_keyValue error with
      | Some kv =>
          Some {| er_message := "Duplicate field value: "
                                +:+ Js.render (fst <$> head kv)
                                +:+ ". Please use another value";
                  er_statusCode := 400 |}
      | None => None
      end
    else start in
  let after_validation :=
    if me_name_is error "ValidationError" then
      match after_duplicate, me_errors error with
      | Some _, Some errors =>
          Some {| er_message := Js.join ", " (snd <$> errors);
                  er_statusCode := 400 |}
      | _, _ => None
      end
    else after_duplicate in
  if me_name_is error "CastError" then
    (fun _ => {| er_message := "Resource not found"; er_statusCode := 404 |})
      <$> after_validation
  else after_validation.

(** The duplicate-key error of the driver, as [fromMongoError] reads it. *)
Definition duplicate_key (field value : string) : MongoError :=
  {| me_code := Some (ErrorMiddleware.CNum 11000);
     me_keyValue := Some [(field, value)];
     me_name := Some "MongoServerError";
     me_errors := None |}.

(** [ErrorResponse.fromJWTError(error)] *)
Definition fromJWTError (error : ErrorMiddleware.JsError) : ErrorResponse :=
  {| er_message :=
       if ErrorMiddleware.name_is error "JsonWebTokenError" then "Invalid token"
       else if ErrorMiddleware.name_is error "TokenExpiredError" then "Token expired"
       else "Authentication error";
     er_statusCode := 401 |}.

(** ** config/database: the connection singleton *)
Module Database.

(** What a call does besides returning. *)
Inductive Effect :=
| MongooseConnect
| MongooseDisconnect
| SetupEventListeners
| SetTimeout (ms : Z)
| LogInfo (msg : string)
| LogError (msg : string).

(** How a call of the driver ends: it resolves, or it rejects with an
    [Error] of the given message ([None]: with a value that is no
    [Error]). *)
Inductive DriverOutcome :=
| Resolves
| Rejects (message : option string).

(** How a method ends: it returns, or it throws an error of the given
    message ([None]: a value that is no [Error]). *)
Inductive Result :=
| Returned
| Thrown (message : option string).

(** [this.connection] is set. *)
Record t := { connected : bool }.

(** [connect()], given how [mongoose.connect] ends if it is called. *)
Definition connect (driver : DriverOutcome) (this : t) : Result * t * list Effect :=
  if connected this then (Returned, this, [])
  else
    match driver with
    | Resolves =>
        (Returned, {| connected := true |},
         [LogInfo "Connecting to MongoDB..."; MongooseConnect;
          LogInfo "MongoDB connected successfully"; SetupEventListeners])
    | Rejects message =>
        let errorMessage := default "Unknown error" message in
        (Thrown (Some ("MongoDB connection error: " +:+ errorMessage)), this,
         [LogInfo "Connecting to MongoDB..."; MongooseConnect;
          LogError ("MongoDB connection error: " +:+ errorMessage);
          SetTimeout 5000])
    end.

(** [disconnect()], given how [mongoose.disconnect] ends if it is called. *)
Definition disconnect (driver : DriverOutcome) (this : t) : Result * t * list Effect :=
  if negb (connected this) then (Returned, this, [])
  else
    match driver with
    | Resolves =>
        (Returned, {| connected := false |},
         [MongooseDisconnect; LogInfo "MongoDB disconnected"])
    | Rejects message =>
        let errorMessage := default "Unknown error" message in
        (Thrown message, this,
         [MongooseDisconnect;
          LogError ("Error disconnecting from MongoDB: " +:+ errorMessage)])
    end.

(** The callbacks of the retry timers, one after the other: each logs,
    calls [connect()] and logs again if that call throws, in which case
    the call has set the next timer.  [drivers] lists how the successive
    calls of [mongoose.connect] end; the run stops when it is used up. *)
Fixpoint retry (drivers : list DriverOutcome) (this : t) : t * list Effect :=
  match drivers with
  | [] => (this, [])
  | d :: rest =>
      match connect d this with
      | (Returned, this', effects) =>
          (this', LogInfo "Retrying MongoDB connection..." :: effects)
      | (Thrown _, this', effects) =>
          let '(final, later) := retry rest this' in
          (final,
           (LogInfo "Retrying MongoDB connection..." :: effects
            ++ LogError "Failed to reconnect to MongoDB" :: later)%list)
      end
  end.

(** A first [connect()] and the retries it starts when it fails. *)
Definition connect_and_retry (drivers : list DriverOutcome) (this : t)
  : t * list Effect :=
  match drivers with
  | [] => (this, [])
  | d :: rest =>
      match connect d this with
      | (Returned, this', effects) => (this', effects)
      | (Thrown _, this', effects) =>
          let '(final, later) := retry rest this' in
          (final, (effects ++ later)%list)
      end
  end.

(** [getConnectionStatus()], given [mongoose.connection.readyState]. *)
Definition getConnectionStatus (readyState : Z) : string :=
  if readyState =? 1 then "connected" else "disconnected".

Definition count_connects (effects : list Effect) : nat :=
  length (List.filter (fun e => match e with MongooseConnect => true | _ => false end)
                      effects).

Definition count_timers (effects : list Effect) : nat :=
  length (List.filter (fun e => match e with SetTimeout _ => true | _ => false end)
                      effects).

Definition count_listeners (effects : list Effect) : nat :=
  length (List.filter (fun e => match e with SetupEventListeners => true | _ => false end)
                      effects).

End Database.

(** ** server: health endpoints and the socket registry *)

(** The bodies of [GET /health] and of the [/healthcheck] check, without
    their timestamp and uptime. *)
Record HealthBody := {
  h_status : string;
  h_database : string;
}.

Definition health (readyState : Z) : Z * HealthBody :=
  (200, {| h_status := "success";
           h_database := Database.getConnectionStatus readyState |}).

Definition onHealthCheck (readyState : Z) : HealthBody :=
  let dbStatus := Database.getConnectionStatus readyState in
  {| h_status := if String.eqb dbStatus "connected" then "ok" else "error";
     h_database := dbStatus |}.

Module Hub.

(** The [users] map of the server, user id to socket id, and the
    [userId] property of each socket, by socket id. *)
Record t := {
  registry : gmap string string;
  socket_userId : gmap string string;
}.

Definition empty : t := {| registry := ∅; socket_userId := ∅ |}.

(** The handler of [authenticate] on the socket [sid]; the payload is
    [Some] when it is a string. *)
Definition authenticate (sid : string) (userId : option string) (hub : t) : t :=
  match userId with
  | Some u =>
      {| registry := <[u := sid]> (registry hub);
         socket_userId := <[sid := u]> (socket_userId hub) |}
  | None => hub
  end.

(** The handler of [disconnect] on the socket [sid]. *)
Definition disconnect (sid : string) (hub : t) : t :=
  if Js.truthy_str (socket_userId hub !! sid) then
    {| registry := delete (default "" (socket_userId hub !! sid)) (registry hub);
       socket_userId := socket_userId hub |}
  else hub.

End Hub.

(** ** Conditions on the stored readings *)

(** What the handlers keep of the schema in every stored reading: a
    trimmed, non-empty meter number of at most 50 characters, a reading
    that is not negative, a photo, an address that is not the empty
    string, notes of at most 500 characters. *)
Definition within (n : nat) (o : option string) : bool :=
  match o with
  | Some s => (String.length s <=? n)%nat
  | None => true
  end.

Definition valid_doc (r : MeterReading) : bool :=
  negb (String.eqb (mr_meterNumber r) "")
  && String.eqb (Js.trim (mr_meterNumber r)) (mr_meterNumber r)
  && (String.length (mr_meterNumber r) <=? 50)%nat
  && Qle_bool 0 (mr_reading r)
  && negb (String.eqb (mr_photo r) "")
  && negb (bool_decide (address (mr_location r) = Some ""))
  && within 500 (mr_notes r)
  && within 500 (mr_readerNotes r).

(** An identifier as the database prints it: 24 hexadecimal digits in
    lower case.  Such a string casts to an [ObjectId], and two of them
    name the same document only when they are equal. *)
Fixpoint all_hex (s : string) : bool :=
  match s with
  | EmptyString => true
  | String c s' =>
      let n := nat_of_ascii c in
      ((48 <=? n)%nat && (n <=? 57)%nat || (97 <=? n)%nat && (n <=? 102)%nat)
      && all_hex s'
  end.

Definition is_ObjectId (s : string) : bool :=
  (String.length s =? 24)%nat && all_hex s.

(** The sure ways for a body to fail the validators of the schema. *)
Definition bad_status (b : Body) : Prop :=
  exists s, b_status b = Some s /\ status_of_string s = None.

Definition bad_reading (b : Body) : Prop :=
  exists q, b_reading b = Some q /\ Qle_bool 0 q = false.

Definition blank_meterNumber (b : Body) : Prop :=
  exists m, b_meterNumber b = Some m /\ Js.trim m = "".

Definition blank_photo (b : Body) : Prop := b_photo b = Some "".

(** An admin's update that sets the status and relabels the meter. *)
Definition relabel_body (s meter : string) : Body :=
  {| b_user := None; b_meterNumber := Some meter; b_reading := None; b_unit := None;
     b_photo := None; b_location := None; b_status := Some s; b_notes := None;
     b_readerNotes := None; b_approvedBy := None; b_approvedAt := None |}.

(** A [CastError], as [fromMongoError] reads it. *)
Definition cast_failure : MongoError :=
  {| me_code := None; me_keyValue := None; me_name := Some "CastError";
     me_errors := None |}.

(** At most one pending reading for each meter number. *)
Definition one_pending (rs : list MeterReading) : Prop :=
  forall m, (length (List.filter (pending_for m) rs) <= 1)%nat.

(** The identifiers of the collection are pairwise different. *)
Definition unique_ids (rs : list MeterReading) : Prop :=
  NoDup (mr_id <$> rs).

(** More thrown values and an environment for the examples. *)
Definition bad_id_error : ErrorMiddleware.JsError :=
  {| ErrorMiddleware.e_class := ErrorMiddleware.CastError;
     ErrorMiddleware.e_name := Some "CastError";
     ErrorMiddleware.e_message := Some "Cast to ObjectId failed for value xyz";
     ErrorMiddleware.e_stack := Some "CastError: Cast to ObjectId failed";
     ErrorMiddleware.e_statusCode := None;
     ErrorMiddleware.e_status := None;
     ErrorMiddleware.e_isOperational := None;
     ErrorMiddleware.e_code := None;
     ErrorMiddleware.e_keyValue := None;
     ErrorMiddleware.e_path := Some "_id";
     ErrorMiddleware.e_value := Some "xyz";
     ErrorMiddleware.e_errors := [];
     ErrorMiddleware.e_details := [] |}.

Definition jwt_malformed : ErrorMiddleware.JsError :=
  {| ErrorMiddleware.e_class := ErrorMiddleware.PlainError;
     ErrorMiddleware.e_name := Some "JsonWebTokenError";
     ErrorMiddleware.e_message := Some "jwt malformed";
     ErrorMiddleware.e_stack := Some "JsonWebTokenError: jwt malformed";
     ErrorMiddleware.e_statusCode := None;
     ErrorMiddleware.e_status := None;
     ErrorMiddleware.e_isOperational := None;
     ErrorMiddleware.e_code := None;
     ErrorMiddleware.e_keyValue := None;
     ErrorMiddleware.e_path := None;
     ErrorMiddleware.e_value := None;
     ErrorMiddleware.e_errors := [];
     ErrorMiddleware.e_details := [] |}.

Definition jwt_expired : ErrorMiddleware.JsError :=
  {| ErrorMiddleware.e_class := ErrorMiddleware.PlainError;
     ErrorMiddleware.e_name := Some "TokenExpiredError";
     ErrorMiddleware.e_message := Some "jwt expired";
     ErrorMiddleware.e_stack := Some "TokenExpiredError: jwt expired";
     ErrorMiddleware.e_statusCode := None;
     ErrorMiddleware.e_status := None;
     ErrorMiddleware.e_isOperational := None;
     ErrorMiddleware.e_code := None;
     ErrorMiddleware.e_keyValue := None;
     ErrorMiddleware.e_path := None;
     ErrorMiddleware.e_value := None;
     ErrorMiddleware.e_errors := [];
     ErrorMiddleware.e_details := [] |}.

Definition test_env : Env :=
  {| NODE_ENV := Some "test"; JWT_SECRET := Some "s3cr3t"; JWT_EXPIRE := None |}.

(** * Properties *)

Example split_bearer : Js.split " " "Bearer abc.def" = ["Bearer"; "abc.def"].
Proof. reflexivity. Qed.

Example split_no_token : Js.split " " "Bearer" = ["Bearer"].
Proof. reflexivity. Qed.

Example parseInt_fraction : Js.parseInt "10.5" = Some 10.
Proof. reflexivity. Qed.

Example parseInt_hex : Js.parseInt " 0x1f" = Some 31.
Proof. reflexivity. Qed.

Example parseInt_nan : Js.parseInt "ten" = None.
Proof. reflexivity. Qed.

(** ** Error-normalization middleware *)
Section ErrorHandlerFacts.
Import ErrorMiddleware.

Lemma env_is_production env :
  NODE_ENV env = Some "production" ->
  env_is env "development" = false /\ env_is env "production" = true.
Proof. unfold env_is. intros ->. split; reflexivity. Qed.

(** In production the response is that of the production error. *)
Lemma errorHandler_production env err :
  NODE_ENV env = Some "production" ->
  errorHandler env err =
    (let p := productionError err (normalize err) in
     {| res_status := Js.or_num (Some (ae_statusCode p)) 500;
        res_body := [("success", JBool false);
                     ("error", JStr (Js.or_str (Some (ae_message p)) "Server Error"))] |},
     []).
Proof.
  intros H. destruct (env_is_production env H) as [Hd Hp].
  unfold errorHandler. rewrite Hd, Hp. reflexivity.
Qed.

Lemma or_str_idem o d d' :
  d <> "" -> Js.or_str (Some (Js.or_str o d)) d' = Js.or_str o d.
Proof.
  intros Hd. unfold Js.or_str at 1. unfold Js.truthy_str.
  destruct (String.eqb_spec (Js.or_str o d) "") as [E|E]; simpl; [|reflexivity].
  exfalso. revert E. unfold Js.or_str, Js.truthy_str.
  destruct o as [s|]; simpl; [|exact Hd].
  destruct (String.eqb_spec s "") as [E'|E']; simpl; [exact Hd | exact E'].
Qed.

Lemma unrecognized_production err :
  recognized err = false ->
  productionError err (normalize err) =
    new_AppError (message (normalize err))
                 (Js.or_num (Some (statusCode (normalize err))) 500).
Proof.
  unfold recognized, productionError.
  destruct (e_class err); try discriminate.
  intros H. apply orb_false_iff in H as [H H3]. apply orb_false_iff in H as [H1 H2].
  now rewrite H1, H2, H3.
Qed.

(** An [ErrorResponse] handed to [next] reaches the client with its own
    status and message, in every environment. *)
Lemma errorHandler_ErrorResponse env e :
  er_statusCode e <> 0 ->
  er_message e <> "" ->
  fst (errorHandler env (of_ErrorResponse e)) =
    {| res_status := er_statusCode e;
       res_body := [("success", JBool false); ("error", JStr (er_message e))] |}.
Proof.
  intros Hc Hm.
  assert (Ht : Js.truthy_str (Some (er_message e)) = true).
  { unfold Js.truthy_str. destruct (String.eqb_spec (er_message e) ""); [contradiction|reflexivity]. }
  assert (Hn : Js.or_num (Some (er_statusCode e)) 500 = er_statusCode e).
  { unfold Js.or_num. destruct (Z.eqb_spec (er_statusCode e) 0); [contradiction|reflexivity]. }
  assert (Hs : Js.or_str (Some (er_message e)) "Server Error" = er_message e).
  { unfold Js.or_str. now rewrite Ht. }
  assert (Hnorm : statusCode (normalize (of_ErrorResponse e)) = er_statusCode e
                  /\ message (normalize (of_ErrorResponse e)) = er_message e).
  { unfold normalize, of_ErrorResponse, isAppError, truthy_status.
    cbn [statusCode message e_message e_statusCode].
    destruct (Z.eqb_spec (er_statusCode e) 0); [contradiction|].
    split; [reflexivity|]. unfold Js.or_str. now rewrite Ht. }
  destruct Hnorm as [Hsc Hmsg].
  unfold errorHandler.
  destruct (env_is env "development"); cbn [fst].
  - cbn [statusCode message]. rewrite Hsc, Hmsg, Hn, Hs. reflexivity.
  - destruct (env_is env "production").
    + rewrite (unrecognized_production (of_ErrorResponse e) eq_refl).
      cbn [statusCode message ae_statusCode ae_message new_AppError].
      rewrite Hsc, Hmsg, !Hn, Hs. reflexivity.
    + cbn [statusCode message]. rewrite Hsc, Hmsg, Hn, Hs. reflexivity.
Qed.

End ErrorHandlerFacts.

Section ErrorHandlerClaims.
Import ErrorMiddleware.

(** The keys of the JSON body the handler sends. *)
Lemma errorHandler_body_keys env err :
  fst <$> res_body (fst (errorHandler env err)) = ["success"; "error"].
Proof. reflexivity. Qed.

(** The [stack] property of the thrown value has no influence on the
    response. *)
Lemma errorHandler_ignores_stack env err s :
  fst (errorHandler env
         {| e_class := e_class err; e_name := e_name err;
            e_message := e_message err; e_stack := s;
            e_statusCode := e_statusCode err; e_status := e_status err;
            e_isOperational := e_isOperational err; e_code := e_code err;
            e_keyValue := e_keyValue err; e_path := e_path err;
            e_value := e_value err; e_errors := e_errors err;
            e_details := e_details err |})
  = fst (errorHandler env err).
Proof.
  unfold errorHandler, normalize, productionError, isAppError, recognized,
    code_is_11000, name_is, handleValidationErrorDB, handleJoiValidationError; simpl.
  destruct (env_is env "development"), (env_is env "production"); reflexivity.
Qed.

(** C4, as amended: in production, an error outside the recognized
    categories that carries no status code is answered with status 500 and
    a body of exactly two fields, [success: false] and [error], where
    [error] is the error's own message (the text "An unknown error
    occurred" when it has none); nothing is logged; and in every
    environment the body has no field besides these two and does not
    depend on the error's stack. *)
Theorem errorHandler_production_unrecognized env err :
  NODE_ENV env = Some "production" ->
  recognized err = false ->
  e_statusCode err = None ->
  errorHandler env err =
    ({| res_status := 500;
        res_body := [("success", JBool false);
                     ("error", JStr (Js.or_str (e_message err)
                                       "An unknown error occurred"))] |}, [])
  /\ (forall env' err' s,
        fst <$> res_body (fst (errorHandler env' err')) = ["success"; "error"]
        /\ fst (errorHandler env'
                  {| e_class := e_class err'; e_name := e_name err';
                     e_message := e_message err'; e_stack := s;
                     e_statusCode := e_statusCode err'; e_status := e_status err';
                     e_isOperational := e_isOperational err'; e_code := e_code err';
                     e_keyValue := e_keyValue err'; e_path := e_path err';
                     e_value := e_value err'; e_errors := e_errors err';
                     e_details := e_details err' |})
           = fst (errorHandler env' err')).
Proof.
  intros Henv Hrec Hcode. split.
  - rewrite (errorHandler_production env err Henv).
    rewrite (unrecognized_production err Hrec). cbn [ae_statusCode ae_message new_AppError].
    assert (Hs : statusCode (normalize err) = 500).
    { unfold normalize, isAppError, truthy_status. cbn [statusCode]. rewrite Hcode.
      now destruct (e_message err). }
    rewrite Hs. cbn [Js.or_num Z.eqb]. cbn [message normalize].
    rewrite or_str_idem by discriminate. reflexivity.
  - intros env' err' s. split.
    + apply errorHandler_body_keys.
    + apply errorHandler_ignores_stack.
Qed.

Lemma errorHandler_production_unrecognized_witness :
  errorHandler production econnrefused =
    ({| res_status := 500;
        res_body := [("success", JBool false);
                     ("error", JStr "connect ECONNREFUSED 10.0.0.5:27017")] |}, []).
Proof.
  exact (proj1 (errorHandler_production_unrecognized production econnrefused
                  eq_refl eq_refl eq_refl)).
Defined.

(** C4, counterexample: were the message of every such response one that
    does not reveal the internal message, the response to a refused
    database connection would differ from the driver's own text; it is
    that text. *)
Lemma errorHandler_production_reveals_message :
  ~ (forall err, recognized err = false -> e_statusCode err = None ->
       response_error (fst (errorHandler production err)) <> e_message err).
Proof.
  intros H. apply (H econnrefused); reflexivity.
Qed.

Example errorHandler_econnrefused :
  response_error (fst (errorHandler production econnrefused))
  = Some "connect ECONNREFUSED 10.0.0.5:27017".
Proof. reflexivity. Qed.

End ErrorHandlerClaims.

Section DuplicateKeyClaims.
Import ErrorMiddleware.

Lemma duplicate_production err :
  e_class err <> CastError ->
  code_is_11000 err = true ->
  productionError err (normalize err) = handleDuplicateFieldsDB (e_keyValue err).
Proof.
  intros Hc H. unfold productionError. rewrite H.
  destruct (e_class err); [reflexivity | contradiction | reflexivity | reflexivity].
Qed.

(** A refused insert leaves the collection as it was: the only
    collection [User_insert] hands back is the extended one. *)
Lemma User_insert_duplicate us u :
  existsb (fun v => String.eqb (u_email v) (u_email u)) us = true ->
  User_insert us u = inl (duplicate_key_error "email" (u_email u)).
Proof. intros H. unfold User_insert. now rewrite H. Qed.

(** C5, as amended: in production, every error with code 11000 (that is
    not a cast error) is answered with status 400 and the message
    "Duplicate field value: V. Please use another value!", where V is the
    first value of the error's [keyValue] (the conflicting value, or
    "unknown" without a [keyValue]); inserting a user whose email is
    already stored yields such an error, with V the email, and no
    collection with a new record. *)
Theorem errorHandler_production_duplicate_key env err :
  NODE_ENV env = Some "production" ->
  e_class err <> CastError ->
  code_is_11000 err = true ->
  errorHandler env err =
    ({| res_status := 400;
        res_body :=
          [("success", JBool false);
           ("error",
            JStr ("Duplicate field value: "
                  +:+ match e_keyValue err with
                      | Some kv => Js.render (snd <$> head kv)
                      | None => "unknown"
                      end
                  +:+ ". Please use another value!"))] |}, [])
  /\ (forall us u,
        existsb (fun v => String.eqb (u_email v) (u_email u)) us = true ->
        User_insert us u = inl (duplicate_key_error "email" (u_email u))
        /\ errorHandler env (duplicate_key_error "email" (u_email u)) =
             ({| res_status := 400;
                 res_body :=
                   [("success", JBool false);
                    ("error", JStr ("Duplicate field value: " +:+ u_email u
                                    +:+ ". Please use another value!"))] |}, [])).
Proof.
  intros Henv Hc H.
  assert (G : forall e, e_class e <> CastError -> code_is_11000 e = true ->
    errorHandler env e =
    ({| res_status := 400;
        res_body :=
          [("success", JBool false);
           ("error",
            JStr ("Duplicate field value: "
                  +:+ match e_keyValue e with
                      | Some kv => Js.render (snd <$> head kv)
                      | None => "unknown"
                      end
                  +:+ ". Please use another value!"))] |}, [])).
  { intros e Hce He. rewrite (errorHandler_production env e Henv).
    rewrite (duplicate_production e Hce He). reflexivity. }
  split; [now apply G|].
  intros us u Hdup. split; [now apply User_insert_duplicate|].
  rewrite G; [reflexivity | discriminate | reflexivity].
Qed.

Lemma errorHandler_production_duplicate_key_witness :
  User_insert [ann; bob] ann_again = inl (duplicate_key_error "email" "ann@x.org")
  /\ errorHandler production (duplicate_key_error "email" "ann@x.org") =
       ({| res_status := 400;
           res_body :=
             [("success", JBool false);
              ("error", JStr "Duplicate field value: ann@x.org. Please use another value!")] |},
        []).
Proof.
  exact (proj2 (errorHandler_production_duplicate_key production
                  (duplicate_key_error "email" "ann@x.org")
                  eq_refl ltac:(discriminate) eq_refl)
               [ann; bob] ann_again eq_refl).
Defined.

(** C5, counterexample: the duplicate-key error of a second registration
    under a stored email is answered with status 500 outside production,
    and in production with a message in which the field, [email], does
    not occur. *)
Lemma errorHandler_duplicate_key_not_as_claimed :
  ~ (forall env err, code_is_11000 err = true ->
       res_status (fst (errorHandler env err)) = 400)
  /\ ~ (forall err, code_is_11000 err = true ->
          names_field err
            (default "" (response_error (fst (errorHandler production err))))
          = true).
Proof.
  split; intros H.
  - specialize (H development (duplicate_key_error "email" "ann@x.org") eq_refl).
    vm_compute in H. discriminate H.
  - specialize (H (duplicate_key_error "email" "ann@x.org") eq_refl).
    vm_compute in H. discriminate H.
Qed.

Example duplicate_key_development :
  res_status (fst (errorHandler development (duplicate_key_error "email" "ann@x.org")))
  = 500.
Proof. reflexivity. Qed.

Example duplicate_key_production_names_value :
  let err := duplicate_key_error "email" "ann@x.org" in
  let msg := default "" (response_error (fst (errorHandler production err))) in
  msg = "Duplicate field value: ann@x.org. Please use another value!"
  /\ names_field err msg = false.
Proof. split; vm_compute; reflexivity. Qed.

End DuplicateKeyClaims.

(** ** Auth middleware *)
Section ProtectFacts.
Variable jwt_verify : string -> string -> Z -> option JwtPayload.

Lemma split_no_sep sep s : Js.has_char sep s = false -> Js.split sep s = [s].
Proof.
  induction s as [|c s IH]; simpl; [reflexivity|].
  intros H. apply orb_false_iff in H as [Hc Hs].
  rewrite Hc, (IH Hs). reflexivity.
Qed.

Lemma split_bearer_token token :
  Js.has_char " " token = false ->
  Js.split " " ("Bearer " +:+ token) !! 1%nat = Some token.
Proof.
  intros H.
  change (Js.split " " ("Bearer " +:+ token))
    with ("Bearer" :: Js.split " " token).
  now rewrite (split_no_sep _ _ H).
Qed.

Lemma User_findById_id us id u : User_findById us id = Some u -> u_id u = id.
Proof.
  unfold User_findById. intros H. apply find_some in H as [_ H].
  now apply String.eqb_eq in H.
Qed.

Lemma select_minus_password_hides u : u_password (select_minus_password u) = None.
Proof. reflexivity. Qed.

(** [next] is called exactly once, whatever the request. *)
Lemma protect_calls_next_once env now us authorization :
  length (fst (protect jwt_verify env now us authorization)) = 1%nat.
Proof.
  unfold protect.
  destruct authorization as [h|]; [|reflexivity].
  destruct (Js.startsWith h "Bearer"); [|reflexivity].
  unfold protect_try, verify.
  destruct (Js.truthy_str (JWT_SECRET env)); [|reflexivity]. cbn [negb].
  destruct (Js.truthy_str (Js.split " " h !! 1%nat)) eqn:Ht; [|reflexivity].
  destruct (jwt_verify _ _ _); [|reflexivity].
  destruct (User_findById _ _); reflexivity.
Qed.
End ProtectFacts.

Section ProtectClaims.
Variable jwt_verify : string -> string -> Z -> option JwtPayload.

(** C7: a request without an [Authorization] header, or whose header
    does not start with [Bearer], is refused with 401; a [Bearer] header
    whose token part is missing or empty, or whose token fails
    verification under the configured secret, is refused with 401; a
    verified token whose user is not stored is refused with 404;
    otherwise the identity [{id, role, name, email}] of the stored user,
    read without its password, is attached and the chain continues. *)
Theorem protect_outcomes env now us authorization :
  let r := protect jwt_verify env now us authorization in
  (match authorization with
   | Some h => Js.startsWith h "Bearer" = false
   | None => True
   end ->
   r = ([NextErr {| er_message := "Not authorized, no token";
                    er_statusCode := 401 |}], None))
  /\ forall h,
       authorization = Some h ->
       Js.startsWith h "Bearer" = true ->
       let token := Js.split " " h !! 1%nat in
       let secret := JWT_SECRET env in
       ((Js.truthy_str token = false
         \/ Js.truthy_str secret = false
         \/ jwt_verify (default "" token) (default "" secret) now = None) ->
        r = ([NextErr {| er_message := "Not authorized, token failed";
                         er_statusCode := 401 |}], None))
       /\ forall decoded,
            Js.truthy_str token = true ->
            Js.truthy_str secret = true ->
            jwt_verify (default "" token) (default "" secret) now = Some decoded ->
            (User_findById us (p_id decoded) = None ->
             r = ([NextErr {| er_message := "User not found";
                              er_statusCode := 404 |}], None))
            /\ (forall u,
                  User_findById us (p_id decoded) = Some u ->
                  u_password (select_minus_password u) = None
                  /\ r = ([NextOk],
                          Some {| i_id := u_id u; i_role := u_role u;
                                  i_name := u_name u; i_email := u_email u |})).
Proof.
  cbv zeta. split.
  - destruct authorization as [h|]; [|reflexivity].
    intros H. unfold protect. now rewrite H.
  - intros h -> Hb. unfold protect. rewrite Hb.
    unfold protect_try, verify. split.
    + intros [Ht | [Hs | Hv]].
      * rewrite Ht. now destruct (Js.truthy_str (JWT_SECRET env)).
      * now rewrite Hs.
      * destruct (Js.truthy_str (JWT_SECRET env)); [|reflexivity]. cbn [negb].
        destruct (Js.truthy_str (Js.split " " h !! 1%nat)); [|reflexivity].
        now rewrite Hv.
    + intros decoded Ht Hs Hv. rewrite Hs, Ht, Hv. cbn [negb]. split.
      * now intros ->.
      * intros u ->. split; reflexivity.
Qed.
End ProtectClaims.

Lemma protect_outcomes_witness :
  protect JwtStandIn.verify production 100 [ann; root] None
    = ([NextErr no_token], None)
  /\ protect JwtStandIn.verify production 100 [ann; root] (Some "Bearer")
    = ([NextErr token_failed], None)
  /\ protect JwtStandIn.verify production 100 [root]
       (Some "Bearer u1.0.2592000.s3cr3t")
    = ([NextErr user_not_found], None)
  /\ protect JwtStandIn.verify production 100 [ann; root]
       (Some "Bearer u1.0.2592000.s3cr3t")
    = ([NextOk], Some {| i_id := "u1"; i_role := RoleUser; i_name := "Ann";
                         i_email := "ann@x.org" |}).
Proof.
  split; [|split; [|split]].
  - exact (proj1 (protect_outcomes JwtStandIn.verify production 100 [ann; root] None) I).
  - exact (proj1 (proj2 (protect_outcomes JwtStandIn.verify production 100
                           [ann; root] (Some "Bearer"))
                        "Bearer" eq_refl eq_refl)
                 (or_introl eq_refl)).
  - exact (proj1 (proj2 (proj2 (protect_outcomes JwtStandIn.verify production 100
                                  [root] (Some "Bearer u1.0.2592000.s3cr3t"))
                               "Bearer u1.0.2592000.s3cr3t" eq_refl eq_refl)
                        {| p_id := "u1"; p_iat := 0; p_exp := 2592000 |}
                        eq_refl eq_refl eq_refl)
                 eq_refl).
  - exact (proj2 (proj2 (proj2 (proj2 (protect_outcomes JwtStandIn.verify production
                                         100 [ann; root]
                                         (Some "Bearer u1.0.2592000.s3cr3t"))
                                      "Bearer u1.0.2592000.s3cr3t" eq_refl eq_refl)
                               {| p_id := "u1"; p_iat := 0; p_exp := 2592000 |}
                               eq_refl eq_refl eq_refl)
                        ann eq_refl)).
Defined.

(** The scheme is tested by prefix: any header that starts with the six
    letters is read as a bearer header. *)
Example protect_scheme_prefix :
  protect JwtStandIn.verify production 100 [ann; root]
    (Some "Bearerish u1.0.2592000.s3cr3t")
  = ([NextOk], Some {| i_id := "u1"; i_role := RoleUser; i_name := "Ann";
                       i_email := "ann@x.org" |}).
Proof. reflexivity. Qed.

(** ** Token round trip *)
Section TokenRoundTrip.
Variable jwt_sign : string -> string -> Z -> Z -> string.
Variable jwt_verify : string -> string -> Z -> option JwtPayload.

Lemma truthy_str_nonempty s : s <> "" -> Js.truthy_str (Some s) = true.
Proof.
  intros H. unfold Js.truthy_str.
  destruct (String.eqb_spec s ""); [contradiction | reflexivity].
Qed.

(** With a configured secret, signing and verifying use the same one. *)
Lemma same_secret env secret :
  JWT_SECRET env = Some secret -> secret <> "" ->
  Js.or_str (JWT_SECRET env) "your_jwt_secret" = default "" (JWT_SECRET env).
Proof.
  intros -> H. unfold Js.or_str. now rewrite (truthy_str_nonempty _ H).
Qed.

(** C8, as amended: with a configured secret, the same at both ends, a
    token issued by [getSignedJwtToken] and presented as
    [Bearer <token>] before it expires (JWT_EXPIRE, thirty days by
    default, after it was issued) is decoded by the middleware to the
    id of the user it was issued to, and that user, if still stored, is
    the identity attached.  What is assumed of jsonwebtoken is stated
    for this one token: it is a non-empty string without a space, and it
    verifies under its signing secret until it expires. *)
Theorem getSignedJwtToken_protect_roundtrip env issued now us this secret :
  let lifetime := default thirty_days (JWT_EXPIRE env) in
  let token := getSignedJwtToken jwt_sign env issued this in
  JWT_SECRET env = Some secret ->
  secret <> "" ->
  token <> "" ->
  Js.has_char " " token = false ->
  (now < issued + lifetime ->
   jwt_verify (jwt_sign (u_id this) secret lifetime issued) secret now
   = Some {| p_id := u_id this; p_iat := issued; p_exp := issued + lifetime |}) ->
  now < issued + lifetime ->
  p_id <$> verify jwt_verify (Js.split " " ("Bearer " +:+ token) !! 1%nat)
             (default "" (JWT_SECRET env)) now
  = Some (u_id this)
  /\ forall u,
       User_findById us (u_id this) = Some u ->
       protect jwt_verify env now us (Some ("Bearer " +:+ token))
       = ([NextOk],
          Some {| i_id := u_id this; i_role := u_role u;
                  i_name := u_name u; i_email := u_email u |}).
Proof.
  cbv zeta. intros Hsec Hne Htok Hsp Hlib Hlive.
  pose proof (same_secret env secret Hsec Hne) as Hsame.
  pose proof (split_bearer_token _ Hsp) as Hsplit.
  assert (Hv : verify jwt_verify
                 (Js.split " " ("Bearer " +:+ getSignedJwtToken jwt_sign env issued this)
                    !! 1%nat)
                 (default "" (JWT_SECRET env)) now
               = Some {| p_id := u_id this; p_iat := issued;
                         p_exp := issued + default thirty_days (JWT_EXPIRE env) |}).
  { rewrite Hsplit. unfold verify. rewrite (truthy_str_nonempty _ Htok).
    cbn [default from_option id]. unfold getSignedJwtToken. rewrite Hsame, Hsec.
    cbn [default from_option id]. exact (Hlib Hlive). }
  split; [now rewrite Hv|].
  intros u Hu. unfold protect.
  change (Js.startsWith ("Bearer " +:+ getSignedJwtToken jwt_sign env issued this)
            "Bearer") with true.
  cbv iota. unfold protect_try. rewrite Hv. rewrite Hsec.
  rewrite (truthy_str_nonempty _ Hne). cbn [negb p_id]. rewrite Hu.
  cbn [fmap option_fmap option_map]. rewrite Hsplit.
  rewrite (truthy_str_nonempty _ Htok).
  cbn [select_minus_password u_id u_role u_name u_email].
  now rewrite (User_findById_id _ _ _ Hu).
Qed.
End TokenRoundTrip.

Lemma getSignedJwtToken_protect_roundtrip_witness :
  p_id <$> verify JwtStandIn.verify
             (Js.split " " ("Bearer " +:+ getSignedJwtToken JwtStandIn.sign production 0 ann)
                !! 1%nat)
             "s3cr3t" 86400
  = Some "u1"
  /\ protect JwtStandIn.verify production 86400 [ann; root]
       (Some ("Bearer " +:+ getSignedJwtToken JwtStandIn.sign production 0 ann))
     = ([NextOk], Some {| i_id := "u1"; i_role := RoleUser; i_name := "Ann";
                          i_email := "ann@x.org" |}).
Proof.
  pose proof (getSignedJwtToken_protect_roundtrip JwtStandIn.sign JwtStandIn.verify
                production 0 86400 [ann; root] ann "s3cr3t"
                eq_refl ltac:(discriminate) ltac:(vm_compute; discriminate)
                ltac:(vm_compute; reflexivity) ltac:(intros _; vm_compute; reflexivity)
                ltac:(vm_compute; reflexivity)) as [H1 H2].
  split; [exact H1 | exact (H2 ann eq_refl)].
Defined.

(** C8, counterexample: a token issued to Ann under the configured
    secret verifies on the day it is issued, and thirty-one days later,
    under the same secret, the middleware refuses it with 401 and decodes
    no id. *)
Lemma getSignedJwtToken_expired_not_decoded :
  let token := getSignedJwtToken JwtStandIn.sign production 0 ann in
  p_id <$> verify JwtStandIn.verify (Js.split " " ("Bearer " +:+ token) !! 1%nat)
             "s3cr3t" 0
  = Some "u1"
  /\ verify JwtStandIn.verify (Js.split " " ("Bearer " +:+ token) !! 1%nat)
       "s3cr3t" (31 * 24 * 60 * 60)
     = None
  /\ protect JwtStandIn.verify production (31 * 24 * 60 * 60) [ann; root]
       (Some ("Bearer " +:+ token))
     = ([NextErr {| er_message := "Not authorized, token failed";
                    er_statusCode := 401 |}], None).
Proof. vm_compute. repeat split; reflexivity. Qed.

(** ** Password-reset token *)
Section HexFacts.

Lemma hex_digit_inj a b :
  (a < 16)%nat -> (b < 16)%nat -> hex_digit a = hex_digit b -> a = b.
Proof.
  intros Ha Hb.
  do 16 (destruct a as [|a]; [do 16 (destruct b as [|b]; [first [reflexivity | discriminate]|]); lia|]).
  lia.
Qed.

Lemma hex_of_byte_inj b1 b2 : hex_of_byte b1 = hex_of_byte b2 -> b1 = b2.
Proof.
  unfold hex_of_byte. cbv zeta.
  pose proof (Byte.to_nat_bounded b1) as B1.
  pose proof (Byte.to_nat_bounded b2) as B2.
  pose proof (Nat.mod_upper_bound (Byte.to_nat b1) 16 ltac:(lia)) as M1.
  pose proof (Nat.mod_upper_bound (Byte.to_nat b2) 16 ltac:(lia)) as M2.
  assert (D1 : (Byte.to_nat b1 / 16 < 16)%nat)
    by (apply Nat.Div0.div_lt_upper_bound; lia).
  assert (D2 : (Byte.to_nat b2 / 16 < 16)%nat)
    by (apply Nat.Div0.div_lt_upper_bound; lia).
  pose proof (Nat.div_mod_eq (Byte.to_nat b1) 16) as Q1.
  pose proof (Nat.div_mod_eq (Byte.to_nat b2) 16) as Q2.
  revert M1 M2 D1 D2 Q1 Q2.
  generalize (Byte.to_nat b1 / 16)%nat (Byte.to_nat b1 mod 16)%nat
             (Byte.to_nat b2 / 16)%nat (Byte.to_nat b2 mod 16)%nat.
  intros q1 r1 q2 r2 M1 M2 D1 D2 Q1 Q2 H. injection H as Hlo Hhi.
  apply hex_digit_inj in Hhi; [| assumption | assumption].
  apply hex_digit_inj in Hlo; [| assumption | assumption].
  assert (E : Byte.to_nat b1 = Byte.to_nat b2) by lia.
  pose proof (Byte.of_to_nat b1) as E1. rewrite E, Byte.of_to_nat in E1.
  now injection E1.
Qed.

Lemma hex_of_byte_prefix b1 b2 s1 s2 :
  hex_of_byte b1 +:+ s1 = hex_of_byte b2 +:+ s2 ->
  hex_of_byte b1 = hex_of_byte b2 /\ s1 = s2.
Proof.
  unfold hex_of_byte. cbv zeta.
  generalize (hex_digit (Byte.to_nat b1 / 16)) (hex_digit (Byte.to_nat b1 mod 16))
             (hex_digit (Byte.to_nat b2 / 16)) (hex_digit (Byte.to_nat b2 mod 16)).
  intros a1 c1 a2 c2 H. change (String a1 (String c1 s1) = String a2 (String c2 s2)) in H.
  injection H as -> -> ->. split; reflexivity.
Qed.

(** Two buffers with the same rendering are the same buffer. *)
Lemma toString_hex_inj e1 : forall e2, toString_hex e1 = toString_hex e2 -> e1 = e2.
Proof.
  induction e1 as [|b1 e1 IH]; intros [|b2 e2] H; cbn [toString_hex] in H;
    try reflexivity; try (unfold hex_of_byte in H; discriminate H).
  apply hex_of_byte_prefix in H as [Hb Hs].
  f_equal; [now apply hex_of_byte_inj | now apply IH].
Qed.

Lemma toString_hex_length e : String.length (toString_hex e) = (2 * length e)%nat.
Proof.
  induction e as [|b e IH]; [reflexivity|].
  cbn [toString_hex length]. unfold hex_of_byte. cbv zeta.
  change (S (S (String.length (toString_hex e))) = (2 * S (length e))%nat).
  rewrite IH. lia.
Qed.

End HexFacts.

Section ResetTokenClaims.
Variable sha256_hex : string -> string.

(** C10: [getResetPasswordToken] returns the hexadecimal rendering of
    the random bytes it drew, two characters a byte, so that two calls
    return the same token only if they drew the same bytes; the document
    it leaves differs from the one it found in two fields only:
    [resetPasswordToken], set to the SHA-256 digest of the returned
    token, and [resetPasswordExpire], set to the clock plus 600000 ms,
    ten minutes. *)
Theorem getResetPasswordToken_spec now_ms entropy this :
  let token := fst (getResetPasswordToken sha256_hex now_ms entropy this) in
  let this' := snd (getResetPasswordToken sha256_hex now_ms entropy this) in
  token = toString_hex entropy
  /\ String.length token = (2 * length entropy)%nat
  /\ (forall now_ms' entropy' that,
        fst (getResetPasswordToken sha256_hex now_ms' entropy' that) = token ->
        entropy' = entropy)
  /\ this' =
       {| u_id := u_id this; u_name := u_name this; u_email := u_email this;
          u_password := u_password this; u_role := u_role this;
          u_resetPasswordToken := Some (sha256_hex token);
          u_resetPasswordExpire := Some (now_ms + 600000) |}
  /\ 600000 = 10 * 60 * 1000.
Proof.
  cbv zeta. cbn [getResetPasswordToken fst snd].
  split; [reflexivity|]. split; [apply toString_hex_length|].
  split; [|split; reflexivity].
  intros _ entropy' _ H. now apply toString_hex_inj.
Qed.
End ResetTokenClaims.

Example toString_hex_bytes :
  toString_hex [Byte.x00; Byte.x0f; Byte.xa5; Byte.xff] = "000fa5ff".
Proof. reflexivity. Qed.

(** ** Listing readings *)
Section ListFacts.

Lemma window_sublist {A} skip limit (l : list A) :
  window skip limit l `sublist_of` l.
Proof.
  unfold window. destruct (_ <=? skip).
  - rewrite take_nil. apply sublist_nil_l.
  - etrans; [apply sublist_take | apply sublist_drop].
Qed.

(** Within the list, the window is the plain [take] after [drop]. *)
Lemma window_spec {A} skip limit (l : list A) :
  0 <= skip ->
  window skip limit l = take (Z.to_nat (Z.abs limit)) (drop (Z.to_nat skip) l).
Proof.
  intros Hs. unfold window.
  destruct (Z.leb_spec (Z.of_nat (length l)) skip) as [H|H].
  - rewrite (drop_ge l (Z.to_nat skip)) by lia. now rewrite !take_nil.
  - destruct (Z.le_gt_cases (Z.abs limit) (Z.of_nat (length l))) as [Hl|Hl].
    + now rewrite Z.min_l by exact Hl.
    + rewrite Z.min_r by lia.
      rewrite !take_ge; [reflexivity | |]; rewrite length_drop; lia.
Qed.

Lemma window_length {A} skip limit (l : list A) :
  Z.of_nat (length (window skip limit l)) <= Z.abs limit
  /\ (length (window skip limit l) <= length l)%nat.
Proof.
  unfold window. rewrite length_take.
  destruct (_ <=? skip); [cbn [length]; lia|]. rewrite length_drop. lia.
Qed.


(** What a list response tells of the run that produced it. *)
Lemma getMeterReadings_Json db user q code count pg items :
  getMeterReadings db user q = Json code (DPage count pg items) ->
  let page := Js.or_num (Js.parseInt_opt (q_page q)) 1 in
  let limit := Js.or_num (Js.parseInt_opt (q_limit q)) 10 in
  let found := List.filter (matches (build_filter user q)) (readings db) in
  exists skip,
    skip_of page limit = Some skip
    /\ 0 <= skip
    /\ Z.of_nat (length found) < 2 ^ 53
    /\ code = 200
    /\ items = populate (users db) <$> window skip limit (merge_sort newer_first found)
    /\ count = Z.of_nat (length items)
    /\ pg = {| currentPage := page;
               totalPages := ceil_div (Z.of_nat (length found)) limit;
               totalItems := Z.of_nat (length found) |}.
Proof.
  unfold getMeterReadings. cbv zeta.
  destruct (skip_of _ _) as [skip|]; [|discriminate].
  destruct (int64 skip); cbn [andb negb]; [|discriminate].
  destruct (int64 _); cbn [andb negb]; [|discriminate].
  destruct (Z.ltb_spec (Z.of_nat (length (List.filter (matches (build_filter user q))
                                            (readings db)))) (2 ^ 53)) as [Ht|Ht];
    cbn [negb]; [|discriminate].
  destruct (Z.ltb_spec skip 0) as [Hs|Hs]; [discriminate|].
  intros H. injection H as <- <- <- <-. exists skip. repeat split; try assumption.
Qed.





End ListFacts.



(** Page 2 with limit 10 over 15 matching readings: five items, two
    pages. *)
Example getMeterReadings_second_page :
  page_summary
    (getMeterReadings fifteen (identity_of ann)
       {| q_page := Some "2"; q_limit := Some "10"; q_status := None |})
  = Some (5, {| currentPage := 2; totalPages := 2; totalItems := 15 |}).
Proof. vm_compute. reflexivity. Qed.

Example getMeterReadings_admin_sees_all :
  getMeterReadings db0 (identity_of root) no_query
  = Json 200 (DPage 2 {| currentPage := 1; totalPages := 1; totalItems := 2 |}
                [populate (users db0) r2; populate (users db0) r1]).
Proof. reflexivity. Qed.

(** ** Ownership of a reading *)
Section OwnershipFacts.

Lemma Role_eqb_admin r : Role_eqb r RoleAdmin = true <-> r = RoleAdmin.
Proof. destruct r; simpl; split; congruence. Qed.

Lemma refused_true r user :
  mr_user r <> i_id user -> i_role user <> RoleAdmin -> refused r user = true.
Proof.
  intros Ho Ha. unfold refused.
  destruct (String.eqb_spec (mr_user r) (i_id user)); [contradiction|].
  destruct (i_role user); [reflexivity | contradiction].
Qed.

Lemma refused_false r user :
  mr_user r = i_id user \/ i_role user = RoleAdmin -> refused r user = false.
Proof.
  unfold refused. intros [->| ->].
  - now rewrite String.eqb_refl.
  - apply andb_false_r.
Qed.

(** A requester who is neither the owner nor an admin is turned away by
    the three handlers, and the state is the one they found. *)
Lemma stranger_refused db user now id body r :
  findById (readings db) id = Some r ->
  mr_user r <> i_id user ->
  i_role user <> RoleAdmin ->
  (getMeterReading db user id = (Next (not_authorized (i_id user) "access"), db)
   \/ getMeterReading db user id =
        (NextThrown (type_error "Cannot read properties of null (reading '_id')"), db))
  /\ updateMeterReading db user now id body
     = (Next (not_authorized (i_id user) "update"), db)
  /\ deleteMeterReading db user id
     = (Next (not_authorized (i_id user) "delete"), db).
Proof.
  intros Hf Ho Ha. split; [|split].
  - unfold getMeterReading. rewrite Hf. cbn [fmap option_fmap option_map populate pop_user].
    destruct (User_findById (users db) (mr_user r)) as [u|] eqn:Hu; [left | now right].
    cbn [fmap option_fmap option_map uv_id]. rewrite (User_findById_id _ _ _ Hu).
    destruct (String.eqb_spec (mr_user r) (i_id user)); [contradiction|].
    destruct (i_role user); [reflexivity | contradiction].
  - unfold updateMeterReading. now rewrite Hf, (refused_true _ _ Ho Ha).
  - unfold deleteMeterReading. now rewrite Hf, (refused_true _ _ Ho Ha).
Qed.

(** The owner and every admin pass the test of the update and delete
    handlers; they pass that of the get handler when the document of
    the reading's owner is stored. *)
Lemma owner_or_admin_passes db user id r :
  findById (readings db) id = Some r ->
  mr_user r = i_id user \/ i_role user = RoleAdmin ->
  refused r user = false
  /\ (mr_photo r = "" \/ file_name (mr_photo r) = true ->
      fst (deleteMeterReading db user id) = Json 200 DEmpty)
  /\ (is_Some (User_findById (users db) (mr_user r)) ->
      getMeterReading db user id = (Json 200 (DPopulated (populate (users db) r)), db)).
Proof.
  intros Hf H. pose proof (refused_false _ _ H) as Hr. split; [exact Hr|]. split.
  - unfold deleteMeterReading. rewrite Hf, Hr. intros [->| ->]; [reflexivity|].
    now destruct (String.eqb (mr_photo r) "").
  - intros [u Hu]. unfold getMeterReading. rewrite Hf.
    cbn [fmap option_fmap option_map populate pop_user]. rewrite Hu.
    cbn [fmap option_fmap option_map uv_id].
    rewrite (User_findById_id _ _ _ Hu).
    fold (refused r user). rewrite Hr.
    unfold populate. now rewrite Hu.
Qed.

End OwnershipFacts.

(** C1, the failing request: Ann hands her reading to a user id that no
    document carries, which the update handler accepts; from then on an
    admin's request to get the reading ends in a [TypeError], thrown by
    the ownership test itself on the empty populated owner, while the
    same admin passes the test of the update and delete handlers. *)
Theorem getMeterReading_admin_orphaned_reading :
  let db1 := snd (updateMeterReading db0 (identity_of ann) 30 "r1"
                    (reassign_body "u404")) in
  fst (updateMeterReading db0 (identity_of ann) 30 "r1" (reassign_body "u404"))
    = Json 200 (DReading (findById (readings db1) "r1"))
  /\ mr_user <$> findById (readings db1) "r1" = Some "u404"
  /\ getMeterReading db1 (identity_of root) "r1"
     = (NextThrown (type_error "Cannot read properties of null (reading '_id')"), db1)
  /\ fst (updateMeterReading db1 (identity_of root) 40 "r1" empty_body)
     = Json 200 (DReading (findById
                             (readings (snd (updateMeterReading db1 (identity_of root)
                                               40 "r1" empty_body))) "r1"))
  /\ fst (deleteMeterReading db1 (identity_of root) "r1") = Json 200 DEmpty.
Proof. vm_compute. repeat split; reflexivity. Qed.

(** ** Updating a reading *)
Section UpdateFacts.

Lemma findById_id rs id r : findById rs id = Some r -> mr_id r = id.
Proof.
  unfold findById. intros H. apply find_some in H as [_ H].
  now apply String.eqb_eq in H.
Qed.

Lemma findById_replace rs id r r' j :
  findById rs id = Some r ->
  mr_id r' = id ->
  findById (replace_by_id id r' rs) j
  = if String.eqb j id then Some r' else findById rs j.
Proof.
  intros Hf Hid. induction rs as [|x rs IH]; [discriminate|].
  cbn [findById List.find] in Hf. cbn [replace_by_id].
  destruct (String.eqb_spec (mr_id x) id) as [E|E].
  - cbn [findById List.find]. rewrite Hid.
    destruct (String.eqb_spec j id) as [->|Hj].
    + now rewrite String.eqb_refl.
    + destruct (String.eqb_spec id j); [congruence|].
      rewrite E. destruct (String.eqb_spec id j); [congruence | reflexivity].
  - cbn [findById List.find].
    destruct (String.eqb_spec (mr_id x) j) as [E'|E'].
    + destruct (String.eqb_spec j id); [congruence | reflexivity].
    + apply IH. exact Hf.
Qed.

Lemma apply_update_no_status now b r :
  b_status b = None -> mr_status (apply_update now b r) = mr_status r.
Proof. intros H. unfold apply_update. cbn [mr_status]. now rewrite H. Qed.

Lemma apply_update_no_approval now b r :
  b_approvedBy b = None -> b_approvedAt b = None ->
  mr_approvedBy (apply_update now b r) = mr_approvedBy r
  /\ mr_approvedAt (apply_update now b r) = mr_approvedAt r.
Proof.
  intros H1 H2. unfold apply_update. cbn [mr_approvedBy mr_approvedAt].
  now rewrite H1, H2.
Qed.

(** A field that an update leaves alone in the updated document is
    left alone in the whole collection. *)
Lemma findByIdAndUpdate_preserves {A} (f : MeterReading -> A) id now b rs :
  (forall r, f (apply_update now b r) = f r) ->
  forall res rs', findByIdAndUpdate id now b rs = inr (res, rs') ->
  forall j, f <$> findById rs' j = f <$> findById rs j.
Proof.
  intros Hkeep res rs'. unfold findByIdAndUpdate.
  destruct (update_errors b); [|discriminate].
  destruct (findById rs id) as [r|] eqn:Hf.
  - destruct (geo_indexable _); cbn [negb]; [|discriminate].
    intros H j. injection H as _ <-.
    rewrite (findById_replace rs id r (apply_update now b r) j Hf
               (findById_id _ _ _ Hf)).
    destruct (String.eqb_spec j id) as [->|]; [|reflexivity].
    rewrite Hf. cbn. now rewrite Hkeep.
  - intros H j. now injection H as _ <-.
Qed.

(** The same, through the handler. *)
Lemma updateMeterReading_preserves {A} (f : MeterReading -> A) db user now id body :
  (forall b, (b = body \/ b = with_approval body (i_id user) now
                          /\ Js.truthy_str (b_status body) = true
                          /\ i_role user = RoleAdmin) ->
             forall r, f (apply_update now b r) = f r) ->
  forall j, f <$> findById (readings (snd (updateMeterReading db user now id body))) j
            = f <$> findById (readings db) j.
Proof.
  intros Hkeep j. unfold updateMeterReading.
  destruct (findById (readings db) id) as [r|]; [|reflexivity].
  destruct (refused r user); [reflexivity|].
  destruct (Js.truthy_str (b_status body)) eqn:Ht;
    destruct (Role_eqb (i_role user) RoleAdmin) eqn:Hr; cbn [andb].
  1: { apply Role_eqb_admin in Hr.
       destruct (findByIdAndUpdate _ _ _ _) as [e|[res rs']] eqn:Hu; [reflexivity|].
       cbn [snd readings].
       apply (findByIdAndUpdate_preserves f _ _ _ _
                (Hkeep _ (or_intror (conj eq_refl (conj eq_refl Hr)))) _ _ Hu). }
  all: destruct (findByIdAndUpdate _ _ _ _) as [e|[res rs']] eqn:Hu; [reflexivity|];
       cbn [snd readings];
       apply (findByIdAndUpdate_preserves f _ _ _ _ (Hkeep _ (or_introl eq_refl)) _ _ Hu).
Qed.

End UpdateFacts.

Section UpdateClaims.

Lemma meterNumber_errors_nil m :
  meterNumber_errors (Some m) = [] ->
  Js.trim m <> "" /\ (String.length (Js.trim m) <= 50)%nat.
Proof.
  unfold meterNumber_errors. cbn [fmap option_fmap option_map].
  destruct (String.eqb_spec (Js.trim m) ""); [discriminate|].
  destruct (Nat.ltb_spec 50 (String.length (Js.trim m))); [discriminate|].
  intros _. split; [assumption | lia].
Qed.

Lemma update_errors_meterNumber b :
  update_errors b = [] -> meterNumber_errors (b_meterNumber b) = [].
Proof. unfold update_errors. intros H. now apply app_eq_nil in H as [H _]. Qed.

Lemma status_of_string_truthy s st :
  status_of_string s = Some st -> Js.truthy_str (Some s) = true.
Proof.
  unfold Js.truthy_str. destruct (String.eqb_spec s "") as [->|]; [discriminate|reflexivity].
Qed.

(** C2, as amended: when an admin's update of a stored reading carries
    a status of the enum, passes the update validators (which see the
    meter number trimmed) and leaves a location the indexes accept, the
    reading takes that status and is stamped with the admin's id as
    [approvedBy] and the current time as [approvedAt], and a meter number
    of the body is stored trimmed; an update whose body carries no
    status changes the status of no reading, whoever sends it; and the
    update of a non-admin whose body carries neither [approvedBy] nor
    [approvedAt] changes the approver and approval time of no reading. *)
Theorem updateMeterReading_status db user now id body :
  (forall r s st,
     findById (readings db) id = Some r ->
     i_role user = RoleAdmin ->
     b_status body = Some s ->
     status_of_string s = Some st ->
     update_errors body = [] ->
     geo_indexable (default (mr_location r) (location_of_update <$> b_location body))
     = true ->
     let r' := apply_update now (with_approval body (i_id user) now) r in
     updateMeterReading db user now id body
     = (Json 200 (DReading (Some r')),
        {| users := users db; readings := replace_by_id id r' (readings db);
           files := files db |})
     /\ findById (replace_by_id id r' (readings db)) id = Some r'
     /\ mr_status r' = st
     /\ mr_approvedBy r' = Some (i_id user)
     /\ mr_approvedAt r' = Some now
     /\ forall m, b_meterNumber body = Some m ->
                  mr_meterNumber r' = Js.trim m /\ Js.trim m <> "")
  /\ (b_status body = None ->
      forall j,
        mr_status <$> findById (readings (snd (updateMeterReading db user now id body))) j
        = mr_status <$> findById (readings db) j)
  /\ (i_role user = RoleUser ->
      b_approvedBy body = None ->
      b_approvedAt body = None ->
      forall j,
        (fun r => (mr_approvedBy r, mr_approvedAt r))
          <$> findById (readings (snd (updateMeterReading db user now id body))) j
        = (fun r => (mr_approvedBy r, mr_approvedAt r)) <$> findById (readings db) j).
Proof.
  split; [|split].
  - intros r s st Hf Hrole Hs Hst Hval Hgeo. cbv zeta.
    assert (Hupd : updateMeterReading db user now id body
              = (Json 200 (DReading (Some (apply_update now
                                             (with_approval body (i_id user) now) r))),
                 {| users := users db;
                    readings := replace_by_id id
                                  (apply_update now (with_approval body (i_id user) now) r)
                                  (readings db);
                    files := files db |})).
    { unfold updateMeterReading. rewrite Hf.
      rewrite (refused_false r user (or_intror Hrole)).
      rewrite Hs, (status_of_string_truthy _ _ Hst), Hrole. cbn [Role_eqb andb].
      unfold findByIdAndUpdate.
      change (update_errors (with_approval body (i_id user) now))
        with (update_errors body).
      rewrite Hval, Hf.
      change (mr_location (apply_update now (with_approval body (i_id user) now) r))
        with (default (mr_location r) (location_of_update <$> b_location body)).
      now rewrite Hgeo. }
    split; [exact Hupd|]. split.
    + rewrite (findById_replace _ id r
                 (apply_update now (with_approval body (i_id user) now) r) id Hf
                 (findById_id _ _ _ Hf)).
      now rewrite String.eqb_refl.
    + unfold apply_update, with_approval.
      cbn [mr_status mr_approvedBy mr_approvedAt mr_meterNumber b_status
           b_approvedBy b_approvedAt b_meterNumber].
      rewrite Hs. cbn [mbind option_bind]. rewrite Hst.
      repeat split; try reflexivity.
      * now rewrite H.
      * apply update_errors_meterNumber in Hval. rewrite H in Hval.
        now apply meterNumber_errors_nil in Hval.
  - intros Hs. apply updateMeterReading_preserves.
    intros b [->|[_ [Ht _]]] r.
    + now apply apply_update_no_status.
    + rewrite Hs in Ht. discriminate Ht.
  - intros Hrole H1 H2. apply updateMeterReading_preserves.
    intros b [->|[_ [_ Ha]]] r.
    + destruct (apply_update_no_approval now body r H1 H2) as [-> ->]. reflexivity.
    + rewrite Hrole in Ha. discriminate Ha.
Qed.

End UpdateClaims.

Lemma updateMeterReading_status_witness :
  (fun r => (mr_status r, mr_approvedBy r, mr_approvedAt r, mr_meterNumber r))
    <$> findById (readings (snd (updateMeterReading db0 (identity_of root) 30
                                   "r1" (relabel_body "approved" "  M-101 ")))) "r1"
  = Some (Approved, Some "a1", Some 30, "M-101")
  /\ mr_status <$> findById (readings (snd (updateMeterReading db0 (identity_of ann) 30
                                              "r1" empty_body))) "r1"
     = Some Pending
  /\ (fun r => (mr_approvedBy r, mr_approvedAt r))
       <$> findById (readings (snd (updateMeterReading db0 (identity_of ann) 30
                                      "r1" empty_body))) "r1"
     = Some (None, None).
Proof.
  pose proof (updateMeterReading_status db0 (identity_of root) 30 "r1"
                (relabel_body "approved" "  M-101 ")) as [Hadmin _].
  destruct (Hadmin r1 "approved" Approved eq_refl eq_refl eq_refl eq_refl eq_refl
              ltac:(vm_compute; reflexivity))
    as (Hupd & Hfind & Hst & Hby & Hat & Hm).
  destruct (Hm "  M-101 " eq_refl) as [Hm1 _].
  split; [|split].
  - rewrite Hupd. cbn [snd readings]. rewrite Hfind.
    cbn [fmap option_fmap option_map]. rewrite Hst, Hby, Hat, Hm1. reflexivity.
  - exact (proj1 (proj2 (updateMeterReading_status db0 (identity_of ann) 30 "r1"
                           empty_body)) eq_refl "r1").
  - exact (proj2 (proj2 (updateMeterReading_status db0 (identity_of ann) 30 "r1"
                           empty_body)) eq_refl eq_refl eq_refl "r1").
Defined.

(** C2, counterexample: Ann, who is not an admin, sends the status
    [approved] for her own pending reading; the reading is stored as
    approved, with neither approver nor approval time. *)
Lemma updateMeterReading_owner_sets_status :
  ~ (forall db user now id body,
       i_role user = RoleUser ->
       forall j,
         mr_status <$> findById (readings (snd (updateMeterReading db user now id body))) j
         = mr_status <$> findById (readings db) j).
Proof.
  intros H.
  specialize (H db0 (identity_of ann) 30 "r1" (status_body "approved") eq_refl "r1").
  vm_compute in H. discriminate H.
Qed.

(** An admin's update whose meter number is blank once trimmed fails
    the [required] validator and stamps nothing. *)
Example updateMeterReading_blank_meter :
  snd (updateMeterReading db0 (identity_of root) 30 "r1" (relabel_body "approved" "   "))
  = db0.
Proof. vm_compute. reflexivity. Qed.

Example updateMeterReading_owner_approves :
  (fun r => (mr_status r, mr_approvedBy r, mr_approvedAt r))
    <$> findById (readings (snd (updateMeterReading db0 (identity_of ann) 30 "r1"
                                   (status_body "approved")))) "r1"
  = Some (Approved, None, None).
Proof. vm_compute. reflexivity. Qed.

(** ** Creating a reading *)
Section CreateClaims.

Lemma create_errors_nil b :
  create_errors b = [] ->
  is_Some (b_user b)
  /\ (exists m, b_meterNumber b = Some m /\ Js.trim m <> ""
                /\ (String.length (Js.trim m) <= 50)%nat)
  /\ is_Some (b_reading b)
  /\ is_Some (b_photo b)
  /\ update_errors b = [].
Proof.
  unfold create_errors, missing. intros H.
  apply app_eq_nil in H as [H1 H]. apply app_eq_nil in H as [H2 H].
  apply app_eq_nil in H as [H3 H]. apply app_eq_nil in H as [H4 H].
  apply app_eq_nil in H as [_ H]. apply app_eq_nil in H as [H6 _].
  destruct (b_user b); [|discriminate].
  destruct (b_meterNumber b) as [m|] eqn:Hm; [|discriminate].
  destruct (b_reading b); [|discriminate].
  destruct (b_photo b); [|discriminate].
  repeat split; eauto.
  exists m. split; [reflexivity|].
  apply update_errors_meterNumber in H6. rewrite Hm in H6.
  now apply meterNumber_errors_nil.
Qed.


End CreateClaims.


Example createMeterReading_trims :
  mr_meterNumber <$> findById (readings (snd (createMeterReading db0 (identity_of bob) true
                                                "r3" 50 (submission " M-200 " None))))
                       "r3"
  = Some "M-200".
Proof. vm_compute. reflexivity. Qed.


Example createMeterReading_explicit_status :
  mr_status <$> findById (readings (snd (createMeterReading db0 (identity_of ann) true
                                           "r3" 50
                                           (submission "M-300" (Some "approved")))))
                  "r3"
  = Some Approved.
Proof. vm_compute. reflexivity. Qed.

(** ** Radius search *)
Section ParseIntFacts.

Lemma digit_cases c :
  is_Some (Js.digit_val 10 c) ->
  Js.is_space c = false
  /\ c <> "-"%char /\ c <> "+"%char /\ c <> "x"%char /\ c <> "X"%char.
Proof.
  destruct c as [[] [] [] [] [] [] [] []]; vm_compute; intros [d H];
    try discriminate H; repeat split; try reflexivity; discriminate.
Qed.

Lemma append_nil_l s : "" +:+ s = s.
Proof. reflexivity. Qed.

Lemma append_cons c s t : String c s +:+ t = String c (s +:+ t).
Proof. reflexivity. Qed.

Lemma append_nil_r s : s +:+ "" = s.
Proof. induction s as [|c s IH]; [reflexivity|]. now rewrite append_cons, IH. Qed.

(** The digits stop at the first character that is none. *)
Lemma digits_stop i c rest acc :
  all_digits i = true ->
  Js.digit_val 10 c = None ->
  Js.digits 10 (i +:+ String c rest) acc = Js.digits 10 i acc.
Proof.
  revert acc. induction i as [|d i IH]; intros acc Ha Hc.
  - rewrite append_nil_l. cbn [Js.digits]. now rewrite Hc.
  - cbn [all_digits] in Ha. apply andb_true_iff in Ha as [Hd Hi].
    apply bool_decide_eq_true in Hd as [v Hv].
    rewrite append_cons. cbn [Js.digits]. rewrite Hv. now apply IH.
Qed.

Lemma digits_nonneg s acc n :
  0 <= default 0 acc -> Js.digits 10 s acc = Some n -> 0 <= n.
Proof.
  revert acc. induction s as [|c s IH]; intros acc Hacc; cbn [Js.digits].
  - intros ->. exact Hacc.
  - destruct (Js.digit_val 10 c) as [d|] eqn:Hd; [|intros ->; exact Hacc].
    apply IH. cbn [default from_option id].
    assert (0 <= d).
    { unfold Js.digit_val in Hd.
      repeat match type of Hd with
             | context [if ?b then _ else _] => destruct b eqn:?
             end; try discriminate Hd; injection Hd as <-; lia. }
    lia.
Qed.

Lemma numeral_nonneg s n : numeral s = Some n -> 0 <= n.
Proof.
  unfold numeral. destruct (all_digits s); [|discriminate].
  apply digits_nonneg. reflexivity.
Qed.

(** On digits followed by nothing, or by a character that is neither a
    digit nor the mark of a hexadecimal literal, [parseInt] reads the
    digits and stops. *)
Lemma parseInt_digits i rest :
  all_digits i = true ->
  i <> "" ->
  rest = ""
  \/ (exists c r, rest = String c r /\ Js.digit_val 10 c = None
                  /\ c <> "x"%char /\ c <> "X"%char) ->
  Js.parseInt (i +:+ rest) = Js.to_double <$> Js.digits 10 i None
  /\ Js.skip_spaces (i +:+ rest) = i +:+ rest
  /\ exists c r, i +:+ rest = String c r /\ c <> "-"%char.
Proof.
  intros Ha Hne Hrest. destruct i as [|c s]; [contradiction|].
  cbn [all_digits] in Ha. apply andb_true_iff in Ha as [Hc Hs].
  apply bool_decide_eq_true in Hc.
  destruct (digit_cases c Hc) as (Hsp & Hm & Hp & _).
  assert (Hd : Js.digits 10 (String c s +:+ rest) None = Js.digits 10 (String c s) None).
  { destruct Hrest as [->|(c' & r & -> & Hc' & _)].
    - now rewrite append_nil_r.
    - apply digits_stop; [|exact Hc'].
      cbn [all_digits]. rewrite Hs. now rewrite (bool_decide_eq_true_2 _ Hc). }
  assert (Hx : Js.strip_hex (String c s +:+ rest) = None).
  { rewrite append_cons. destruct s as [|c' s].
    - rewrite append_nil_l. destruct Hrest as [->|(c' & r & -> & _ & Hx1 & Hx2)].
      + now destruct c as [[] [] [] [] [] [] [] []].
      + unfold Js.strip_hex.
        destruct c as [[] [] [] [] [] [] [] []]; try reflexivity.
        destruct c' as [[] [] [] [] [] [] [] []]; try reflexivity; congruence.
    - cbn [all_digits] in Hs. apply andb_true_iff in Hs as [Hc' _].
      apply bool_decide_eq_true in Hc'.
      destruct (digit_cases c' Hc') as (_ & _ & _ & Hx1 & Hx2).
      rewrite append_cons. unfold Js.strip_hex.
      destruct c as [[] [] [] [] [] [] [] []]; try reflexivity.
      destruct c' as [[] [] [] [] [] [] [] []]; try reflexivity; congruence. }
  assert (Hu : Js.parse_unsigned (String c s +:+ rest) = Js.digits 10 (String c s) None).
  { unfold Js.parse_unsigned. now rewrite Hx. }
  assert (Hk : Js.skip_spaces (String c s +:+ rest) = String c s +:+ rest).
  { rewrite append_cons. cbn [Js.skip_spaces]. now rewrite Hsp. }
  split; [|split; [exact Hk | rewrite append_cons; eauto]].
  unfold Js.parseInt. rewrite Hk, <- Hu. rewrite append_cons.
  destruct c as [[] [] [] [] [] [] [] []]; try reflexivity; congruence.
Qed.

(** On a plain numeral [parseInt] reads the whole number, as a double. *)
Lemma parseInt_numeral s n :
  numeral s = Some n -> Js.parseInt s = Some (Js.to_double n).
Proof.
  unfold numeral. destruct (all_digits s) eqn:Ha; [|discriminate].
  intros Hd. assert (Hne : s <> "") by (intros ->; discriminate Hd).
  destruct (parseInt_digits s "" Ha Hne (or_introl eq_refl)) as [Hp _].
  rewrite append_nil_r in Hp. now rewrite Hp, Hd.
Qed.

Lemma to_double_small z : Z.abs z < 2 ^ 53 -> Js.to_double z = z.
Proof.
  intros H. unfold Js.to_double.
  destruct (Z.ltb_spec (Z.abs z) (2 ^ 53)); [reflexivity | lia].
Qed.

(** Rounding to a double never goes below a number of at most [2 ^ 53]
    that the integer reaches. *)
Lemma to_double_lower t z : 0 <= t <= 2 ^ 53 -> t <= z -> t <= Js.to_double z.
Proof.
  intros Ht Hz. unfold Js.to_double.
  destruct (Z.ltb_spec (Z.abs z) (2 ^ 53)) as [H|H]; [exact Hz|].
  assert (Hz53 : 2 ^ 53 <= z) by lia.
  rewrite (Z.abs_eq z) by lia. rewrite (Z.sgn_pos z) by lia. rewrite Z.mul_1_l.
  set (e := Z.log2 z - 52).
  assert (He : 1 <= e).
  { unfold e. pose proof (Z.log2_le_mono _ _ Hz53) as Hl.
    rewrite Z.log2_pow2 in Hl by lia. lia. }
  assert (Hq : 2 ^ 52 <= z / 2 ^ e).
  { apply Z.div_le_lower_bound; [apply Z.pow_pos_nonneg; lia|].
    rewrite <- Z.pow_add_r by lia.
    replace (e + 52) with (Z.log2 z) by (unfold e; lia).
    apply Z.log2_spec. lia. }
  assert (Hp : 2 <= 2 ^ e).
  { change 2 with (2 ^ 1) at 1. apply Z.pow_le_mono_r; lia. }
  assert (Hv : 2 ^ 53 <= z / 2 ^ e * 2 ^ e).
  { change (2 ^ 53) with (2 ^ 52 * 2). apply Z.mul_le_mono_nonneg; lia. }
  apply Z.min_glb.
  - destruct (_ || _); [|lia].
    rewrite Z.mul_add_distr_r. lia.
  - unfold Js.infinity. transitivity (2 ^ 53); [lia|].
    apply Z.pow_le_mono_r; lia.
Qed.

(** The double that [parseInt] gives for a positive numeral below
    [2 ^ 53] is the number written. *)
Lemma parseInt_double_numeral s d :
  numeral s = Some d -> 0 < d < 2 ^ 53 -> Js.parseInt_double s = Js.double d.
Proof.
  intros Hn Hd. unfold Js.parseInt_double.
  rewrite (parseInt_numeral _ _ Hn), to_double_small by lia.
  destruct d; [lia | reflexivity | lia].
Qed.

(** What follows a point is not read. *)
Lemma parseInt_double_fraction i f :
  all_digits i = true -> i <> "" ->
  Js.parseInt_double (i +:+ "." +:+ f) = Js.parseInt_double i.
Proof.
  intros Ha Hne.
  destruct (parseInt_digits i ("." +:+ f) Ha Hne) as (Hp & Hk & (c & r & Hc & Hm)).
  { right. exists "."%char, f. repeat split; try reflexivity; discriminate. }
  destruct (parseInt_digits i "" Ha Hne (or_introl eq_refl)) as (Hp' & Hk' & (c' & r' & Hc' & Hm')).
  rewrite append_nil_r in Hp', Hk', Hc'.
  assert (Hs : forall s c r, Js.skip_spaces s = s -> s = String c r -> c <> "-"%char ->
                 Js.minus_sign s = false).
  { intros s c0 r0 E -> Hc0. unfold Js.minus_sign. rewrite E.
    destruct c0 as [[] [] [] [] [] [] [] []]; try reflexivity; congruence. }
  unfold Js.parseInt_double.
  rewrite Hp, Hp', (Hs _ _ _ Hk Hc Hm), (Hs _ _ _ Hk' Hc' Hm'). reflexivity.
Qed.

End ParseIntFacts.

Section RadiusClaims.
Variable centerSphere : Q * Q -> SpecFloat.spec_float -> Location -> bool.

(** C9, as amended: the radius handed to the query is the double
    [parseInt(distance) / 3963], the integer that [parseInt] reads from
    the distance parameter divided by the radius of the Earth in miles:
    d / 3963, as doubles divide, when the parameter is the plain numeral
    of a positive d below 2 ^ 53, and the same for a numeral and for
    that numeral followed by a point and anything else; when the radius
    is a positive finite double the response lists exactly the stored
    readings whose location the database places within the sphere cap of
    that radius around the geocoded coordinates; and when [parseInt]
    reads no number the handler forwards the cast error of the filter
    and answers with no list. *)
Theorem getReadingsInRadius_spec db zipcode distance :
  let radius := search_radius distance in
  let items :=
    List.filter (fun r => centerSphere (0%Q, 0%Q) radius (mr_location r))
                (readings db) in
  radius = Js.div (Js.parseInt_double distance) (Js.double 3963)
  /\ (forall d, numeral distance = Some d -> 0 < d < 2 ^ 53 ->
        radius = Js.div (Js.double d) (Js.double 3963))
  /\ (forall i f, distance = i +:+ "." +:+ f -> all_digits i = true -> i <> "" ->
        radius = search_radius i)
  /\ (forall m e, radius = SpecFloat.S754_finite false m e ->
        getReadingsInRadius centerSphere db zipcode distance
        = Json 200 (DList (Z.of_nat (length items)) items)
        /\ forall r, In r items <->
                     In r (readings db)
                     /\ centerSphere (0%Q, 0%Q) radius (mr_location r) = true)
  /\ (Js.parseInt distance = None ->
      radius = SpecFloat.S754_nan
      /\ getReadingsInRadius centerSphere db zipcode distance
         = NextThrown (query_cast_error "NaN")
      /\ ErrorMiddleware.e_class (query_cast_error "NaN") = ErrorMiddleware.CastError).
Proof.
  cbv zeta. split; [reflexivity|]. split; [|split; [|split]].
  - intros d Hd Hr. unfold search_radius.
    now rewrite (parseInt_double_numeral _ _ Hd Hr).
  - intros i f -> Ha Hne. unfold search_radius.
    now rewrite (parseInt_double_fraction i f Ha Hne).
  - intros m e Hr. split.
    + unfold getReadingsInRadius. cbn [geocode]. cbv zeta. now rewrite Hr.
    + intros r. apply filter_In.
  - intros Hp.
    assert (Hr : search_radius distance = SpecFloat.S754_nan).
    { unfold search_radius, Js.parseInt_double. now rewrite Hp. }
    split; [exact Hr|]. split; [|reflexivity].
    unfold getReadingsInRadius. cbn [geocode]. cbv zeta. now rewrite Hr.
Qed.

End RadiusClaims.

Lemma getReadingsInRadius_spec_witness :
  search_radius "25" = Js.div (Js.double 25) (Js.double 3963)
  /\ search_radius "25.9 miles" = search_radius "25"
  /\ getReadingsInRadius flat_cap db_near "380001" "25" = Json 200 (DList 1 [r_near])
  /\ getReadingsInRadius flat_cap db_near "380001" "ten"
     = NextThrown (query_cast_error "NaN").
Proof.
  split; [|split; [|split]].
  - exact (proj1 (proj2 (getReadingsInRadius_spec flat_cap db_near "380001" "25"))
             25 eq_refl ltac:(lia)).
  - exact (proj1 (proj2 (proj2 (getReadingsInRadius_spec flat_cap db_near "380001"
                                  "25.9 miles")))
             "25" "9 miles" eq_refl eq_refl ltac:(discriminate)).
  - exact (proj1 (proj1 (proj2 (proj2 (proj2
             (getReadingsInRadius_spec flat_cap db_near "380001" "25"))))
             7273034977333125%positive (-60) ltac:(vm_compute; reflexivity))).
  - exact (proj1 (proj2 (proj2 (proj2 (proj2 (proj2
             (getReadingsInRadius_spec flat_cap db_near "380001" "ten")))) eq_refl))).
Defined.

(** C9, counterexample: for the distance [10.5], which is a double, the
    radius handed to the query is the double 10 / 3963, not the double
    10.5 / 3963. *)
Lemma search_radius_truncates : ~ (forall distance, radius_as_specified distance).
Proof.
  intros H.
  specialize (H "10.5" (inject_Z 10 + inject_Z 5 / inject_Z (10 ^ 1))%Q
                (SpecFloat.S754_finite false 21 (-1)) _ eq_refl eq_refl
                ltac:(vm_compute; reflexivity)).
  vm_compute in H. discriminate H.
Qed.

Example search_radius_fraction :
  search_radius "10.5" = Js.div (Js.double 10) (Js.double 3963)
  /\ decimal_value "10.5" = Some (inject_Z 10 + inject_Z 5 / inject_Z (10 ^ 1))%Q
  /\ Js.div (Js.double 10) (Js.double 3963)
     <> Js.div (SpecFloat.S754_finite false 21 (-1)) (Js.double 3963).
Proof. split; [|split]; [vm_compute; reflexivity | reflexivity | vm_compute; discriminate]. Qed.

Example search_radius_negative :
  getReadingsInRadius flat_cap db_near "380001" "-3"
  = NextThrown (server_error 2 "radius must be a non-negative number").
Proof. vm_compute. reflexivity. Qed.

(** On each of the samples, the double of the rounded integer is the
    double to which the Standard Library rounds the integer. *)
Example to_double_as_binary_normalize :
  forallb (fun z => same_double (Js.double (Js.to_double z))
                                (SpecFloat.binary_normalize 53 1024 z 0 false))
          rounding_samples
  = true.
Proof. vm_compute. reflexivity. Qed.

(** A page number beyond [2 ^ 53] is the double next to it. *)
Example getMeterReadings_page_rounds :
  page_summary
    (getMeterReadings db0 (identity_of root)
       {| q_page := Some "9007199254740993"; q_limit := None; q_status := None |})
  = Some (0, {| currentPage := 9007199254740992; totalPages := 1; totalItems := 2 |}).
Proof. vm_compute. reflexivity. Qed.

(** The rounding of [to_double] on the integers next to [2 ^ 53], and
    its agreement there with the rounding of the Standard Library. *)
Example to_double_ties :
  Js.to_double 9007199254740993 = 9007199254740992
  /\ Js.to_double 9007199254740995 = 9007199254740996
  /\ Js.to_double (- 9007199254740993) = - 9007199254740992
  /\ Js.double (Js.to_double 9007199254740993)
     = SpecFloat.binary_normalize 53 1024 9007199254740993 0 false
  /\ Js.double (Js.to_double 9007199254740995)
     = SpecFloat.binary_normalize 53 1024 9007199254740995 0 false
  /\ Js.double (Js.to_double (10 ^ 400))
     = SpecFloat.binary_normalize 53 1024 (10 ^ 400) 0 false
  /\ Js.double (Js.to_double (10 ^ 300 + 7))
     = SpecFloat.binary_normalize 53 1024 (10 ^ 300 + 7) 0 false.
Proof. vm_compute. repeat split; reflexivity. Qed.

(** * Further properties of the middleware *)

(** ** [protect] and [authorize] *)
Section ProtectShape.
Variable jwt_verify : string -> string -> Z -> option JwtPayload.

(** The two shapes of a result of [protect]. *)
Lemma protect_classify env now us authorization :
  (fst (protect jwt_verify env now us authorization) = [NextOk]
   /\ is_Some (snd (protect jwt_verify env now us authorization)))
  \/ (exists e,
        protect jwt_verify env now us authorization = ([NextErr e], None)
        /\ (e = no_token \/ e = token_failed \/ e = user_not_found)).
Proof.
  unfold protect.
  destruct authorization as [h|]; [|right; eauto].
  destruct (Js.startsWith h "Bearer"); [|right; eauto].
  unfold protect_try, verify.
  destruct (Js.truthy_str (JWT_SECRET env)); cbn [negb]; [|right; eauto].
  destruct (Js.truthy_str (Js.split " " h !! 1%nat)) eqn:Ht; [|right; eauto].
  destruct (jwt_verify _ _ _) as [decoded|]; [|right; eauto].
  destruct (User_findById us (p_id decoded)) as [u|]; cbn; [|right; eauto].
  left. split; [reflexivity | eauto].
Qed.

(** X1: [protect] calls [next] exactly once; the identity is attached to
    the request exactly when that call carries no error, and an error it
    carries has status 401 or 404. *)
Theorem protect_one_call env now us authorization :
  let r := protect jwt_verify env now us authorization in
  length (fst r) = 1%nat
  /\ (fst r = [NextOk] <-> is_Some (snd r))
  /\ forall e, In (NextErr e) (fst r) ->
               snd r = None /\ (er_statusCode e = 401 \/ er_statusCode e = 404).
Proof.
  cbv zeta.
  destruct (protect_classify env now us authorization)
    as [[Hc Hu] | (e & Hr & He)].
  - rewrite Hc. split; [reflexivity|]. split; [tauto|].
    intros e [H|[]]. discriminate H.
  - rewrite Hr. cbn [fst snd]. split; [reflexivity|]. split.
    + split; [discriminate | intros [x Hx]; discriminate Hx].
    + intros e' [H|[]]. injection H as <-. split; [reflexivity|].
      destruct He as [->|[->| ->]]; cbn; auto.
Qed.

(** X4: whatever [protect] refuses reaches the client, in every
    environment, with the status of the refusal, 401 or 404, and its
    message. *)
Theorem protect_refusal_answered env now us authorization e u :
  protect jwt_verify env now us authorization = ([NextErr e], u) ->
  (er_statusCode e = 401 \/ er_statusCode e = 404)
  /\ forall env',
       fst (ErrorMiddleware.errorHandler env' (ErrorMiddleware.of_ErrorResponse e))
       = {| ErrorMiddleware.res_status := er_statusCode e;
            ErrorMiddleware.res_body :=
              [("success", ErrorMiddleware.JBool false);
               ("error", ErrorMiddleware.JStr (er_message e))] |}.
Proof.
  intros H.
  destruct (protect_classify env now us authorization)
    as [[Hc _] | (e' & Hr & He)].
  - rewrite H in Hc. discriminate Hc.
  - rewrite H in Hr. injection Hr as -> _.
    destruct He as [->|[->| ->]]; (split; [cbn; auto|]); intros env';
      apply errorHandler_ErrorResponse; discriminate.
Qed.

End ProtectShape.

Lemma protect_refusal_answered_witness :
  fst (ErrorMiddleware.errorHandler production
         (ErrorMiddleware.of_ErrorResponse user_not_found))
  = {| ErrorMiddleware.res_status := 404;
       ErrorMiddleware.res_body :=
         [("success", ErrorMiddleware.JBool false);
          ("error", ErrorMiddleware.JStr "User not found")] |}.
Proof.
  exact (proj2 (protect_refusal_answered JwtStandIn.verify production 100 [root]
                  (Some "Bearer u1.0.2592000.s3cr3t") user_not_found None eq_refl)
               production).
Defined.

(** X2: [authorize] lets a request through exactly when an identity is
    attached and its role is in the list; every other request is refused
    with status 403. *)
Theorem authorize_allows roles user :
  (authorize roles user = NextOk <->
   exists u, user = Some u /\ In (role_string (i_role u)) roles)
  /\ (authorize roles user = NextOk
      \/ exists e, authorize roles user = NextErr e /\ er_statusCode e = 403).
Proof.
  unfold authorize. destruct user as [u|].
  - destruct (existsb (String.eqb (role_string (i_role u))) roles) eqn:E.
    + split; [|now left]. split; [|reflexivity]. intros _. exists u. split; [reflexivity|].
      apply existsb_exists in E as (x & Hx & Heq). apply String.eqb_eq in Heq. now subst.
    + split; [|right; eauto]. split; [discriminate|].
      intros (u' & Hu & Hin). injection Hu as <-.
      assert (existsb (String.eqb (role_string (i_role u))) roles = true).
      { apply existsb_exists. exists (role_string (i_role u)).
        split; [exact Hin | apply String.eqb_refl]. }
      congruence.
  - split; [|right; eauto]. split; [discriminate|]. intros (u & Hu & _). discriminate Hu.
Qed.

Section WithoutSecret.
Variable jwt_sign : string -> string -> Z -> Z -> string.
Variable jwt_verify : string -> string -> Z -> option JwtPayload.

(** X3: when [JWT_SECRET] is unset or empty, tokens are still issued,
    signed with the fallback ["your_jwt_secret"], but [protect] refuses
    every request with 401, whatever token it carries. *)
Theorem protect_without_secret env issued now us this authorization :
  Js.truthy_str (JWT_SECRET env) = false ->
  getSignedJwtToken jwt_sign env issued this
  = jwt_sign (u_id this) "your_jwt_secret" (default thirty_days (JWT_EXPIRE env)) issued
  /\ exists e,
       protect jwt_verify env now us authorization = ([NextErr e], None)
       /\ er_statusCode e = 401.
Proof.
  intros Hs. split.
  - unfold getSignedJwtToken, Js.or_str. now rewrite Hs.
  - unfold protect. destruct authorization as [h|]; [|eexists; split; reflexivity].
    destruct (Js.startsWith h "Bearer"); [|eexists; split; reflexivity].
    unfold protect_try. rewrite Hs. eexists; split; reflexivity.
Qed.

End WithoutSecret.

Lemma protect_without_secret_witness :
  let env := {| NODE_ENV := Some "production"; JWT_SECRET := None; JWT_EXPIRE := None |} in
  getSignedJwtToken JwtStandIn.sign env 0 ann = "u1.0.2592000.your_jwt_secret"
  /\ exists e,
       protect JwtStandIn.verify env 100 [ann]
         (Some "Bearer u1.0.2592000.your_jwt_secret") = ([NextErr e], None)
       /\ er_statusCode e = 401.
Proof.
  exact (protect_without_secret JwtStandIn.sign JwtStandIn.verify
           {| NODE_ENV := Some "production"; JWT_SECRET := None; JWT_EXPIRE := None |}
           0 100 [ann] ann (Some "Bearer u1.0.2592000.your_jwt_secret") eq_refl).
Defined.

(** ** The error handler, category by category *)
Section ErrorHandlerTable.
Import ErrorMiddleware.

Lemma or_str_some s d : s <> "" -> Js.or_str (Some s) d = s.
Proof.
  intros H. unfold Js.or_str, Js.truthy_str.
  destruct (String.eqb_spec s ""); [contradiction | reflexivity].
Qed.

Lemma or_str_nonempty o d d' : d <> "" -> d' <> "" -> Js.or_str (Some (Js.or_str o d)) d' <> "".
Proof. intros Hd _. rewrite or_str_idem by exact Hd.
  unfold Js.or_str, Js.truthy_str. destruct o as [s|]; [|exact Hd].
  destruct (String.eqb_spec s ""); cbn; assumption.
Qed.

Lemma or_num_nonzero x : Js.or_num (Some x) 500 <> 0.
Proof. unfold Js.or_num. destruct (Z.eqb_spec x 0); [discriminate | assumption]. Qed.

Lemma new_AppError_message m c : ae_message (new_AppError m c) = m.
Proof. reflexivity. Qed.

(** The message of a production error is never empty when that of the
    normalized error is not. *)
Lemma productionError_message_nonempty err :
  ae_message (productionError err (normalize err)) <> "".
Proof.
  unfold productionError.
  destruct (e_class err); try discriminate;
    destruct (code_is_11000 err); try discriminate;
    destruct (name_is err "JsonWebTokenError"); try discriminate;
    destruct (name_is err "TokenExpiredError"); try discriminate;
    cbn [ae_message new_AppError message normalize];
    unfold Js.or_str, Js.truthy_str; destruct (e_message err) as [s|]; try discriminate;
    destruct (String.eqb_spec s ""); cbn; try discriminate; assumption.
Qed.

(** X5: in every environment and for every thrown value, the response
    has a status other than 0 and a non-empty [error] text. *)
Theorem errorHandler_never_blank env err :
  res_status (fst (errorHandler env err)) <> 0
  /\ exists m, response_error (fst (errorHandler env err)) = Some m /\ m <> "".
Proof.
  unfold errorHandler.
  destruct (env_is env "development"); [|destruct (env_is env "production")];
    cbn [fst res_status response_error res_body List.find String.eqb Ascii.eqb
         Bool.eqb fst snd statusCode message];
    (split; [apply or_num_nonzero|]); eexists; (split; [reflexivity|]).
  - apply or_str_nonempty; discriminate.
  - rewrite or_str_some; apply productionError_message_nonempty.
  - apply or_str_nonempty; discriminate.
Qed.

(** X6: the handler logs in development only: there it logs one entry,
    with the message, the name and the stack of the thrown value, and in
    every other environment it logs nothing. *)
Theorem errorHandler_logs_in_development env err :
  (NODE_ENV env = Some "development" ->
   snd (errorHandler env err)
   = [ {| log_message := Js.or_str (e_message err) "An unknown error occurred";
          log_stack := if Js.truthy_str (e_stack err) then e_stack err else None;
          log_name := Js.or_str (e_name err) "Error";
          log_statusCode := statusCode (normalize err);
          log_isOperational := isOperational (normalize err) |} ])
  /\ (NODE_ENV env <> Some "development" -> snd (errorHandler env err) = []).
Proof.
  unfold errorHandler, env_is. split.
  - intros ->. reflexivity.
  - intros H. destruct (NODE_ENV env) as [s|]; [|reflexivity].
    destruct (String.eqb_spec s "development") as [->|]; [contradiction | reflexivity].
Qed.

(** X7: in production a cast error is answered with status 400 and the
    message "Invalid <path>: <value>.", whatever its code, name, status
    code or own message. *)
Theorem errorHandler_production_cast env err :
  NODE_ENV env = Some "production" ->
  e_class err = CastError ->
  fst (errorHandler env err)
  = {| res_status := 400;
       res_body := [("success", JBool false);
                    ("error", JStr ("Invalid " +:+ Js.render (e_path err) +:+ ": "
                                    +:+ Js.render (e_value err) +:+ "."))] |}.
Proof.
  intros Henv Hc. rewrite (errorHandler_production env err Henv). cbn [fst].
  unfold productionError. rewrite Hc. cbn [handleCastErrorDB new_AppError ae_statusCode ae_message].
  rewrite or_str_some by discriminate. reflexivity.
Qed.

(** X8: in production a Mongoose validation error that is no
    duplicate-key error is answered with status 400 and the message
    "Invalid input data. " followed by the messages of its fields, joined
    by ". ". *)
Theorem errorHandler_production_validation env err :
  NODE_ENV env = Some "production" ->
  e_class err = MongooseValidationError ->
  code_is_11000 err = false ->
  fst (errorHandler env err)
  = {| res_status := 400;
       res_body := [("success", JBool false);
                    ("error", JStr ("Invalid input data. "
                                    +:+ Js.join ". " (snd <$> e_errors err)))] |}.
Proof.
  intros Henv Hc Hd. rewrite (errorHandler_production env err Henv). cbn [fst].
  unfold productionError. rewrite Hc, Hd.
  cbn [handleValidationErrorDB new_AppError ae_statusCode ae_message].
  rewrite or_str_some by discriminate. reflexivity.
Qed.

(** X9: in production an error named [JsonWebTokenError] or
    [TokenExpiredError] that is neither a cast, a duplicate-key nor a
    Mongoose validation error is answered with status 401 and a fixed
    message, whatever its own message and status code. *)
Theorem errorHandler_production_jwt env err :
  NODE_ENV env = Some "production" ->
  e_class err = PlainError \/ e_class err = JoiValidationError ->
  code_is_11000 err = false ->
  (name_is err "JsonWebTokenError" = true ->
   fst (errorHandler env err)
   = {| res_status := 401;
        res_body := [("success", JBool false);
                     ("error", JStr "Invalid token. Please log in again!")] |})
  /\ (name_is err "TokenExpiredError" = true ->
      fst (errorHandler env err)
      = {| res_status := 401;
           res_body := [("success", JBool false);
                        ("error", JStr "Your token has expired! Please log in again.")] |}).
Proof.
  intros Henv Hc Hd. rewrite (errorHandler_production env err Henv). cbn [fst].
  unfold productionError. rewrite Hd.
  assert (Hne : name_is err "JsonWebTokenError" = true ->
                name_is err "TokenExpiredError" = false).
  { unfold name_is. destruct (e_name err) as [s|]; [|discriminate].
    intros H. apply String.eqb_eq in H. now subst. }
  split; intros Hn.
  - rewrite Hn. destruct Hc as [-> | ->]; reflexivity.
  - destruct (name_is err "JsonWebTokenError") eqn:Hj.
    + rewrite (Hne eq_refl) in Hn. discriminate Hn.
    + rewrite Hn. destruct Hc as [-> | ->]; reflexivity.
Qed.

(** X10: outside production no category is mapped: an error with a
    non-empty message is answered with that message and with its own
    numeric status code, or 500 when it has none or 0, be it a cast, a
    validation, a duplicate-key or a JWT error. *)
Theorem errorHandler_outside_production env err m :
  NODE_ENV env <> Some "production" ->
  e_message err = Some m ->
  m <> "" ->
  fst (errorHandler env err)
  = {| res_status :=
         match e_statusCode err with
         | Some (SNum n) => if n =? 0 then 500 else n
         | _ => 500
         end;
       res_body := [("success", JBool false); ("error", JStr m)] |}.
Proof.
  intros Henv Hm Hne.
  assert (Hp : env_is env "development" = true \/ env_is env "production" = false).
  { unfold env_is. destruct (NODE_ENV env) as [s|]; [|now right].
    destruct (String.eqb_spec s "production") as [->|]; [contradiction | now right]. }
  assert (Hmsg : message (normalize err) = m).
  { unfold normalize. cbn [message]. rewrite Hm. now apply or_str_some. }
  assert (Hst : Js.or_num (Some (statusCode (normalize err))) 500
                = match e_statusCode err with
                  | Some (SNum n) => if n =? 0 then 500 else n
                  | _ => 500
                  end).
  { unfold normalize, isAppError, truthy_status. cbn [statusCode]. rewrite Hm.
    destruct (e_statusCode err) as [[n|]|]; try reflexivity.
    destruct (Z.eqb_spec n 0) as [->|Hn]; [reflexivity|].
    unfold Js.or_num. now destruct (Z.eqb_spec n 0). }
  unfold errorHandler.
  destruct (env_is env "development"); cbn [fst].
  - rewrite Hst, Hmsg, or_str_some by exact Hne. reflexivity.
  - destruct Hp as [Hp|Hp]; [discriminate|]. rewrite Hp.
    rewrite Hst, Hmsg, or_str_some by exact Hne. reflexivity.
Qed.

End ErrorHandlerTable.

Section ErrorHandlerTableWitnesses.
Import ErrorMiddleware.

Lemma errorHandler_logs_in_development_witness :
  snd (errorHandler development econnrefused)
  = [ {| log_message := "connect ECONNREFUSED 10.0.0.5:27017";
         log_stack := e_stack econnrefused;
         log_name := "Error";
         log_statusCode := 500;
         log_isOperational := false |} ]
  /\ snd (errorHandler production econnrefused) = [].
Proof.
  split.
  - exact (proj1 (errorHandler_logs_in_development development econnrefused) eq_refl).
  - exact (proj2 (errorHandler_logs_in_development production econnrefused)
                 ltac:(discriminate)).
Defined.

Lemma errorHandler_production_cast_witness :
  fst (errorHandler production bad_id_error)
  = {| res_status := 400;
       res_body := [("success", JBool false); ("error", JStr "Invalid _id: xyz.")] |}.
Proof. exact (errorHandler_production_cast production bad_id_error eq_refl eq_refl). Defined.

Lemma errorHandler_production_validation_witness :
  fst (errorHandler production
         (validation_error [("photo", "Please add a photo of the meter");
                            ("reading", "Reading must be a positive number")]))
  = {| res_status := 400;
       res_body :=
         [("success", JBool false);
          ("error", JStr "Invalid input data. Please add a photo of the meter. Reading must be a positive number")] |}.
Proof.
  exact (errorHandler_production_validation production
           (validation_error [("photo", "Please add a photo of the meter");
                              ("reading", "Reading must be a positive number")])
           eq_refl eq_refl eq_refl).
Defined.

Lemma errorHandler_production_jwt_witness :
  fst (errorHandler production jwt_malformed)
  = {| res_status := 401;
       res_body := [("success", JBool false);
                    ("error", JStr "Invalid token. Please log in again!")] |}
  /\ fst (errorHandler production jwt_expired)
     = {| res_status := 401;
          res_body := [("success", JBool false);
                       ("error", JStr "Your token has expired! Please log in again.")] |}.
Proof.
  split.
  - exact (proj1 (errorHandler_production_jwt production jwt_malformed eq_refl
                    (or_introl eq_refl) eq_refl) eq_refl).
  - exact (proj2 (errorHandler_production_jwt production jwt_expired eq_refl
                    (or_introl eq_refl) eq_refl) eq_refl).
Defined.

Lemma errorHandler_outside_production_witness :
  fst (errorHandler test_env bad_id_error)
  = {| res_status := 500;
       res_body := [("success", JBool false);
                    ("error", JStr "Cast to ObjectId failed for value xyz")] |}.
Proof.
  exact (errorHandler_outside_production test_env bad_id_error
           "Cast to ObjectId failed for value xyz"
           ltac:(discriminate) eq_refl ltac:(discriminate)).
Defined.

(** X11: [new AppError] labels every status code from 400 to 499 as
    [fail] and every other code from 100 to 599 as [error]. *)
Theorem new_AppError_status msg code :
  100 <= code <= 599 ->
  ae_status (new_AppError msg code)
  = if (400 <=? code) && (code <=? 499) then "fail" else "error".
Proof.
  intros H.
  assert (Hall : forallb
                   (fun k => String.eqb
                               (ae_status (new_AppError "" (Z.of_nat k)))
                               (if (400 <=? Z.of_nat k) && (Z.of_nat k <=? 499)
                                then "fail" else "error"))
                   (seq 100 500) = true) by (vm_compute; reflexivity).
  rewrite forallb_forall in Hall.
  specialize (Hall (Z.to_nat code)).
  rewrite Z2Nat.id in Hall by lia.
  apply String.eqb_eq. apply Hall. apply in_seq. lia.
Qed.

Lemma new_AppError_status_witness :
  ae_status (new_AppError "Not found" 404) = "fail"
  /\ ae_status (new_AppError "Server Error" 500) = "error".
Proof.
  split.
  - exact (new_AppError_status "Not found" 404 ltac:(lia)).
  - exact (new_AppError_status "Server Error" 500 ltac:(lia)).
Defined.

End ErrorHandlerTableWitnesses.

(** ** [ErrorResponse.fromMongoError] *)
Section FromMongoError.
Import ErrorMiddleware.

(** X12: [fromMongoError] throws exactly on an error with code 11000
    that has no [keyValue] and on an error named [ValidationError] that
    has no [errors]; otherwise its status is 404 for a [CastError], else
    400 for a [ValidationError] or a code 11000, else 500, the later test
    overriding the earlier; and for the driver's duplicate-key error its
    message names the field, not the value. *)
Theorem fromMongoError_table error :
  (fromMongoError error = None <->
   (me_code_is_11000 error = true /\ me_keyValue error = None)
   \/ (me_name_is error "ValidationError" = true /\ me_errors error = None))
  /\ (forall r, fromMongoError error = Some r ->
        er_statusCode r =
          if me_name_is error "CastError" then 404
          else if me_name_is error "ValidationError" || me_code_is_11000 error then 400
          else 500)
  /\ forall field value,
       fromMongoError (duplicate_key field value)
       = Some {| er_message := "Duplicate field value: " +:+ field
                               +:+ ". Please use another value";
                 er_statusCode := 400 |}.
Proof.
  split; [|split].
  - unfold fromMongoError.
    destruct (me_code_is_11000 error), (me_keyValue error),
      (me_name_is error "ValidationError"), (me_errors error),
      (me_name_is error "CastError");
      cbn; split; try discriminate; try tauto;
      intros [[? ?]|[? ?]]; discriminate.
  - intros r. unfold fromMongoError.
    destruct (me_code_is_11000 error), (me_keyValue error),
      (me_name_is error "ValidationError"), (me_errors error),
      (me_name_is error "CastError");
      cbn; intros H; try discriminate H; injection H as <-; reflexivity.
  - intros field value. reflexivity.
Qed.

(** The two renderings of one duplicate-key error: the static
    constructor prints the key, the production handler the value. *)
Example duplicate_key_two_messages :
  er_message <$> fromMongoError (duplicate_key "email" "ann@x.org")
  = Some "Duplicate field value: email. Please use another value"
  /\ ae_message (handleDuplicateFieldsDB
                   (e_keyValue (duplicate_key_error "email" "ann@x.org")))
     = "Duplicate field value: ann@x.org. Please use another value!".
Proof. split; reflexivity. Qed.

(** An error that is named [ValidationError] and carries no [errors],
    as the validation error of another library does: the call throws. *)
Example fromMongoError_without_errors :
  fromMongoError {| me_code := None; me_keyValue := None;
                    me_name := Some "ValidationError"; me_errors := None |}
  = None.
Proof. reflexivity. Qed.

End FromMongoError.

(** * Further properties of the reading handlers *)

(** ** What the validators guarantee *)
Section SchemaFacts.

Lemma trimEnd_cons c s :
  Js.trimEnd (String c s)
  = match Js.trimEnd s with
    | EmptyString => if Js.is_space c then EmptyString else String c EmptyString
    | String a t => String c (String a t)
    end.
Proof. reflexivity. Qed.

Lemma trimEnd_idem s : Js.trimEnd (Js.trimEnd s) = Js.trimEnd s.
Proof.
  induction s as [|c s IH]; [reflexivity|]. rewrite trimEnd_cons.
  destruct (Js.trimEnd s) as [|a t] eqn:E.
  - destruct (Js.is_space c) eqn:Hc; [reflexivity|].
    rewrite trimEnd_cons. cbn [Js.trimEnd]. now rewrite Hc.
  - rewrite trimEnd_cons, IH. reflexivity.
Qed.

Lemma skip_spaces_head s :
  Js.skip_spaces s = ""
  \/ exists c t, Js.skip_spaces s = String c t /\ Js.is_space c = false.
Proof.
  induction s as [|c s IH]; [now left|]. cbn [Js.skip_spaces].
  destruct (Js.is_space c) eqn:Hc; [exact IH | right; eauto].
Qed.

Lemma trimEnd_head c s :
  Js.is_space c = false -> exists t, Js.trimEnd (String c s) = String c t.
Proof.
  intros Hc. rewrite trimEnd_cons. destruct (Js.trimEnd s); [rewrite Hc|]; eauto.
Qed.

(** Trimming a trimmed string changes nothing. *)
Lemma trim_idem s : Js.trim (Js.trim s) = Js.trim s.
Proof.
  unfold Js.trim. destruct (skip_spaces_head s) as [->|(c & t & -> & Hc)]; [reflexivity|].
  destruct (trimEnd_head c t Hc) as [u Hu]. rewrite Hu.
  cbn [Js.skip_spaces]. rewrite Hc, <- Hu. apply trimEnd_idem.
Qed.

Lemma required_nil path msg s :
  check_required path msg (Some s) = [] -> String.eqb s "" = false.
Proof. unfold check_required. now destruct (String.eqb s ""). Qed.

Lemma maxlength_nil n path msg v :
  check_maxlength n path msg v = [] -> within n v = true.
Proof.
  unfold check_maxlength, within. destruct v as [s|]; [|reflexivity].
  destruct (Nat.ltb_spec n (String.length s)); [discriminate|].
  intros _. apply Nat.leb_le. lia.
Qed.

Lemma reading_errors_nil q : reading_errors (Some q) = [] -> Qle_bool 0 q = true.
Proof. unfold reading_errors. now destruct (Qle_bool 0 q). Qed.

(** The parts of an empty list of errors of an update. *)
Lemma update_errors_nil b :
  update_errors b = [] ->
  meterNumber_errors (b_meterNumber b) = []
  /\ reading_errors (b_reading b) = []
  /\ check_required "photo" "Please add a photo of the meter" (b_photo b) = []
  /\ (forall lb, b_location b = Some lb ->
        check_required "location.address" "Please add an address" (lb_address lb) = [])
  /\ within 500 (b_notes b) = true
  /\ within 500 (b_readerNotes b) = true.
Proof.
  unfold update_errors. intros H.
  apply app_eq_nil in H as [H1 H]. apply app_eq_nil in H as [H2 H].
  apply app_eq_nil in H as [_ H]. apply app_eq_nil in H as [H4 H].
  apply app_eq_nil in H as [H5 H]. apply app_eq_nil in H as [_ H].
  apply app_eq_nil in H as [H7 H8].
  repeat split; try assumption; try now apply maxlength_nil in H7.
  - intros lb Hlb. rewrite Hlb in H5.
    apply app_eq_nil in H5 as [_ H5]. now apply app_eq_nil in H5 as [_ H5].
  - now apply maxlength_nil in H8.
Qed.

Lemma valid_doc_intro r :
  String.eqb (mr_meterNumber r) "" = false ->
  Js.trim (mr_meterNumber r) = mr_meterNumber r ->
  (String.length (mr_meterNumber r) <= 50)%nat ->
  Qle_bool 0 (mr_reading r) = true ->
  String.eqb (mr_photo r) "" = false ->
  address (mr_location r) <> Some "" ->
  within 500 (mr_notes r) = true ->
  within 500 (mr_readerNotes r) = true ->
  valid_doc r = true.
Proof.
  unfold valid_doc. intros -> -> Hl -> -> Ha -> ->.
  rewrite String.eqb_refl, (bool_decide_eq_false_2 _ Ha).
  apply Nat.leb_le in Hl. now rewrite Hl.
Qed.

Lemma valid_doc_elim r :
  valid_doc r = true ->
  String.eqb (mr_meterNumber r) "" = false
  /\ Js.trim (mr_meterNumber r) = mr_meterNumber r
  /\ (String.length (mr_meterNumber r) <= 50)%nat
  /\ Qle_bool 0 (mr_reading r) = true
  /\ String.eqb (mr_photo r) "" = false
  /\ address (mr_location r) <> Some ""
  /\ within 500 (mr_notes r) = true
  /\ within 500 (mr_readerNotes r) = true.
Proof.
  unfold valid_doc. intros H.
  repeat (apply andb_true_iff in H as [H ?]).
  repeat split; try assumption.
  - now apply negb_true_iff.
  - now apply String.eqb_eq.
  - now apply Nat.leb_le.
  - now apply negb_true_iff.
  - match goal with
    | Hb : negb (bool_decide _) = true |- _ =>
        apply negb_true_iff, bool_decide_eq_false in Hb; exact Hb
    end.
Qed.

(** What [MeterReading.create] stores is the new document, at the end
    of the collection, and it passes every validator. *)
Lemma MeterReading_create_valid new_id now b rs doc rs' :
  MeterReading_create new_id now b rs = inr (doc, rs') ->
  valid_doc doc = true /\ rs' = (rs ++ [doc])%list /\ doc = new_document new_id now b.
Proof.
  unfold MeterReading_create.
  destruct (create_errors b) eqn:He; [|discriminate].
  destruct (geo_indexable _) eqn:Hg; cbn [negb]; [|discriminate].
  intros H. injection H as <- <-. split; [|split; reflexivity].
  apply create_errors_nil in He as (_ & (m & Hm & Hne & Hlen) & [q Hq] & [ph Hph] & Hu).
  apply update_errors_nil in Hu as (_ & Hr & Hp & Hl & Hn & Hrn).
  rewrite Hq in Hr. rewrite Hph in Hp.
  apply valid_doc_intro;
    unfold new_document;
    cbn [mr_meterNumber mr_reading mr_photo mr_location mr_notes mr_readerNotes
         location_of_body address];
    rewrite ?Hm, ?Hq, ?Hph; cbn [default from_option id]; try assumption.
  - now apply String.eqb_neq.
  - apply trim_idem.
  - now apply reading_errors_nil.
  - now apply required_nil in Hp.
  - destruct (b_location b) as [lb|]; [|discriminate].
    cbn [mbind option_bind]. intros Ha. specialize (Hl lb eq_refl).
    rewrite Ha in Hl. discriminate Hl.
Qed.

(** A document that passes the validators still does after an update
    that the validators accept. *)
Lemma apply_update_valid now b r :
  valid_doc r = true ->
  update_errors b = [] ->
  valid_doc (apply_update now b r) = true.
Proof.
  intros Hv He.
  apply valid_doc_elim in Hv as (V1 & V2 & V3 & V4 & V5 & V6 & V8 & V9).
  apply update_errors_nil in He as (Hm & Hr & Hp & Hl & Hn & Hrn).
  apply valid_doc_intro;
    unfold apply_update;
    cbn [mr_meterNumber mr_reading mr_photo mr_location mr_notes mr_readerNotes].
  - destruct (b_meterNumber b) as [m|]; [|exact V1].
    apply meterNumber_errors_nil in Hm as [Hm _]. now apply String.eqb_neq.
  - destruct (b_meterNumber b) as [m|]; [|exact V2]. apply trim_idem.
  - destruct (b_meterNumber b) as [m|]; [|exact V3].
    now apply meterNumber_errors_nil in Hm as [_ Hm].
  - destruct (b_reading b) as [q|]; [|exact V4]. now apply reading_errors_nil.
  - destruct (b_photo b) as [p|]; [|exact V5]. now apply required_nil in Hp.
  - destruct (b_location b) as [lb|]; [|exact V6].
    cbn [fmap option_fmap option_map default from_option id location_of_update address].
    intros Ha. specialize (Hl lb eq_refl). rewrite Ha in Hl. discriminate Hl.
  - destruct (b_notes b); [exact Hn | exact V8].
  - destruct (b_readerNotes b); [exact Hrn | exact V9].
Qed.

Lemma Forall_replace_by_id (P : MeterReading -> Prop) id r' rs :
  P r' -> Forall P rs -> Forall P (replace_by_id id r' rs).
Proof.
  intros Hr. induction 1 as [|x l Hx Hl IH]; cbn [replace_by_id]; [constructor|].
  destruct (String.eqb (mr_id x) id); constructor; assumption.
Qed.

Lemma Forall_deleteOne (P : MeterReading -> Prop) id rs :
  Forall P rs -> Forall P (deleteOne id rs).
Proof.
  induction 1 as [|x l Hx Hl IH]; cbn [deleteOne]; [constructor|].
  destruct (String.eqb (mr_id x) id); [assumption | constructor; assumption].
Qed.

Lemma findById_In rs id r : findById rs id = Some r -> In r rs.
Proof. unfold findById. intros H. now apply find_some in H. Qed.

Lemma findByIdAndUpdate_valid id now b rs res rs' :
  Forall (fun r => valid_doc r = true) rs ->
  findByIdAndUpdate id now b rs = inr (res, rs') ->
  Forall (fun r => valid_doc r = true) rs'.
Proof.
  intros Hall. unfold findByIdAndUpdate.
  destruct (update_errors b) eqn:He; [|discriminate].
  destruct (findById rs id) as [r|] eqn:Hf.
  - destruct (geo_indexable _) eqn:Hg; cbn [negb]; [|discriminate].
    intros H. injection H as _ <-.
    apply Forall_replace_by_id; [|exact Hall].
    apply apply_update_valid; [|exact He].
    rewrite List.Forall_forall in Hall. apply Hall. now apply findById_In in Hf.
  - intros H. now injection H as _ <-.
Qed.

(** Each sure way to fail leaves its entry among the errors of an
    update, and so among those of a new document. *)
Lemma bad_status_error b s :
  b_status b = Some s -> status_of_string s = None ->
  In ("status", "`" +:+ s +:+ "` is not a valid enum value for path `status`.")
     (update_errors b).
Proof.
  intros Hs Hn. unfold update_errors. rewrite Hs.
  do 5 (apply in_or_app; right). apply in_or_app; left.
  unfold check_enum. rewrite Hn. now left.
Qed.

Lemma bad_reading_error b q :
  b_reading b = Some q -> Qle_bool 0 q = false ->
  In ("reading", "Reading must be a positive number") (update_errors b).
Proof.
  intros Hq Hn. unfold update_errors. rewrite Hq.
  apply in_or_app; right. apply in_or_app; left.
  unfold reading_errors. rewrite Hn. now left.
Qed.

Lemma blank_meterNumber_error b m :
  b_meterNumber b = Some m -> Js.trim m = "" ->
  In ("meterNumber", "Please add a meter number") (update_errors b).
Proof.
  intros Hm Ht. unfold update_errors. rewrite Hm.
  apply in_or_app; left. unfold meterNumber_errors.
  cbn [fmap option_fmap option_map]. rewrite Ht. now left.
Qed.

Lemma blank_photo_error b :
  b_photo b = Some "" ->
  In ("photo", "Please add a photo of the meter") (update_errors b).
Proof.
  intros Hp. unfold update_errors. rewrite Hp.
  do 3 (apply in_or_app; right). apply in_or_app; left. now left.
Qed.

Lemma update_errors_in_create b e : In e (update_errors b) -> In e (create_errors b).
Proof.
  intros H. unfold create_errors.
  do 5 (apply in_or_app; right). apply in_or_app; now left.
Qed.

Lemma update_errors_with_approval b id now :
  update_errors (with_approval b id now) = update_errors b.
Proof. reflexivity. Qed.

End SchemaFacts.

(** X13: the create, update and delete handlers keep the stored readings
    within the validators of the schema: if every stored reading has a
    trimmed, non-empty meter number of at most 50 characters, a reading
    that is not negative, a photo, no empty address and notes of at most
    500 characters, so has every reading stored after any request to one
    of the three. *)
Theorem handlers_keep_schema db :
  Forall (fun r => valid_doc r = true) (readings db) ->
  (forall user ok new_id now body,
     Forall (fun r => valid_doc r = true)
       (readings (snd (createMeterReading db user ok new_id now body))))
  /\ (forall user now id body,
        Forall (fun r => valid_doc r = true)
          (readings (snd (updateMeterReading db user now id body))))
  /\ (forall user id,
        Forall (fun r => valid_doc r = true)
          (readings (snd (deleteMeterReading db user id)))).
Proof.
  intros Hall. split; [|split].
  - intros user ok new_id now body. unfold createMeterReading.
    destruct (createMeterReading_check _ _ _); [exact Hall|].
    unfold createMeterReading_insert.
    destruct (MeterReading_create _ _ _ _) as [e|[doc rs']] eqn:Hc; [exact Hall|].
    apply MeterReading_create_valid in Hc as (Hv & -> & _).
    cbn [snd readings]. apply Forall_app. split; [exact Hall | now constructor].
  - intros user now id body. unfold updateMeterReading.
    destruct (findById _ _); [|exact Hall].
    destruct (refused _ _); [exact Hall|].
    destruct (findByIdAndUpdate _ _ _ _) as [e|[res rs']] eqn:Hu; [exact Hall|].
    cbn [snd readings]. exact (findByIdAndUpdate_valid _ _ _ _ _ _ Hall Hu).
  - intros user id. unfold deleteMeterReading.
    destruct (findById _ _); [|exact Hall].
    destruct (refused _ _); [exact Hall|].
    destruct (String.eqb _ _); [cbn [snd readings]; now apply Forall_deleteOne|].
    destruct (file_name _); [cbn [snd readings]; now apply Forall_deleteOne|].
    exact Hall.
Qed.

Lemma handlers_keep_schema_witness :
  Forall (fun r => valid_doc r = true)
    (readings (snd (createMeterReading db0 (identity_of bob) true "r3" 50
                      (submission " M-200 " None)))).
Proof.
  exact (proj1 (handlers_keep_schema db0
                  ltac:(repeat constructor))
               (identity_of bob) true "r3" 50 (submission " M-200 " None)).
Defined.

(** A location that an update sets replaces the stored one as a whole:
    an update that names the point and no address stores a reading
    without address. *)
Example updateMeterReading_drops_address :
  (fun r => address (mr_location r))
    <$> findById
          (readings
             (snd (updateMeterReading db0 (identity_of ann) 30 "r1"
                     {| b_user := None; b_meterNumber := None; b_reading := None;
                        b_unit := None; b_photo := None;
                        b_location :=
                          Some {| lb_type := Some "Point";
                                  lb_coordinates := Some [(7259 # 100)%Q; (2304 # 100)%Q];
                                  lb_address := None |};
                        b_status := None; b_notes := None; b_readerNotes := None;
                        b_approvedBy := None; b_approvedAt := None |})))
          "r1"
  = Some None.
Proof. vm_compute. reflexivity. Qed.

(** ** Lookups after a write *)
Section CollectionFacts.



Lemma findById_notin_None rs id : ~ In id (mr_id <$> rs) -> findById rs id = None.
Proof.
  intros H. unfold findById. destruct (List.find _ rs) as [r|] eqn:Hf; [|reflexivity].
  apply find_some in Hf as [Hin Heq]. apply String.eqb_eq in Heq.
  exfalso. apply H. apply in_map_iff. eauto.
Qed.

Lemma findById_deleteOne_other rs id j :
  j <> id -> findById (deleteOne id rs) j = findById rs j.
Proof.
  intros Hj. induction rs as [|x rs IH]; [reflexivity|]. cbn [deleteOne].
  destruct (String.eqb_spec (mr_id x) id) as [E|E].
  - cbn [findById List.find]. rewrite E.
    destruct (String.eqb_spec id j); [congruence | reflexivity].
  - cbn [findById List.find]. destruct (String.eqb (mr_id x) j); [reflexivity | exact IH].
Qed.

Lemma deleteOne_ids rs id :
  unique_ids rs -> ~ In id (mr_id <$> deleteOne id rs) /\ unique_ids (deleteOne id rs).
Proof.
  unfold unique_ids. induction rs as [|x rs IH]; cbn [deleteOne fmap list_fmap].
  - intros _. split; [intros [] | constructor].
  - intros H. apply NoDup_cons in H as [Hx Hrs].
    destruct (String.eqb_spec (mr_id x) id) as [E|E].
    + split; [|exact Hrs]. rewrite <- E. intros Hin. apply Hx. now apply list_elem_of_In.
    + destruct (IH Hrs) as [IH1 IH2]. split.
      * cbn [fmap list_fmap]. intros [H|H]; [contradiction | now apply IH1].
      * cbn [fmap list_fmap]. apply NoDup_cons. split; [|exact IH2].
        intros Hin. apply list_elem_of_In, in_map_iff in Hin as (r & Hr & Hin).
        apply Hx. apply list_elem_of_In, in_map_iff. exists r. split; [exact Hr|].
        clear -Hin. induction rs as [|y rs IHrs]; [contradiction|].
        cbn [deleteOne] in Hin. destruct (String.eqb (mr_id y) id).
        -- now right.
        -- destruct Hin as [->|Hin]; [now left | right; now apply IHrs].
Qed.

Lemma length_deleteOne rs id r :
  findById rs id = Some r -> S (length (deleteOne id rs)) = length rs.
Proof.
  unfold findById. induction rs as [|x rs IH]; cbn [List.find deleteOne length]; [discriminate|].
  destruct (String.eqb (mr_id x) id); [reflexivity|].
  intros H. cbn [length]. now rewrite (IH H).
Qed.

Lemma replace_by_id_map {A} (f : MeterReading -> A) id r r' rs :
  findById rs id = Some r -> f r' = f r ->
  f <$> replace_by_id id r' rs = f <$> rs.
Proof.
  unfold findById. intros Hf Heq.
  induction rs as [|x rs IH]; [reflexivity|].
  cbn [List.find] in Hf. cbn [replace_by_id].
  destruct (String.eqb (mr_id x) id).
  - injection Hf as ->. cbn [fmap list_fmap]. now rewrite Heq.
  - cbn [fmap list_fmap]. f_equal. now apply IH.
Qed.

Lemma find_none_filter {A} (f : A -> bool) l :
  List.find f l = None -> List.filter f l = [].
Proof.
  induction l as [|x l IH]; [reflexivity|]. cbn [List.find List.filter].
  destruct (f x); [discriminate | exact IH].
Qed.

(** What an insert that succeeds adds to the collection. *)
Lemma createMeterReading_insert_Json db user new_id now body doc db' :
  createMeterReading_insert db user new_id now body
  = (Json 201 (DReading (Some doc)), db') ->
  doc = new_document new_id now (with_user body (i_id user))
  /\ readings db' = (readings db ++ [doc])%list
  /\ valid_doc doc = true
  /\ exists m, b_meterNumber body = Some m /\ mr_meterNumber doc = Js.trim m.
Proof.
  unfold createMeterReading_insert.
  destruct (MeterReading_create _ _ _ _) as [e|[d rs']] eqn:Hc; [discriminate|].
  intros H. injection H as -> <-.
  pose proof Hc as Hc'. apply MeterReading_create_valid in Hc' as (Hv & -> & Hd).
  split; [exact Hd|]. split; [reflexivity|]. split; [exact Hv|].
  unfold MeterReading_create in Hc.
  destruct (create_errors _) eqn:He; [|discriminate].
  apply create_errors_nil in He as (_ & (m & Hm & _) & _).
  cbn [with_user b_meterNumber] in Hm. exists m. split; [exact Hm|].
  rewrite Hd. unfold new_document. cbn [mr_meterNumber with_user b_meterNumber].
  now rewrite Hm.
Qed.

Lemma pending_for_meter m r : pending_for m r = true -> mr_meterNumber r = m.
Proof.
  unfold pending_for. intros H. apply andb_true_iff in H as [H _].
  now apply String.eqb_eq.
Qed.

End CollectionFacts.

(** X14: a create request that runs with no other write between its
    check and its insert keeps the rule of one pending reading a meter;
    the check and the insert are two calls of the database, and when two
    requests for one meter both pass the check before either inserts,
    both inserts succeed and the meter has two pending readings. *)
Theorem createMeterReading_keeps_one_pending db user ok new_id now body :
  (one_pending (readings db) ->
   one_pending (readings (snd (createMeterReading db user ok new_id now body))))
  /\ forall other id2 now2 doc doc2 db1 db2,
       createMeterReading_check db ok (with_user body (i_id user)) = None ->
       createMeterReading_check db ok (with_user body (i_id other)) = None ->
       createMeterReading_insert db user new_id now body
       = (Json 201 (DReading (Some doc)), db1) ->
       createMeterReading_insert db1 other id2 now2 body
       = (Json 201 (DReading (Some doc2)), db2) ->
       mr_status doc = Pending ->
       ~ one_pending (readings db2).
Proof.
  split.
  - intros Hone. unfold createMeterReading, createMeterReading_check.
    destruct (negb ok); [exact Hone|].
    destruct (findOne_pending _ _) eqn:Hp; [exact Hone|].
    destruct (createMeterReading_insert _ _ _ _ _) as [o db'] eqn:Hi.
    unfold createMeterReading_insert in Hi.
    destruct (MeterReading_create _ _ _ _) as [e|[d rs']] eqn:Hc;
      injection Hi as <- <-; [exact Hone|].
    assert (Hj : createMeterReading_insert db user new_id now body
                 = (Json 201 (DReading (Some d)),
                    {| users := users db; readings := rs'; files := files db |})).
    { unfold createMeterReading_insert. now rewrite Hc. }
    apply createMeterReading_insert_Json in Hj as (_ & Hrs & _ & (m & Hm & Hd)).
    cbn [snd readings] in *. rewrite Hrs.
    intros m'. rewrite List.filter_app, List.length_app.
    cbn [List.filter]. destruct (pending_for m' d) eqn:Hpd; cbn [length].
    + apply pending_for_meter in Hpd. subst m'.
      cbn [with_user b_meterNumber] in Hp. rewrite Hm in Hp.
      cbn [findOne_pending] in Hp. rewrite <- Hd in Hp.
      rewrite (find_none_filter _ _ Hp). reflexivity.
    + specialize (Hone m'). lia.
  - intros other id2 now2 doc doc2 db1 db2 _ _ H1 H2 Hst Hone.
    apply createMeterReading_insert_Json in H1 as (Hd1 & Hr1 & _ & (m & Hm & Hm1)).
    apply createMeterReading_insert_Json in H2 as (Hd2 & Hr2 & _ & (m2 & Hm2 & Hm2')).
    assert (m2 = m) as -> by congruence.
    assert (Hst2 : mr_status doc2 = Pending).
    { rewrite Hd2. rewrite Hd1 in Hst. exact Hst. }
    specialize (Hone (Js.trim m)). rewrite Hr2, Hr1 in Hone.
    rewrite !List.filter_app, !List.length_app in Hone. cbn [List.filter] in Hone.
    assert (P1 : pending_for (Js.trim m) doc = true).
    { unfold pending_for. now rewrite Hm1, Hst, String.eqb_refl. }
    assert (P2 : pending_for (Js.trim m) doc2 = true).
    { unfold pending_for. now rewrite Hm2', Hst2, String.eqb_refl. }
    rewrite P1, P2 in Hone. cbn [length] in Hone. lia.
Qed.

Lemma createMeterReading_keeps_one_pending_witness :
  one_pending (readings (snd (createMeterReading db0 (identity_of bob) true "r3" 50
                                (submission "M-200" None))))
  /\ ~ one_pending
         (readings
            (snd (createMeterReading_insert
                    (snd (createMeterReading_insert db0 (identity_of bob) "r3" 50
                            (submission "M-200" None)))
                    (identity_of ann) "r4" 51 (submission "M-200" None)))).
Proof.
  split.
  - apply (proj1 (createMeterReading_keeps_one_pending db0 (identity_of bob) true "r3" 50
                    (submission "M-200" None))).
    intros m. cbn [readings db0 List.filter].
    destruct (pending_for m r1), (pending_for m r2) eqn:E2; cbn [length]; try lia.
    discriminate E2 || (unfold pending_for in E2; rewrite andb_false_r in E2; discriminate E2).
  - exact (proj2 (createMeterReading_keeps_one_pending db0 (identity_of bob) true "r3" 50
                    (submission "M-200" None))
                 (identity_of ann) "r4" 51 _ _ _ _ eq_refl eq_refl eq_refl eq_refl eq_refl).
Defined.



(** X16: when the owner or an admin deletes a reading of a collection
    with pairwise different identifiers, and the photo of the reading is
    empty or the plain name of a file, the reading can no longer be
    looked up, every other reading is found as before, the collection is
    one shorter, and of the uploaded files exactly the one named by the
    reading's photo is gone (none when the reading has no photo). *)
Theorem deleteMeterReading_removes db user id r :
  unique_ids (readings db) ->
  findById (readings db) id = Some r ->
  refused r user = false ->
  mr_photo r = "" \/ file_name (mr_photo r) = true ->
  let db' := snd (deleteMeterReading db user id) in
  fst (deleteMeterReading db user id) = Json 200 DEmpty
  /\ findById (readings db') id = None
  /\ (forall j, j <> id -> findById (readings db') j = findById (readings db) j)
  /\ S (length (readings db')) = length (readings db)
  /\ unique_ids (readings db')
  /\ users db' = users db
  /\ forall f, In f (files db') <->
               In f (files db) /\ (mr_photo r = "" \/ f <> mr_photo r).
Proof.
  intros Hu Hf Hr Hph. cbv zeta.
  destruct (deleteOne_ids _ id Hu) as [Hnot Hu'].
  assert (Hd : deleteMeterReading db user id
               = (Json 200 DEmpty,
                  {| users := users db;
                     readings := deleteOne id (readings db);
                     files := if String.eqb (mr_photo r) "" then files db
                              else List.filter
                                     (fun f => negb (String.eqb f (mr_photo r)))
                                     (files db) |})).
  { unfold deleteMeterReading. rewrite Hf, Hr, (findById_id _ _ _ Hf).
    destruct (String.eqb_spec (mr_photo r) "") as [E|E]; [reflexivity|].
    destruct Hph as [Hph|Hph]; [contradiction|]. now rewrite Hph. }
  rewrite Hd. cbn [fst snd readings users files].
  split; [reflexivity|]. split; [now apply findById_notin_None|].
  split; [intros j Hj; now apply findById_deleteOne_other|].
  split; [now apply (length_deleteOne _ _ r)|].
  split; [exact Hu'|]. split; [reflexivity|].
  intros f. destruct (String.eqb_spec (mr_photo r) "") as [E|E].
  - tauto.
  - rewrite filter_In.
    destruct (String.eqb_spec f (mr_photo r)); cbn [negb]; intuition congruence.
Qed.

Lemma deleteMeterReading_removes_witness :
  findById (readings (snd (deleteMeterReading db0 (identity_of root) "r1"))) "r1" = None
  /\ files (snd (deleteMeterReading db0 (identity_of root) "r1")) = ["photo_r2.jpg"].
Proof.
  pose proof (deleteMeterReading_removes db0 (identity_of root) "r1" r1
                ltac:(repeat constructor; cbn; rewrite ?list_elem_of_In; cbn;
                      intuition discriminate)
                eq_refl eq_refl (or_intror eq_refl)) as (_ & H & _).
  split; [exact H | reflexivity].
Defined.

(** X17: an update never adds or removes a reading and never changes an
    identifier, a creation time, a user or a file; whatever it changes,
    it changes in the reading of the requested identifier. *)
Theorem updateMeterReading_keeps_collection db user now id body :
  let db' := snd (updateMeterReading db user now id body) in
  mr_id <$> readings db' = mr_id <$> readings db
  /\ mr_createdAt <$> readings db' = mr_createdAt <$> readings db
  /\ users db' = users db
  /\ files db' = files db
  /\ forall j, j <> id -> findById (readings db') j = findById (readings db) j.
Proof.
  cbv zeta. unfold updateMeterReading.
  destruct (findById (readings db) id) as [r|] eqn:Hf; [|repeat split; reflexivity].
  destruct (refused r user); [repeat split; reflexivity|].
  destruct (findByIdAndUpdate _ _ _ _) as [e|[res rs']] eqn:Hu;
    [repeat split; reflexivity|].
  cbn [snd readings users files].
  unfold findByIdAndUpdate in Hu.
  destruct (update_errors _); [|discriminate]. rewrite Hf in Hu.
  destruct (geo_indexable _); cbn [negb] in Hu; [|discriminate].
  injection Hu as _ <-.
  split; [now apply (replace_by_id_map mr_id id r)|].
  split; [now apply (replace_by_id_map mr_createdAt id r)|].
  split; [reflexivity|]. split; [reflexivity|].
  intros j Hj.
  match goal with
  | |- context [replace_by_id id ?r' _] =>
      rewrite (findById_replace _ id r r' j Hf (findById_id _ _ _ Hf))
  end.
  destruct (String.eqb_spec j id); [contradiction | reflexivity].
Qed.

(** X18: an update of a stored reading, by its owner or an admin, whose
    body carries a status outside the enum, a negative reading or a
    meter number that is blank once trimmed changes nothing: a
    validation error that names the failed path is forwarded and the
    state is the one found. *)
Theorem updateMeterReading_invalid_rejected db user now id body r :
  findById (readings db) id = Some r ->
  refused r user = false ->
  bad_status body \/ bad_reading body \/ blank_meterNumber body ->
  exists e,
    updateMeterReading db user now id body = (NextThrown e, db)
    /\ ErrorMiddleware.e_class e = ErrorMiddleware.MongooseValidationError
    /\ ErrorMiddleware.e_name e = Some "ValidationError"
    /\ (forall s, b_status body = Some s -> status_of_string s = None ->
          In ("status", "`" +:+ s +:+ "` is not a valid enum value for path `status`.")
             (ErrorMiddleware.e_errors e))
    /\ (bad_reading body ->
        In ("reading", "Reading must be a positive number") (ErrorMiddleware.e_errors e))
    /\ (blank_meterNumber body ->
        In ("meterNumber", "Please add a meter number") (ErrorMiddleware.e_errors e)).
Proof.
  intros Hf Hr Hbad. exists (validation_error (update_errors body)).
  assert (Hne : update_errors body <> []).
  { destruct Hbad as [(s & Hs & Hn)|[(q & Hq & Hn)|(m & Hm & Hn)]]; intros E.
    - pose proof (bad_status_error _ _ Hs Hn) as H. now rewrite E in H.
    - pose proof (bad_reading_error _ _ Hq Hn) as H. now rewrite E in H.
    - pose proof (blank_meterNumber_error _ _ Hm Hn) as H. now rewrite E in H. }
  split; [|split; [reflexivity|split; [reflexivity|split; [|split]]]].
  - unfold updateMeterReading. rewrite Hf, Hr.
    assert (G : forall b, update_errors b = update_errors body ->
                findByIdAndUpdate id now b (readings db)
                = inl (validation_error (update_errors body))).
    { intros b Hb. unfold findByIdAndUpdate. rewrite Hb.
      destruct (update_errors body); [contradiction | reflexivity]. }
    destruct (Js.truthy_str (b_status body) && Role_eqb (i_role user) RoleAdmin).
    + now rewrite (G (with_approval body (i_id user) now) eq_refl).
    + now rewrite (G body eq_refl).
  - intros s Hs Hn. now apply bad_status_error.
  - intros (q & Hq & Hn). now apply (bad_reading_error _ q).
  - intros (m & Hm & Hn). now apply (blank_meterNumber_error _ m).
Qed.

Lemma updateMeterReading_invalid_rejected_witness :
  exists e,
    updateMeterReading db0 (identity_of root) 30 "r1" (relabel_body "approved" "   ")
    = (NextThrown e, db0)
    /\ ErrorMiddleware.e_class e = ErrorMiddleware.MongooseValidationError
    /\ In ("meterNumber", "Please add a meter number") (ErrorMiddleware.e_errors e).
Proof.
  destruct (updateMeterReading_invalid_rejected db0 (identity_of root) 30 "r1"
              (relabel_body "approved" "   ") r1 eq_refl eq_refl
              (or_intror (or_intror (ex_intro _ "   " (conj eq_refl eq_refl)))))
    as (e & H1 & H2 & _ & _ & _ & H3).
  exists e. split; [exact H1|]. split; [exact H2|].
  apply H3. exists "   ". split; reflexivity.
Defined.

(** X19: a request to get, update or delete under an identifier of 24
    hexadecimal digits that no stored reading has is forwarded as the
    404 "Meter reading not found with id of <id>", leaves the state as
    found, and reaches the client with that status and message in every
    environment. *)
Theorem handlers_unknown_id db user now id body :
  is_ObjectId id = true ->
  findById (readings db) id = None ->
  getMeterReading db user id = (Next (not_found id), db)
  /\ updateMeterReading db user now id body = (Next (not_found id), db)
  /\ deleteMeterReading db user id = (Next (not_found id), db)
  /\ forall env,
       fst (ErrorMiddleware.errorHandler env
              (ErrorMiddleware.of_ErrorResponse (not_found id)))
       = {| ErrorMiddleware.res_status := 404;
            ErrorMiddleware.res_body :=
              [("success", ErrorMiddleware.JBool false);
               ("error", ErrorMiddleware.JStr
                           ("Meter reading not found with id of " +:+ id))] |}.
Proof.
  intros _ H. unfold getMeterReading, updateMeterReading, deleteMeterReading.
  rewrite H. repeat split.
  intros env. apply (errorHandler_ErrorResponse env (not_found id)); discriminate.
Qed.

Lemma handlers_unknown_id_witness :
  deleteMeterReading db0 (identity_of root) "64b7f0c2a1d3e4f5a6b7c8d9"
  = (Next (not_found "64b7f0c2a1d3e4f5a6b7c8d9"), db0).
Proof.
  exact (proj1 (proj2 (proj2 (handlers_unknown_id db0 (identity_of root) 0
                                "64b7f0c2a1d3e4f5a6b7c8d9" empty_body
                                eq_refl eq_refl)))).
Defined.

(** X20: a create request that passed the route's validation, names a
    meter without a pending reading and lacks the reading or the photo,
    or carries a negative reading, an empty photo or a status outside
    the enum, stores nothing and forwards a validation error; in
    production the client is answered with status 400 and a message that
    starts with "Invalid input data. ", in any other environment with
    status 500. *)
Theorem createMeterReading_invalid_answer db user new_id now body :
  is_Some (b_meterNumber body) ->
  findOne_pending (readings db) (b_meterNumber body) = None ->
  b_reading body = None \/ b_photo body = None
  \/ bad_reading body \/ blank_photo body \/ bad_status body ->
  exists e,
    createMeterReading db user true new_id now body = (NextThrown e, db)
    /\ ErrorMiddleware.e_class e = ErrorMiddleware.MongooseValidationError
    /\ ErrorMiddleware.e_name e = Some "ValidationError"
    /\ ErrorMiddleware.e_errors e <> []
    /\ (forall env, NODE_ENV env = Some "production" ->
          exists rest,
            fst (ErrorMiddleware.errorHandler env e)
            = {| ErrorMiddleware.res_status := 400;
                 ErrorMiddleware.res_body :=
                   [("success", ErrorMiddleware.JBool false);
                    ("error", ErrorMiddleware.JStr ("Invalid input data. " +:+ rest))] |})
    /\ (forall env, NODE_ENV env <> Some "production" ->
          ErrorMiddleware.res_status (fst (ErrorMiddleware.errorHandler env e)) = 500).
Proof.
  intros _ Hp Hbad.
  set (errs := create_errors (with_user body (i_id user))).
  assert (Hne : errs <> []).
  { assert (Hin : exists x, In x errs).
    { unfold errs.
      destruct Hbad as [Hq|[Hph|[(q & Hq & Hn)|[Hph|(s & Hs & Hn)]]]].
      - exists ("reading", "Please add a meter reading"). unfold create_errors.
        cbn [with_user b_reading]. rewrite Hq.
        do 2 (apply in_or_app; right). apply in_or_app; left. now left.
      - exists ("photo", "Please add a photo of the meter"). unfold create_errors.
        cbn [with_user b_photo]. rewrite Hph.
        do 3 (apply in_or_app; right). apply in_or_app; left. now left.
      - eexists. apply update_errors_in_create.
        apply (bad_reading_error (with_user body (i_id user)) q); assumption.
      - eexists. apply update_errors_in_create.
        apply (blank_photo_error (with_user body (i_id user))). exact Hph.
      - eexists. apply update_errors_in_create.
        apply (bad_status_error (with_user body (i_id user)) s); assumption. }
    destruct Hin as [x Hx]. intros E. now rewrite E in Hx. }
  exists (document_validation_error errs).
  split; [|split; [reflexivity|split; [reflexivity|split; [exact Hne|split]]]].
  - unfold createMeterReading, createMeterReading_check. cbn [negb].
    change (b_meterNumber (with_user body (i_id user))) with (b_meterNumber body).
    rewrite Hp. unfold createMeterReading_insert, MeterReading_create.
    fold errs. destruct errs; [contradiction | reflexivity].
  - intros env Henv. rewrite (errorHandler_production env _ Henv).
    eexists. reflexivity.
  - intros env Henv. unfold ErrorMiddleware.errorHandler, ErrorMiddleware.env_is.
    destruct (NODE_ENV env) as [s|]; [|reflexivity].
    destruct (String.eqb s "development"); [reflexivity|].
    destruct (String.eqb_spec s "production") as [->|]; [contradiction | reflexivity].
Qed.

Lemma createMeterReading_invalid_answer_witness :
  exists e,
    createMeterReading db0 (identity_of ann) true "r3" 50 (submission_without_photo "M-300")
    = (NextThrown e, db0)
    /\ exists rest,
         fst (ErrorMiddleware.errorHandler production e)
         = {| ErrorMiddleware.res_status := 400;
              ErrorMiddleware.res_body :=
                [("success", ErrorMiddleware.JBool false);
                 ("error", ErrorMiddleware.JStr ("Invalid input data. " +:+ rest))] |}.
Proof.
  destruct (createMeterReading_invalid_answer db0 (identity_of ann) "r3" 50
              (submission_without_photo "M-300") ltac:(eexists; reflexivity) eq_refl
              (or_intror (or_introl eq_refl)))
    as (e & H1 & _ & _ & _ & H2 & _).
  exists e. split; [exact H1 | exact (H2 production eq_refl)].
Defined.

(** The failed paths of a new document, as the model orders them: the
    required path that is absent before the path that is set. *)
Example createMeterReading_two_errors :
  (fun e => ErrorMiddleware.e_message e)
    <$> match fst (createMeterReading db0 (identity_of ann) true "r3" 50
                     {| b_user := None; b_meterNumber := Some "M-300";
                        b_reading := Some (-1 # 1)%Q; b_unit := None; b_photo := None;
                        b_location := b_location (submission "M-300" None);
                        b_status := None; b_notes := None; b_readerNotes := None;
                        b_approvedBy := None; b_approvedAt := None |}) with
        | NextThrown e => Some e
        | _ => None
        end
  = Some (Some "MeterReading validation failed: photo: Please add a photo of the meter, reading: Reading must be a positive number").
Proof. vm_compute. reflexivity. Qed.

(** ** Pages *)
Section PageFacts.

#[global] Instance newer_first_total : Total newer_first.
Proof. intros a b. unfold newer_first. lia. Qed.

#[global] Instance newer_first_trans : Transitive newer_first.
Proof. intros a b c. unfold newer_first. lia. Qed.

Lemma StronglySorted_sublist {A} (R : relation A) l1 l2 :
  l1 `sublist_of` l2 -> StronglySorted R l2 -> StronglySorted R l1.
Proof.
  induction 1 as [|x l1 l2 Hs IH|x l1 l2 Hs IH]; intros H.
  - constructor.
  - apply StronglySorted_inv in H as [H1 H2]. constructor; [now apply IH|].
    rewrite List.Forall_forall in *. intros y Hy. apply H2.
    apply list_elem_of_In. apply list_elem_of_In in Hy.
    now apply (elem_of_sublist l1 l2).
  - apply StronglySorted_inv in H as [H1 _]. now apply IH.
Qed.

Lemma ceil_div_least total limit :
  0 < limit ->
  (ceil_div total limit - 1) * limit < total <= ceil_div total limit * limit.
Proof.
  intros H. unfold ceil_div.
  pose proof (Z.div_mod (- total) limit ltac:(lia)) as E.
  pose proof (Z.mod_pos_bound (- total) limit H) as B. nia.
Qed.

(** The number of skipped documents reaches every count below [2 ^ 53]
    that the exact product reaches. *)
Lemma skip_of_lower page limit skip t :
  skip_of page limit = Some skip ->
  0 <= t < 2 ^ 53 -> 0 < limit -> t <= (page - 1) * limit -> t <= skip.
Proof.
  unfold skip_of, Js.sub, Js.mul, Js.is_finite. intros H Ht Hl Hp.
  assert (Hp1 : 0 <= page - 1) by nia.
  assert (Hinf : 2 ^ 53 <= Js.infinity).
  { unfold Js.infinity. apply Z.pow_le_mono_r; lia. }
  change (Z.abs 1 <? Js.infinity) with true in H.
  assert (Hmul : forall p, Z.min (page - 1) (2 ^ 53) <= p ->
            (if (Z.abs p <? Js.infinity) && (Z.abs limit <? Js.infinity)
             then Some (Js.to_double (p * limit))
             else if (p =? 0) || (limit =? 0) then None
                  else Some (Z.sgn p * Z.sgn limit * Js.infinity)) = Some skip ->
            t <= skip).
  { intros p Hpl. assert (H0 : 0 <= p) by lia.
    destruct ((Z.abs p <? Js.infinity) && (Z.abs limit <? Js.infinity)).
    - intros E. injection E as <-. apply to_double_lower; [lia|].
      destruct (Z.le_gt_cases (page - 1) (2 ^ 53)); nia.
    - destruct (Z.eqb_spec p 0) as [E0|E0]; [discriminate|].
      destruct (Z.eqb_spec limit 0); [lia|]. cbn [orb].
      intros E. injection E as <-.
      rewrite (Z.sgn_pos p), (Z.sgn_pos limit) by lia. lia. }
  destruct (Z.ltb_spec (Z.abs page) Js.infinity) as [Hf|Hf];
    cbn [andb mbind option_bind] in H.
  - assert (Hpl : Z.min (page - 1) (2 ^ 53) <= Js.to_double (page - 1)).
    { apply to_double_lower; lia. }
    exact (Hmul _ Hpl H).
  - apply (Hmul page); [lia | exact H].
Qed.

End PageFacts.

(** X21: a list response has status 200, counts its items, holds at most
    [|limit|] of them and at most as many as match, and lists them from
    the newest to the oldest; [page] and [limit] are the numbers read
    from the query, 1 and 10 when a parameter is absent, no number or
    0. *)
Theorem getMeterReadings_page db user q code count pg items :
  getMeterReadings db user q = Json code (DPage count pg items) ->
  let page := Js.or_num (Js.parseInt_opt (q_page q)) 1 in
  let limit := Js.or_num (Js.parseInt_opt (q_limit q)) 10 in
  code = 200
  /\ count = Z.of_nat (length items)
  /\ count <= Z.abs limit
  /\ count <= totalItems pg
  /\ currentPage pg = page
  /\ page <> 0 /\ limit <> 0
  /\ StronglySorted
       (fun a b => mr_createdAt (pop_doc b) <= mr_createdAt (pop_doc a)) items.
Proof.
  intros H. apply getMeterReadings_Json in H as (skip & _ & _ & _ & -> & -> & -> & ->).
  cbv zeta. cbn [currentPage totalItems].
  assert (Hnz : forall o d, d <> 0 -> Js.or_num o d <> 0).
  { intros o d Hd. unfold Js.or_num. destruct o as [n|]; [|exact Hd].
    destruct (Z.eqb_spec n 0); assumption. }
  split; [reflexivity|]. split; [reflexivity|].
  rewrite length_fmap.
  match goal with
  | |- context [window skip ?limit ?l] =>
      destruct (window_length skip limit l) as [Hw1 Hw2];
      rewrite (Permutation_length (merge_sort_Permutation newer_first _)) in Hw2
  end.
  split; [exact Hw1|]. split; [lia|]. split; [reflexivity|].
  split; [apply Hnz; lia|]. split; [apply Hnz; lia|].
  apply (StronglySorted_fmap (populate (users db)) newer_first).
  - intros x y Hxy. exact Hxy.
  - eapply StronglySorted_sublist; [apply window_sublist|].
    apply StronglySorted_merge_sort; apply _.
Qed.

Lemma getMeterReadings_page_witness :
  exists pg items,
    getMeterReadings fifteen (identity_of ann)
      {| q_page := Some "2"; q_limit := Some "10"; q_status := None |}
    = Json 200 (DPage 5 pg items)
    /\ 5 <= totalItems pg
    /\ StronglySorted
         (fun a b => mr_createdAt (pop_doc b) <= mr_createdAt (pop_doc a)) items.
Proof.
  destruct (getMeterReadings fifteen (identity_of ann)
              {| q_page := Some "2"; q_limit := Some "10"; q_status := None |})
    as [code [count pg items| | | |]| | |] eqn:E; try (vm_compute in E; discriminate E).
  pose proof (getMeterReadings_page _ _ _ _ _ _ _ E) as (-> & Hc & _ & Ht & _ & _ & _ & Hs).
  assert (count = 5) as -> by (vm_compute in E; now injection E as <- _ _).
  exists pg, items. repeat split; assumption.
Defined.

(** X22: with a positive limit, [totalPages] is the least number of
    pages of that size that hold every matching reading, and a page
    after the last one is empty. *)
Theorem getMeterReadings_totalPages db user q code count pg items :
  getMeterReadings db user q = Json code (DPage count pg items) ->
  let limit := Js.or_num (Js.parseInt_opt (q_limit q)) 10 in
  0 < limit ->
  (totalPages pg - 1) * limit < totalItems pg <= totalPages pg * limit
  /\ (totalPages pg < currentPage pg -> items = []).
Proof.
  intros H. apply getMeterReadings_Json in H as (skip & Hsk & Hs0 & Ht & _ & -> & _ & ->).
  cbv zeta. cbn [currentPage totalPages totalItems].
  intros Hl.
  set (limit := Js.or_num (Js.parseInt_opt (q_limit q)) 10) in *.
  set (page := Js.or_num (Js.parseInt_opt (q_page q)) 1) in *.
  set (found := List.filter _ _) in *.
  pose proof (ceil_div_least (Z.of_nat (length found)) limit Hl) as Hc.
  split; [exact Hc|].
  intros Hp.
  assert (Hlow : Z.of_nat (length found) <= skip).
  { apply (skip_of_lower page limit skip _ Hsk); [lia | exact Hl | nia]. }
  rewrite window_spec by exact Hs0.
  rewrite (drop_ge (merge_sort newer_first found) (Z.to_nat skip)).
  - now rewrite take_nil.
  - rewrite (Permutation_length (merge_sort_Permutation newer_first found)). lia.
Qed.

Lemma getMeterReadings_totalPages_witness :
  exists pg items,
    getMeterReadings fifteen (identity_of ann)
      {| q_page := Some "3"; q_limit := Some "10"; q_status := None |}
    = Json 200 (DPage 0 pg items)
    /\ (totalPages pg - 1) * 10 < totalItems pg <= totalPages pg * 10
    /\ items = [].
Proof.
  destruct (getMeterReadings fifteen (identity_of ann)
              {| q_page := Some "3"; q_limit := Some "10"; q_status := None |})
    as [code [count pg items| | | |]| | |] eqn:E; try (vm_compute in E; discriminate E).
  pose proof (getMeterReadings_totalPages _ _ _ _ _ _ _ E ltac:(vm_compute; reflexivity))
    as [Hc He].
  assert (code = 200 /\ count = 0 /\ totalPages pg = 2 /\ currentPage pg = 3)
    as (-> & -> & Htp & Hcp)
    by (vm_compute in E; injection E as <- <- <- _; repeat split; reflexivity).
  exists pg, items. split; [reflexivity|]. split; [exact Hc|].
  apply He. rewrite Htp, Hcp. lia.
Defined.

(** * The connection singleton, the health endpoints and the sockets *)
Section DatabaseFacts.
Import Database.

(** The timers run until the first attempt that succeeds. *)
Lemma retry_until_success messages rest :
  let run := retry ((Rejects <$> messages) ++ Resolves :: rest)
                   {| connected := false |} in
  connected (fst run) = true
  /\ count_connects (snd run) = S (length messages)
  /\ count_timers (snd run) = length messages
  /\ count_listeners (snd run) = 1%nat.
Proof.
  cbv zeta. induction messages as [|m ms IH]; [repeat split; reflexivity|].
  cbn [fmap list_fmap app retry connect connected].
  destruct (retry _ _) as [final later]. cbn [fst snd] in *.
  destruct IH as (H1 & H2 & H3 & H4). split; [exact H1|].
  unfold count_connects, count_timers, count_listeners in *.
  cbn [List.filter length]. rewrite H2, H3, H4. repeat split; reflexivity.
Qed.

(** X23: a first [connect()] whose attempts fail any number of times
    before one succeeds ends connected, having called the driver once
    more than it failed, set one timer of 5000 ms for each failure and
    registered the listeners once. *)
Theorem connect_and_retry_until_success messages rest :
  let run := connect_and_retry ((Rejects <$> messages) ++ Resolves :: rest)
                               {| connected := false |} in
  connected (fst run) = true
  /\ count_connects (snd run) = S (length messages)
  /\ count_timers (snd run) = length messages
  /\ count_listeners (snd run) = 1%nat
  /\ forall ms, In (SetTimeout ms) (snd run) -> ms = 5000.
Proof.
  cbv zeta. destruct messages as [|m ms].
  - repeat split; try reflexivity. cbn. intuition discriminate.
  - cbn [fmap list_fmap app connect_and_retry connect connected].
    pose proof (retry_until_success ms rest) as (H1 & H2 & H3 & H4). cbv zeta in *.
    assert (Ht : forall l x, In (SetTimeout x)
                   (snd (retry l {| connected := false |})) -> x = 5000).
    { clear. intros l. generalize {| connected := false |}.
      induction l as [|d l IH]; intros this x; [intros []|].
      cbn [retry]. unfold connect. destruct (connected this).
      - cbn. intuition discriminate.
      - destruct d as [|m].
        + cbn. intuition (try discriminate).
        + specialize (IH this x). destruct (retry l this) as [f later].
          cbn [snd] in *. cbn [In app]. intros H.
          repeat (destruct H as [H|H];
                  [first [discriminate H | injection H as <-; reflexivity]|]).
          now apply IH. }
    specialize (Ht (((Rejects <$> ms) ++ Resolves :: rest))%list).
    destruct (retry _ _) as [final later]. cbn [fst snd] in *.
    split; [exact H1|].
    unfold count_connects, count_timers, count_listeners in *.
    cbn [List.filter length]. rewrite H2, H3, H4.
    repeat split; try reflexivity.
    intros x Hx. cbn [In] in Hx.
    repeat (destruct Hx as [Hx|Hx];
            [first [discriminate Hx | injection Hx as <-; reflexivity]|]).
    now apply Ht.
Qed.

(** X24: on a connected instance [connect()] returns without calling
    the driver, and so does [disconnect()] on an instance that is not
    connected; a failed [disconnect()] leaves the instance connected;
    and every successful [connect()] after a [disconnect()] registers the
    listeners again. *)
Theorem connect_disconnect_compose driver this :
  connected this = true ->
  connect driver this = (Returned, this, [])
  /\ disconnect driver (snd (fst (disconnect Resolves this)))
     = (Returned, {| connected := false |}, [])
  /\ (forall message,
        connected (snd (fst (disconnect (Rejects message) this))) = true)
  /\ count_listeners
       (snd (connect Resolves (snd (fst (disconnect Resolves this))))) = 1%nat.
Proof.
  intros H. unfold connect, disconnect. rewrite H. cbn. now rewrite H.
Qed.

Lemma connect_disconnect_compose_witness :
  connect (Rejects None) {| connected := true |}
  = (Returned, {| connected := true |}, []).
Proof.
  exact (proj1 (connect_disconnect_compose (Rejects None) {| connected := true |}
                  eq_refl)).
Defined.

End DatabaseFacts.

(** X25: both health endpoints report the database as [connected]
    exactly when the ready state of the driver is 1; the check behind
    [/healthcheck] then has status [ok] and otherwise [error], whereas
    [/health] answers 200 with status [success] in either case. *)
Theorem health_reports readyState :
  h_database (snd (health readyState)) = h_database (onHealthCheck readyState)
  /\ (h_database (onHealthCheck readyState) = "connected" <-> readyState = 1)
  /\ (h_status (onHealthCheck readyState) = "ok" <-> readyState = 1)
  /\ (h_status (onHealthCheck readyState) = "error" <-> readyState <> 1)
  /\ fst (health readyState) = 200
  /\ h_status (snd (health readyState)) = "success".
Proof.
  unfold health, onHealthCheck, Database.getConnectionStatus.
  cbn [fst snd h_database h_status].
  destruct (Z.eqb_spec readyState 1) as [E|E]; cbn;
    repeat split; try reflexivity; try assumption; try discriminate;
    intros; try congruence.
Qed.

(** ** The socket registry *)
Section HubFacts.
Import Hub.

(** X26: when a socket that authenticated under a non-empty user id
    disconnects, that user id is removed from the registry, to whichever
    socket the registry mapped it, and no other entry changes; a socket
    that never authenticated, or did so under the empty id, removes
    nothing. *)
Theorem Hub_disconnect_removes (hub : Hub.t) (sid : string) :
  (forall u, socket_userId hub !! sid = Some u -> u <> "" ->
     registry (disconnect sid hub) !! u = None
     /\ forall v, v <> u -> registry (disconnect sid hub) !! v = registry hub !! v)
  /\ (socket_userId hub !! sid = None \/ socket_userId hub !! sid = Some "" ->
      disconnect sid hub = hub).
Proof.
  unfold disconnect. split.
  - intros u Hu Hne. rewrite Hu. cbn [default from_option id].
    unfold Js.truthy_str. destruct (String.eqb_spec u ""); [contradiction|].
    cbn [negb registry]. split; [apply lookup_delete_eq|].
    intros v Hv. now apply lookup_delete_ne.
  - intros [-> | ->]; reflexivity.
Qed.

(** X27: the registry keeps one socket a user: when a user
    authenticates on a second socket the entry points to that socket,
    and when the first socket then disconnects the user is unregistered
    although the second socket is still there. *)
Theorem Hub_first_socket_unregisters (hub : Hub.t) (s1 s2 u : string) :
  u <> "" ->
  s1 <> s2 ->
  let both := authenticate s2 (Some u) (authenticate s1 (Some u) hub) in
  registry both !! u = Some s2
  /\ registry (disconnect s1 both) !! u = None
  /\ socket_userId (disconnect s1 both) !! s2 = Some u.
Proof.
  intros Hu Hs. cbv zeta. unfold authenticate. cbn [registry socket_userId].
  split; [apply lookup_insert_eq|].
  unfold disconnect. cbn [socket_userId registry].
  rewrite lookup_insert_ne by congruence. rewrite lookup_insert_eq.
  cbn [default from_option id]. unfold Js.truthy_str.
  destruct (String.eqb_spec u ""); [contradiction|]. cbn [negb registry socket_userId].
  split; [apply lookup_delete_eq | apply lookup_insert_eq].
Qed.

End HubFacts.

Lemma Hub_disconnect_removes_witness :
  Hub.registry (Hub.disconnect "s1" (Hub.authenticate "s1" (Some "u1") Hub.empty))
    !! "u1" = None.
Proof.
  exact (proj1 (proj1 (Hub_disconnect_removes
                         (Hub.authenticate "s1" (Some "u1") Hub.empty) "s1")
                      "u1" ltac:(apply lookup_insert_eq) ltac:(discriminate))).
Defined.

Lemma Hub_first_socket_unregisters_witness :
  Hub.registry
    (Hub.disconnect "s1"
       (Hub.authenticate "s2" (Some "u1") (Hub.authenticate "s1" (Some "u1") Hub.empty)))
    !! "u1" = None.
Proof.
  exact (proj1 (proj2 (Hub_first_socket_unregisters Hub.empty "s1" "s2" "u1"
                         ltac:(discriminate) ltac:(discriminate)))).
Defined.

Lemma fromMongoError_table_witness :
  er_statusCode <$> fromMongoError cast_failure = Some 404.
Proof.
  destruct (fromMongoError cast_failure) as [r|] eqn:E; [|discriminate E].
  cbn. f_equal.
  exact (proj1 (proj2 (fromMongoError_table cast_failure)) r E).
Defined.
